(** * YT_Downloader_BOT: the session and progress-tracking engine of [bot.py]

    A shallow embedding of [src/bot.py] and the properties of its
    specification.

    Conventions of the embedding.
    - A Python [str] is a [string]; one element stands for one character of
      the text the program receives (code points below 256).  The emoji of the
      message templates are kept as they are written in the source.
    - A Python [float] is a [spec_float] at binary64 ([prec = 53],
      [emax = 1024]); [float(s)], [/] and [int(x)] are the correctly rounded
      IEEE operations.
    - Building a text fails only where the interpreter refuses the length:
      [str * int] raises [OverflowError] for a count that does not fit an
      index.  Running out of memory is not part of the embedding.
    - The two module-level dictionaries [user_data] and [download_progress]
      are finite maps keyed by the chat identifier.
    - Calls that leave the program (the Telegram client, yt-dlp, the clock, the
      temporary directory) are recorded in a log, and what they return or raise
      is an input of the handler that makes them. *)

From Stdlib Require Import ZArith List Ascii String Bool Lia.
From Stdlib Require Import QArith Qround.
From Stdlib Require Import Floats.SpecFloat.
From stdpp Require Import base option list strings gmap fin_maps pretty.

Local Close Scope Q_scope.
Local Open Scope string_scope.
Local Open Scope list_scope.

(** ** Exceptions and results *)

Inductive exn_class :=
| ValueError | IndexError | KeyError | OverflowError | OtherError.

(** An exception: its class, and the text [str(e)] gives. *)
Record exn := Exn { exn_cls : exn_class; exn_str : string }.

Inductive result (A : Type) :=
| Ok (a : A)
| Raise (e : exn).
Arguments Ok {A} a.
Arguments Raise {A} e.

(** ** Python strings *)

Module PyStr.

Definition code (c : ascii) : N := N_of_ascii c.

Definition is_digit (c : ascii) : bool :=
  (48 <=? code c)%N && (code c <=? 57)%N.

Definition digit_value (c : ascii) : N := (code c - 48)%N.

(** [str.isspace] on the characters below 256, the set [str.strip()]
    removes. *)
Definition is_space (c : ascii) : bool :=
  let n := code c in
  ((9 <=? n) && (n <=? 13) || (28 <=? n) && (n <=? 32)
   || (n =? 133) || (n =? 160))%N.

Definition lower (c : ascii) : ascii :=
  let n := code c in
  if ((65 <=? n) && (n <=? 90))%N then ascii_of_N (n + 32) else c.

Fixpoint map_str (f : ascii -> ascii) (s : string) : string :=
  match s with
  | EmptyString => EmptyString
  | String c r => String (f c) (map_str f r)
  end.

(** The capital of a character, as [str.upper] gives it: the letters a-z
    and the accented letters 224-254 (but not the division sign, 247) are moved
    down by 32, and the sharp s (223) becomes two letters.  The micro sign (181)
    and the y with diaeresis (255) have their capitals above 255, outside the
    alphabet of the embedding, and are left as they are. *)
Definition upper_char (c : ascii) : string :=
  let n := code c in
  if ((97 <=? n) && (n <=? 122)
      || (224 <=? n) && (n <=? 254) && negb (n =? 247))%N
  then String (ascii_of_N (n - 32)) EmptyString
  else if (n =? 223)%N then "SS"
  else String c EmptyString.

(** [s.upper()]. *)
Fixpoint upper (s : string) : string :=
  match s with
  | EmptyString => EmptyString
  | String c r => upper_char c +:+ upper r
  end.

Fixpoint rev_onto (s acc : string) : string :=
  match s with
  | EmptyString => acc
  | String c r => rev_onto r (String c acc)
  end.

Definition rev (s : string) : string := rev_onto s EmptyString.

Fixpoint lstrip (p : ascii -> bool) (s : string) : string :=
  match s with
  | EmptyString => EmptyString
  | String c r => if p c then lstrip p r else s
  end.

Definition rstrip (p : ascii -> bool) (s : string) : string :=
  rev (lstrip p (rev s)).

(** [s.strip(chars)] and [s.strip()]: the characters of the set are removed
    at both ends. *)
Definition strip_set (p : ascii -> bool) (s : string) : string :=
  rstrip p (lstrip p s).

Definition strip (s : string) : string := strip_set is_space s.

Definition ascii_eqb (a b : ascii) : bool := (code a =? code b)%N.

(** [s.split(sep)[0]] for a one-character separator: the text before its
    first occurrence, the whole text when there is none. *)
Fixpoint before_first (sep : ascii) (s : string) : string :=
  match s with
  | EmptyString => EmptyString
  | String c r => if ascii_eqb c sep then EmptyString
                  else String c (before_first sep r)
  end.

Fixpoint after_first (sep : ascii) (s : string) : option string :=
  match s with
  | EmptyString => None
  | String c r => if ascii_eqb c sep then Some r else after_first sep r
  end.

(** [s.split(sep)[1]], an [IndexError] when [sep] does not occur. *)
Definition split_second (sep : ascii) (s : string) : option string :=
  match after_first sep s with
  | None => None
  | Some r => Some (before_first sep r)
  end.

(** [s.startswith(p)]: what follows the prefix, when it is one. *)
Fixpoint strip_prefix (p s : string) : option string :=
  match p, s with
  | EmptyString, _ => Some s
  | String a p', String b s' =>
      if ascii_eqb a b then strip_prefix p' s' else None
  | String _ _, EmptyString => None
  end.

Definition startswith (s p : string) : bool :=
  match strip_prefix p s with Some _ => true | None => false end.

Definition endswith (s p : string) : bool := startswith (rev s) (rev p).

(** The slice [s[:n]]. *)
Fixpoint take (n : nat) (s : string) : string :=
  match n, s with
  | O, _ => EmptyString
  | S n', String c r => String c (take n' r)
  | S _, EmptyString => EmptyString
  end.

Fixpoint repeat_nat (s : string) (k : nat) : string :=
  match k with
  | O => EmptyString
  | S k' => s +:+ repeat_nat s k'
  end.

(** The largest index, [sys.maxsize] on a 64-bit machine. *)
Definition ssize_max : Z := 2 ^ 63 - 1.

(** [s * k].  The count is converted to an index first, which raises
    [OverflowError] when it does not fit; a count below one gives the empty
    text.  (The texts the program repeats are one character long: the length
    of the result fits an index whenever the count does.) *)
Definition repeat (s : string) (k : Z) : result string :=
  if ((k <? - ssize_max - 1) || (ssize_max <? k))%Z
  then Raise (Exn OverflowError "cannot fit 'int' into an index-sized integer")
  else Ok (repeat_nat s (Z.to_nat k)).

Definition str_of_Z (z : Z) : string := pretty z.

(** [repr(s)]: between single quotes, or between double quotes when [s]
    holds a single quote and no double one; the backslash and the quote are
    escaped, and so is what [str.isprintable] rejects (below 256: the control
    characters, the no-break space and the soft hyphen). *)
Definition single_quote : ascii := ascii_of_N 39.
Definition double_quote : ascii := ascii_of_N 34.
Definition backslash : ascii := ascii_of_N 92.

Fixpoint contains (c : ascii) (s : string) : bool :=
  match s with
  | EmptyString => false
  | String d r => ascii_eqb c d || contains c r
  end.

Definition is_printable (c : ascii) : bool :=
  let n := code c in
  negb ((n <? 32) || (127 <=? n) && (n <=? 160) || (n =? 173))%N.

Definition hex_digit (n : N) : ascii :=
  if (n <? 10)%N then ascii_of_N (48 + n) else ascii_of_N (87 + n).

Definition repr_char (quote c : ascii) : string :=
  let n := code c in
  if ascii_eqb c quote || ascii_eqb c backslash
  then String backslash (String c EmptyString)
  else if (n =? 9)%N then String backslash "t"
  else if (n =? 10)%N then String backslash "n"
  else if (n =? 13)%N then String backslash "r"
  else if is_printable c then String c EmptyString
  else String backslash
         (String "x" (String (hex_digit (n / 16))
                             (String (hex_digit (n mod 16)) EmptyString))).

Fixpoint repr_chars (quote : ascii) (s : string) : string :=
  match s with
  | EmptyString => EmptyString
  | String c r => repr_char quote c +:+ repr_chars quote r
  end.

Definition repr (s : string) : string :=
  let quote :=
    if contains single_quote s && negb (contains double_quote s)
    then double_quote else single_quote in
  String quote (repr_chars quote s) +:+ String quote EmptyString.

End PyStr.

(** ** Python floats *)

Module PyFloat.

Definition prec : Z := 53.
Definition emax : Z := 1024.

(** What the text of a float literal denotes before rounding. *)
Inductive literal :=
| LitNan
| LitInf (neg : bool)
| LitDec (neg : bool) (m : N) (e : Z).   (* m * 10^e *)

(** Digits at the head of a text: their value, their number, the rest. *)
Fixpoint digits (s : string) (acc : N) (n : nat) : N * nat * string :=
  match s with
  | String c r =>
      if PyStr.is_digit c
      then digits r (acc * 10 + PyStr.digit_value c)%N (S n)
      else (acc, n, s)
  | EmptyString => (acc, n, s)
  end.

Definition sign (s : string) : bool * string :=
  match s with
  | String "-" r => (true, r)
  | String "+" r => (false, r)
  | _ => (false, s)
  end.

(** The exponent part: taken only when a digit follows the optional sign. *)
Definition exponent (s : string) : Z * string :=
  match s with
  | String c r =>
      if PyStr.ascii_eqb (PyStr.lower c) "e" then
        let '(neg, r1) := sign r in
        let '(v, n, r2) := digits r1 0%N O in
        match n with
        | O => (0%Z, s)
        | S _ => ((if neg then - Z.of_N v else Z.of_N v)%Z, r2)
        end
      else (0%Z, s)
  | EmptyString => (0%Z, s)
  end.

(** [[sign] digits [. digits] [exponent]], at least one digit. *)
Definition parse_decimal (neg : bool) (s : string) : option literal :=
  let '(i, ni, r1) := digits s 0%N O in
  let '(m, nf, r2) :=
    match r1 with
    | String "." r => let '(m, nf, r') := digits r i O in (m, nf, r')
    | _ => (i, O, r1)
    end in
  match (ni + nf)%nat with
  | O => None
  | S _ =>
      let '(e, r3) := exponent r2 in
      match r3 with
      | EmptyString => Some (LitDec neg m (e - Z.of_nat nf))
      | String _ _ => None
      end
  end.

Definition parse_literal (s : string) : option literal :=
  let '(neg, r) := sign s in
  let low := PyStr.map_str PyStr.lower r in
  if (low =? "inf") || (low =? "infinity") then Some (LitInf neg)
  else if low =? "nan" then Some LitNan
  else parse_decimal neg r.

(** Underscores are dropped when each stands between two digits. *)
Fixpoint drop_underscores (prev : option ascii) (s : string) : option string :=
  let digit_before :=
    match prev with Some p => PyStr.is_digit p | None => false end in
  match s with
  | EmptyString =>
      match prev with
      | Some "_"%char => None
      | _ => Some EmptyString
      end
  | String "_" r =>
      if digit_before then drop_underscores (Some "_"%char) r else None
  | String c r =>
      match prev with
      | Some "_"%char =>
          if PyStr.is_digit c
          then option_map (String c) (drop_underscores (Some c) r)
          else None
      | _ => option_map (String c) (drop_underscores (Some c) r)
      end
  end.

(** The white space [float] accepts around the literal. *)
Definition is_float_space (c : ascii) : bool :=
  let n := PyStr.code c in
  ((9 <=? n) && (n <=? 13) || (n =? 32) || (n =? 133) || (n =? 160))%N.

Definition of_Z (z : Z) : spec_float := binary_normalize prec emax z 0 false.

(** The correctly rounded value of [m / 10^k]: the quotient is taken with
    more than [prec + 2] bits and a sticky last bit. *)
Definition of_quotient (neg : bool) (m : positive) (k : positive) : spec_float :=
  let d := (10 ^ Z.pos k)%Z in
  let s := Z.max 0 (Zdigits2 d + prec + 3 - Zdigits2 (Z.pos m)) in
  let '(q, r) := Z.div_eucl (Z.shiftl (Z.pos m) s) d in
  let sticky := if (r =? 0)%Z then 0%Z else 1%Z in
  let m' := (2 * q + sticky)%Z in
  binary_normalize prec emax (if neg then - m' else m')%Z (- s - 1) neg.

Definition of_literal (l : literal) : spec_float :=
  match l with
  | LitNan => S754_nan
  | LitInf neg => S754_infinity neg
  | LitDec neg 0%N _ => S754_zero neg
  | LitDec neg (Npos m) e =>
      match e with
      | Zneg k => of_quotient neg m k
      | _ => binary_normalize prec emax
               ((if neg then Z.neg m else Z.pos m) * 10 ^ e)%Z 0 neg
      end
  end.

(** [float(s)] for a text [s]. *)
Definition float (s : string) : result spec_float :=
  let s1 := PyStr.map_str
              (fun c => if ((PyStr.code c =? 133) || (PyStr.code c =? 160))%N
                        then " "%char else c) s in
  match drop_underscores None s1 with
  | None => Raise (Exn ValueError ("could not convert string to float: "
                                   +:+ PyStr.repr s))
  | Some s2 =>
      match parse_literal (PyStr.strip_set is_float_space s2) with
      | None => Raise (Exn ValueError ("could not convert string to float: "
                                   +:+ PyStr.repr s))
      | Some l => Ok (of_literal l)
      end
  end.

Definition div (x y : spec_float) : spec_float := SFdiv prec emax x y.
Definition sub (x y : spec_float) : spec_float := SFsub prec emax x y.
Definition gt (x y : spec_float) : bool := SFltb y x.

(** [int(x)]: truncation towards zero. *)
Definition int (x : spec_float) : result Z :=
  match x with
  | S754_nan => Raise (Exn ValueError "cannot convert float NaN to integer")
  | S754_infinity _ =>
      Raise (Exn OverflowError "cannot convert float infinity to integer")
  | S754_zero _ => Ok 0%Z
  | S754_finite s m e =>
      let v := match e with
               | Zneg k => Z.shiftr (Z.pos m) (Z.pos k)
               | _ => Z.shiftl (Z.pos m) e
               end in
      Ok (if s then - v else v)%Z
  end.

End PyFloat.

(** ** The progress bar *)

Definition is_percent_sign (c : ascii) : bool := PyStr.ascii_eqb c "%".

(** The [try] block of [create_progress_bar]:
    [float(percentage_str.strip('%').split('.')[0])], and [0] when that raises
    [ValueError] or [IndexError]. *)
Definition percent_value (percentage_str : string) : result spec_float :=
  match PyFloat.float
          (PyStr.before_first "." (PyStr.strip_set is_percent_sign percentage_str))
  with
  | Ok x => Ok x
  | Raise e =>
      match exn_cls e with
      | ValueError | IndexError => Ok (S754_zero false)
      | _ => Raise e
      end
  end.

Definition bars : Z := 10.

(** [filled_bars = int(percent_value / 10)]. *)
Definition filled_bars (percentage_str : string) : result Z :=
  match percent_value percentage_str with
  | Ok x => PyFloat.int (PyFloat.div x (PyFloat.of_Z 10))
  | Raise e => Raise e
  end.

Definition empty_bars (filled : Z) : Z := (bars - filled)%Z.

Definition filled_segment : string := "🟦".
Definition empty_segment : string := "⬜".

(** [progress_bar = "🟦" * filled_bars + "⬜" * empty_bars]. *)
Definition progress_bar (filled : Z) : result string :=
  match PyStr.repeat filled_segment filled with
  | Ok a =>
      match PyStr.repeat empty_segment (empty_bars filled) with
      | Ok b => Ok (a +:+ b)
      | Raise e => Raise e
      end
  | Raise e => Raise e
  end.

Definition create_progress_bar (percentage_str : string) : result string :=
  match filled_bars percentage_str with
  | Ok filled =>
      match progress_bar filled with
      | Ok bar => Ok ("`" +:+ bar +:+ "` " +:+ percentage_str)
      | Raise e => Raise e
      end
  | Raise e => Raise e
  end.

(** ** The data model *)

(** An entry of [user_data]: a dictionary with the keys ['url'], ['user_id']
    and ['chat_id'] from its creation, and the keys ['format_message_id'],
    ['format'], ['progress_message_id'] and ['title'] once they are assigned. *)
Record session := Session {
  url : string;
  user_id : Z;
  chat_id : Z;
  format_message_id : option Z;
  format : option string;
  progress_message_id : option Z;
  title : option string
}.

(** The values of the ['status'] key of a progress entry. *)
Inductive status := starting | downloading | finished.

(** An entry of [download_progress]. *)
Record progress := Progress {
  p_status : status;
  percent : string;
  speed : string;
  eta : string;
  last_update : spec_float
}.

Record state := State {
  user_data : gmap Z session;
  download_progress : gmap Z progress
}.

Definition set_user_data (f : gmap Z session -> gmap Z session) (st : state) : state :=
  State (f (user_data st)) (download_progress st).

Definition set_download_progress (f : gmap Z progress -> gmap Z progress)
    (st : state) : state :=
  State (user_data st) (f (download_progress st)).

Definition with_format_message_id (v : Z) (s : session) : session :=
  Session (url s) (user_id s) (chat_id s) (Some v) (format s)
          (progress_message_id s) (title s).

Definition with_format (v : string) (s : session) : session :=
  Session (url s) (user_id s) (chat_id s) (format_message_id s) (Some v)
          (progress_message_id s) (title s).

Definition with_progress_message_id (v : Z) (s : session) : session :=
  Session (url s) (user_id s) (chat_id s) (format_message_id s) (format s)
          (Some v) (title s).

Definition with_title (v : string) (s : session) : session :=
  Session (url s) (user_id s) (chat_id s) (format_message_id s) (format s)
          (progress_message_id s) (Some v).

Definition with_status (v : status) (p : progress) : progress :=
  Progress v (percent p) (speed p) (eta p) (last_update p).

(** An inline keyboard: rows of one button, each a label and its callback
    data. *)
Definition keyboard := list (string * string).

(** What the program asks of its collaborators. *)
Inductive action :=
| reply_text (chat : Z) (text : string) (markup : keyboard)
| query_answer (chat : Z)
| query_edit_message_text (chat : Z) (text : string)
| edit_message_text (chat message_id : Z) (text : string)
| send_audio (chat : Z) (file caption audio_title performer : string)
| send_video (chat : Z) (file caption : string) (width height duration : Z)
| delete_message (chat message_id : Z)
| send_message (chat : Z) (text : string) (markup : keyboard)
| to_thread_blocking_download (chat : Z) (target format_type : string)
| logger_error (text : string).

(** ** Handlers as state transformers that may raise *)

Definition M (A : Type) : Type := state -> result A * state * list action.

Definition ret {A} (a : A) : M A := fun st => (Ok a, st, []).

Definition raise {A} (e : exn) : M A := fun st => (Raise e, st, []).

Definition bind {A B} (m : M A) (k : A -> M B) : M B :=
  fun st =>
    match m st with
    | (Ok a, st1, l1) => let '(r, st2, l2) := k a st1 in (r, st2, l1 ++ l2)
    | (Raise e, st1, l1) => (Raise e, st1, l1)
    end.

Declare Scope py_scope.
Delimit Scope py_scope with py.
Notation "x <- m ;; k" := (bind m (fun x => k))
  (at level 100, m at next level, right associativity) : py_scope.
Notation "m ;;; k" := (bind m (fun _ => k))
  (at level 100, right associativity) : py_scope.
Local Open Scope py_scope.

(** [try: m except Exception as e: h e]. *)
Definition try_except {A} (m : M A) (h : exn -> M A) : M A :=
  fun st =>
    match m st with
    | (Ok a, st1, l1) => (Ok a, st1, l1)
    | (Raise e, st1, l1) => let '(r, st2, l2) := h e st1 in (r, st2, l1 ++ l2)
    end.

(** [try: m finally: f]: [f] runs however [m] ends. *)
Definition try_finally {A} (m : M A) (f : M unit) : M A :=
  fun st =>
    let '(r, st1, l1) := m st in
    match f st1 with
    | (Ok _, st2, l2) => (r, st2, l1 ++ l2)
    | (Raise e, st2, l2) => (Raise e, st2, l1 ++ l2)
    end.

Definition get_state : M state := fun st => (Ok st, st, []).

Definition modify (f : state -> state) : M unit := fun st => (Ok tt, f st, []).

(** A call of a collaborator that returns nothing the program uses. *)
Definition call (a : action) (outcome : option exn) : M unit :=
  fun st => (match outcome with None => Ok tt | Some e => Raise e end, st, [a]).

(** A call that returns the identifier of the message it sent. *)
Definition call_message (a : action) (outcome : result Z) : M Z :=
  fun st => (outcome, st, [a]).

(** [d[key]] on a key that may be missing. *)
Definition subscript {A} (key : string) (v : option A) : M A :=
  match v with
  | Some a => ret a
  | None => raise (Exn KeyError ("'" +:+ key +:+ "'"))
  end.

(** [user_data[chat]]. *)
Definition user_data_at (chat : Z) : M session :=
  st <- get_state ;;
  match user_data st !! chat with
  | Some s => ret s
  | None => raise (Exn KeyError (PyStr.str_of_Z chat))
  end.

(** [user_data[chat][key] = v]. *)
Definition update_session (chat : Z) (f : session -> session) : M unit :=
  s <- user_data_at chat ;;
  modify (set_user_data (insert chat (f s))).

(** [download_progress[chat][key] = v]. *)
Definition update_progress (chat : Z) (f : progress -> progress) : M unit :=
  st <- get_state ;;
  match download_progress st !! chat with
  | Some p => modify (set_download_progress (insert chat (f p)))
  | None => raise (Exn KeyError (PyStr.str_of_Z chat))
  end.

(** [del download_progress[chat]]. *)
Definition del_progress (chat : Z) : M unit :=
  st <- get_state ;;
  match download_progress st !! chat with
  | Some _ => modify (set_download_progress (delete chat))
  | None => raise (Exn KeyError (PyStr.str_of_Z chat))
  end.

(** A [for] loop over a list. *)
Fixpoint for_each {A} (l : list A) (body : A -> M unit) : M unit :=
  match l with
  | [] => ret tt
  | x :: r => body x ;;; for_each r body
  end.

Definition lift {A} (r : result A) : M A := fun st => (r, st, []).

(** ** The locator pattern *)

(** The constructs of [youtube_regex]; [DotPlus] is [.+]. *)
Inductive regex :=
| Str (s : string)
| Seq (a b : regex)
| Alt (a b : regex)
| Opt (a : regex)
| DotPlus.

Definition newline : ascii := ascii_of_nat 10.
Definition nl : string := String newline EmptyString.

(** One or more characters other than a line feed, then [k] on the rest; the
    longest run is tried first. *)
Fixpoint dot_plus (s : string) (k : string -> bool) : bool :=
  match s with
  | EmptyString => false
  | String c r =>
      if PyStr.ascii_eqb c newline then false else dot_plus r k || k r
  end.

(** A backtracking matcher: [k] decides on what is left of the text. *)
Fixpoint matches (r : regex) (s : string) (k : string -> bool) : bool :=
  match r with
  | Str p => match PyStr.strip_prefix p s with Some rest => k rest | None => false end
  | Seq a b => matches a s (fun rest => matches b rest k)
  | Alt a b => matches a s k || matches b s k
  | Opt a => matches a s k || k s
  | DotPlus => dot_plus s k
  end.

(** [re.match(r, s)]: the pattern matches at the start of the text. *)
Definition re_match (r : regex) (s : string) : bool := matches r s (fun _ => true).

(** [(https?://)?(www\.)?(youtube|youtu|youtube-nocookie)\.(com|be)/.+] *)
Definition youtube_regex : regex :=
  Seq (Opt (Seq (Str "http") (Seq (Opt (Str "s")) (Str "://"))))
 (Seq (Opt (Str "www."))
 (Seq (Alt (Str "youtube") (Alt (Str "youtu") (Str "youtube-nocookie")))
 (Seq (Str ".")
 (Seq (Alt (Str "com") (Str "be"))
 (Seq (Str "/") DotPlus))))).

(** ** [handle_url] *)

(** The text message of an update: its text, its chat and its sender. *)
Record message := Message {
  text : string;
  msg_chat_id : Z;
  from_user_id : Z
}.

Definition invalid_url_text : string :=
  "❌ *Invalid YouTube URL!*" +:+ nl +:+ "Please send a valid YouTube link.".

Definition choose_format_text : string :=
  "🌌 *URL received!* Choose your desired format:".

Definition format_keyboard : keyboard :=
  [("🎥 MP4 Video", "format_mp4"); ("🎵 MP3 Audio", "format_mp3")].

(** [reply] is what [update.message.reply_text] returns or raises. *)
Definition handle_url (update : message) (reply : result Z) : M unit :=
  let url := PyStr.strip (text update) in
  let chat := msg_chat_id update in
  if negb (re_match youtube_regex url) then
    _ <- call_message (reply_text chat invalid_url_text []) reply ;;
    ret tt
  else
    modify (set_user_data
              (insert chat (Session url (from_user_id update) chat
                                    None None None None))) ;;;
    message_id <- call_message (reply_text chat choose_format_text format_keyboard)
                               reply ;;
    update_session chat (with_format_message_id message_id).

(** ** The progress hook *)

(** The dictionary yt-dlp passes to the hook, and the clock when it runs. *)
Record hook_call := HookCall {
  h_status : string;
  h_percent_str : option string;
  h_speed_str : option string;
  h_eta_str : option string;
  h_clock : spec_float
}.

Definition progress_hook (chat : Z) (d : hook_call) : M unit :=
  if h_status d =? "downloading" then
    modify (set_download_progress
              (insert chat (Progress downloading
                                     (default "0%" (h_percent_str d))
                                     (default "N/A" (h_speed_str d))
                                     (default "N/A" (h_eta_str d))
                                     (h_clock d))))
  else if h_status d =? "finished" then
    modify (set_download_progress
              (insert chat (Progress finished "100%" "N/A" "0s" (h_clock d))))
  else ret tt.

(** ** [download_media] *)

(** The metadata [extract_info] returns, as far as the program reads it. *)
Record info := Info {
  i_title : option string;
  i_width : option Z;
  i_height : option Z;
  i_duration : option Z
}.

(** What yt-dlp does in one run of [blocking_download]. *)
Record worker_env := WorkerEnv {
  extract_info : result info;
  hooks : list hook_call;
  download : option exn
}.

(** What the collaborators do during one run of [download_media]. *)
Record media_env := MediaEnv {
  clock_start : spec_float;
  tmp_dir : string;
  edit_starting : option exn;
  worker : worker_env;
  listdir : list (string * N);
  edit_uploading : option exn;
  send_media : option exn;
  delete_status : option exn;
  send_summary : option exn;
  edit_error : option exn;
  send_error : option exn
}.

(** The local variables of a run of [download_media] that reached the
    download. *)
Record job := Job {
  j_chat : Z;
  j_url : string;
  j_format : string;
  j_progress_message_id : Z
}.

Definition size_limit : N := 2000 * 1024 * 1024.

Definition starting_text : string := "📥 *Starting Download...*".

Definition uploading_text : string :=
  "📤 *Uploading to Telegram...*" +:+ nl +:+ nl
  +:+ "✅ Download completed successfully!".

Definition complete_text (title format_type : string) (file_size : N) : string :=
  "✅ *Download Complete!*" +:+ nl +:+ nl
  +:+ "**Title:** " +:+ title +:+ nl
  +:+ "**Format:** " +:+ PyStr.upper format_type +:+ nl
  +:+ "**Size:** " +:+ pretty (file_size / (1024 * 1024))%N +:+ "MB".

Definition another_keyboard : keyboard :=
  [("🔄 Download Another", "another_download")].

Definition error_head : string :=
  "❌ *Download/Upload Failed!*" +:+ nl +:+ nl +:+ "Reason: `".

Definition error_tail : string :=
  "`" +:+ nl +:+ nl +:+ "Please try a different video or try again later.".

Definition error_msg (e : exn) : string :=
  error_head +:+ PyStr.take 100 (exn_str e) +:+ error_tail.

(** [raise Exception(f"{prefix}{e}")]. *)
Definition reraise {A} (prefix : string) (e : exn) : M A :=
  raise (Exn OtherError (prefix +:+ exn_str e)).

(** Lines 231-234 of [blocking_download]: the metadata [extract_info]
    returned is stored. *)
Definition store_metadata (j : job) (extracted : result info) : M info :=
  i <- lift extracted ;;
  let title := default "download" (i_title i) in
  update_session (j_chat j) (with_title title) ;;;
  update_progress (j_chat j) (with_status downloading) ;;;
  ret i.

(** Line 235: [ydl.download] calls the hook as it goes, then returns or
    raises. *)
Definition run_download (j : job) (calls : list hook_call) (outcome : option exn)
    : M unit :=
  for_each calls (progress_hook (j_chat j)) ;;;
  lift (match outcome with None => Ok tt | Some e => Raise e end).

(** The function run on the worker thread. *)
Definition blocking_download (j : job) (w : worker_env) : M info :=
  i <- store_metadata j (extract_info w) ;;
  run_download j (hooks w) (download w) ;;;
  ret i.

(** Lines 213-223: the locals are read and the progress entry is created. *)
Definition prepare (chat : Z) (env : media_env) : M job :=
  s <- user_data_at chat ;;
  format_type <- subscript "format" (format s) ;;
  message_id <- subscript "progress_message_id" (progress_message_id s) ;;
  modify (set_download_progress
            (insert chat (Progress starting "0%" "N/A" "N/A" (clock_start env)))) ;;;
  ret (Job chat (url s) format_type message_id).

(** The first file of the directory listing with one of the two suffixes. *)
Definition is_media_file (f : string * N) : bool :=
  PyStr.endswith (fst f) ".mp4" || PyStr.endswith (fst f) ".mp3".

(** Lines 250-313: the file is found, checked and sent. *)
Definition deliver (j : job) (i : info) (title : string) (env : media_env) : M unit :=
  let chat := j_chat j in
  match find is_media_file (listdir env) with
  | None => raise (Exn OtherError "Downloaded file not found or is empty.")
  | Some (_, 0%N) => raise (Exn OtherError "Downloaded file not found or is empty.")
  | Some (name, file_size) =>
      let downloaded_file := tmp_dir env +:+ "/" +:+ name in
      call (edit_message_text chat (j_progress_message_id j) uploading_text)
           (edit_uploading env) ;;;
      let caption := (if j_format j =? "mp4" then "🎥 " else "🎵 ") +:+ title in
      try_except
        (if j_format j =? "mp3" then
           call (send_audio chat downloaded_file caption (PyStr.take 64 title)
                            "YouTube")
                (send_media env)
         else
           if (size_limit <? file_size)%N then
             raise (Exn OtherError "File too large for Telegram (2GB limit).")
           else
             call (send_video chat downloaded_file caption
                              (default 1280%Z (i_width i))
                              (default 720%Z (i_height i))
                              (default 0%Z (i_duration i)))
                  (send_media env))
        (reraise "Upload to Telegram failed: ") ;;;
      call (delete_message chat (j_progress_message_id j)) (delete_status env) ;;;
      call (send_message chat (complete_text title (j_format j) file_size)
                         another_keyboard)
           (send_summary env)
  end.

(** The [except Exception as e] clause of [download_media]. *)
Definition report_failure (chat : Z) (env : media_env) (e : exn) : M unit :=
  call (logger_error ("Download/Upload error: " +:+ exn_str e)) None ;;;
  try_except
    (s <- user_data_at chat ;;
     message_id <- subscript "progress_message_id" (progress_message_id s) ;;
     call (edit_message_text chat message_id (error_msg e)) (edit_error env))
    (fun _ => call (send_message chat (error_msg e) []) (send_error env)).

(** The [finally] clause of [download_media]. *)
Definition release (chat : Z) : M unit :=
  st <- get_state ;;
  match download_progress st !! chat with
  | Some _ => modify (set_download_progress (delete chat))
  | None => ret tt
  end.

(** Lines 238-248: the status is edited, the download runs on the worker
    thread, and the title it stored is read back. *)
Definition fetch (j : job) (env : media_env) : M (info * string) :=
  try_except
    (call (edit_message_text (j_chat j) (j_progress_message_id j) starting_text)
          (edit_starting env) ;;;
     call (to_thread_blocking_download (j_chat j) (j_url j) (j_format j)) None ;;;
     i <- blocking_download j (worker env) ;;
     s <- user_data_at (j_chat j) ;;
     title <- subscript "title" (title s) ;;
     ret (i, title))
    (reraise "Download process failed: ").

Definition download_media (chat : Z) (env : media_env) : M unit :=
  try_finally
    (try_except
       (st <- get_state ;;
        match user_data st !! chat with
        | None => ret tt
        | Some _ =>
            j <- prepare chat env ;;
            r <- fetch j env ;;
            deliver j (fst r) (snd r) env
        end)
       (report_failure chat env))
    (release chat).

(** ** [button_handler] *)

Record callback_query := CallbackQuery {
  q_chat_id : Z;
  data : string
}.

Record button_env := ButtonEnv {
  answer : option exn;
  edit_expired : option exn;
  reply_progress : result Z;
  media : media_env
}.

Definition expired_text : string :=
  "❌ Session expired. Please send the URL again.".

Definition initializing_text : string :=
  "⚡ *Initializing ultra-fast download...*" +:+ nl +:+ nl
  +:+ "🚀 Preparing multi-threaded download...".

(** Lines 183-203: the choice is recorded and the status message created.
    The result tells whether the handler goes on to [download_media]. *)
Definition accept_format (query : callback_query) (env : button_env) : M bool :=
  let chat := q_chat_id query in
  call (query_answer chat) (answer env) ;;;
  if PyStr.startswith (data query) "format_" then
    st <- get_state ;;
    match user_data st !! chat with
    | None =>
        call (query_edit_message_text chat expired_text) (edit_expired env) ;;;
        ret false
    | Some _ =>
        format_type <-
          match PyStr.split_second "_" (data query) with
          | Some f => ret f
          | None => raise (Exn IndexError "list index out of range")
          end ;;
        update_session chat (with_format format_type) ;;;
        message_id <- call_message (reply_text chat initializing_text [])
                                   (reply_progress env) ;;
        update_session chat (with_progress_message_id message_id) ;;;
        ret true
    end
  else ret false.

Definition button_handler (query : callback_query) (env : button_env) : M unit :=
  go <- accept_format query env ;;
  if go then download_media (q_chat_id query) (media env) else ret tt.

(** ** [progress_updater] *)

(** The clock and the Telegram client when the entry of a chat is handled. *)
Record tick_env := TickEnv {
  clock : Z -> spec_float;
  edit_status : Z -> option exn
}.

Definition staleness_window : spec_float := PyFloat.of_Z 300.

Definition status_text (bar speed_str eta_str : string) : string :=
  "📥 *Downloading...*" +:+ nl +:+ nl
  +:+ bar +:+ nl
  +:+ "**Speed:** " +:+ speed_str +:+ nl
  +:+ "**ETA:** " +:+ eta_str +:+ nl +:+ nl
  +:+ "`Please wait, processing at maximum speed...`".

(** [time.time() - progress_data.get('last_update', 0) > 300]. *)
Definition is_stale (now : spec_float) (progress_data : progress) : bool :=
  PyFloat.gt (PyFloat.sub now (last_update progress_data)) staleness_window.

(** The body of the loop, for one item of [download_progress.items()]. *)
Definition update_one (env : tick_env) (item : Z * progress) : M unit :=
  let '(chat, progress_data) := item in
  try_except
    (if is_stale (clock env chat) progress_data then del_progress chat
     else
       match p_status progress_data with
       | downloading =>
           bar <- lift (create_progress_bar (percent progress_data)) ;;
           st <- get_state ;;
           match user_data st !! chat with
           | Some s =>
               match progress_message_id s with
               | Some message_id =>
                   call (edit_message_text chat message_id
                           (status_text bar (speed progress_data)
                                        (eta progress_data)))
                        (edit_status env chat)
               | None => ret tt
               end
           | None => ret tt
           end
       | _ => ret tt
       end)
    (fun e => call (logger_error ("Progress update error: " +:+ exn_str e)) None).

(** The loop runs over the items the dictionary holds when it starts, here
    in the order of the chat identifiers; Python takes them in the order the
    entries were created.  The chats are handled independently of one
    another, so the order shows only in the order of the calls in the log. *)
Definition progress_updater (env : tick_env) : M unit :=
  st <- get_state ;;
  for_each (map_to_list (download_progress st)) (update_one env).

(** ** The handlers between their suspension points

    [download_media] hands [blocking_download] to a worker thread and is
    suspended until the thread ends.  The definitions below cut it at that
    point, so that what other handlers, the hook and the reporter do in the
    meantime can be placed in between.  [step] places any update there, more
    than the dispatcher of [main] does: what holds of every run of [step]
    holds of the program whatever the dispatcher hands over.  The program as
    [main] runs it, cut at every [await], follows below. *)

(** [m], with what it raised given back as a value. *)
Definition attempt {A} (m : M A) : M (result A) :=
  fun st => let '(r, st1, l1) := m st in (Ok r, st1, l1).

(** The [except] and [finally] clauses of [download_media] around [m]. *)
Definition settle (chat : Z) (env : media_env) (m : M unit) : M unit :=
  try_finally (try_except m (report_failure chat env)) (release chat).

(** Up to the call of [asyncio.to_thread]. *)
Definition launch (chat : Z) (env : media_env) : M job :=
  j <- prepare chat env ;;
  try_except
    (call (edit_message_text chat (j_progress_message_id j) starting_text)
          (edit_starting env) ;;;
     call (to_thread_blocking_download chat (j_url j) (j_format j)) None ;;;
     ret j)
    (reraise "Download process failed: ").

(** [download_media] until it is suspended: the job it waits for, or [None]
    when it ended before. *)
Definition download_media_start (chat : Z) (env : media_env) : M (option job) :=
  st <- get_state ;;
  match user_data st !! chat with
  | None => settle chat env (ret tt) ;;; ret None
  | Some _ =>
      r <- attempt (launch chat env) ;;
      match r with
      | Ok j => ret (Some j)
      | Raise e => settle chat env (raise e) ;;; ret None
      end
  end.

(** [download_media] from the point where the worker thread has ended with
    [r]. *)
Definition download_media_resume (j : job) (r : result info) (env : media_env)
    : M unit :=
  settle (j_chat j) env
    (x <- try_except
            (i <- lift r ;;
             s <- user_data_at (j_chat j) ;;
             title <- subscript "title" (title s) ;;
             ret (i, title))
            (reraise "Download process failed: ") ;;
     deliver j (fst x) (snd x) env).

Definition button_handler_start (query : callback_query) (env : button_env)
    : M (option job) :=
  go <- accept_format query env ;;
  if go then download_media_start (q_chat_id query) (media env) else ret None.

(** How far the worker thread of a job is. *)
Inductive worker_state :=
| extracting
| running (i : info)
| ended (r : result info).

(** A suspended [download_media] and its worker thread. *)
Record task := Task { t_job : job; t_worker : worker_state }.

Record system := System {
  sys_state : state;
  tasks : list task
}.

Inductive event :=
| ev_message (update : message) (reply : result Z)
| ev_callback (query : callback_query) (env : button_env)
| ev_extracted (n : nat) (r : result info)
| ev_hook (n : nat) (d : hook_call)
| ev_downloaded (n : nat) (outcome : option exn)
| ev_resume (n : nat) (env : media_env)
| ev_tick (env : tick_env).

Definition set_worker (w : worker_state) (t : task) : task := Task (t_job t) w.

(** One event; [None] when the task it names is not at that point. *)
Definition step (sys : system) (ev : event) : option (system * list action) :=
  let st := sys_state sys in
  match ev with
  | ev_message update reply =>
      let '(_, st1, l) := handle_url update reply st in
      Some (System st1 (tasks sys), l)
  | ev_callback query env =>
      let '(r, st1, l) := button_handler_start query env st in
      match r with
      | Ok (Some j) => Some (System st1 (tasks sys ++ [Task j extracting]), l)
      | _ => Some (System st1 (tasks sys), l)
      end
  | ev_extracted n r =>
      match tasks sys !! n with
      | Some (Task j extracting) =>
          let '(r1, st1, l) := store_metadata j r st in
          let w := match r1 with Ok i => running i | Raise e => ended (Raise e) end in
          Some (System st1 (<[n := Task j w]> (tasks sys)), l)
      | _ => None
      end
  | ev_hook n d =>
      match tasks sys !! n with
      | Some (Task j (running _)) =>
          let '(_, st1, l) := progress_hook (j_chat j) d st in
          Some (System st1 (tasks sys), l)
      | _ => None
      end
  | ev_downloaded n outcome =>
      match tasks sys !! n with
      | Some (Task j (running i)) =>
          let w := ended (match outcome with None => Ok i | Some e => Raise e end) in
          Some (System st (<[n := Task j w]> (tasks sys)), [])
      | _ => None
      end
  | ev_resume n env =>
      match tasks sys !! n with
      | Some (Task j (ended r)) =>
          let '(_, st1, l) := download_media_resume j r env st in
          Some (System st1 (delete n (tasks sys)), l)
      | _ => None
      end
  | ev_tick env =>
      let '(_, st1, l) := progress_updater env st in
      Some (System st1 (tasks sys), l)
  end.

Fixpoint run (sys : system) (evs : list event) : option system :=
  match evs with
  | [] => Some sys
  | ev :: rest =>
      match step sys ev with
      | Some (sys1, _) => run sys1 rest
      | None => None
      end
  end.

Definition initial : system := System (State ∅ ∅) [].


(** [download_media] run piece by piece, with nothing in between. *)
Definition download_media_in_steps (chat : Z) (env : media_env) : M unit :=
  suspended <- download_media_start chat env ;;
  match suspended with
  | None => ret tt
  | Some j =>
      r <- attempt (blocking_download j (worker env)) ;;
      download_media_resume j r env
  end.

(** ** The program under the dispatcher

    Every handler is a coroutine: it runs until its next [await], and what
    other coroutines and the worker thread do to the two dictionaries in the
    meantime is what it finds when it goes on.  [main] builds the application
    with its defaults: the dispatcher awaits the handler of an update before
    it takes up the next update, and the job queue runs [progress_updater] as
    a task of its own.  The definitions below are the handlers of [bot.py]
    once more, cut at every [await], and the program that runs them so.  What
    the worker thread writes (lines 232-233 and the hook) falls between two
    pieces of the coroutines. *)

Module Async.

(** A coroutine after it has run a piece: the tables it leaves and the calls
    it made, and then either it has ended, or it waits for the last of those
    calls, or for the thread it handed [blocking_download] to.  It goes on
    in the tables it finds. *)
Inductive coro (A : Type) : Type :=
| Done (r : result A) (st : state) (l : list action)
| Await (st : state) (l : list action) (k : state -> coro A)
| Thread (st : state) (l : list action) (j : job)
         (k : result info -> state -> coro A).
Arguments Done {A} r st l.
Arguments Await {A} st l k.
Arguments Thread {A} st l j k.

Definition C (A : Type) : Type := state -> coro A.

(** The calls made before the piece was entered are put in front. *)
Definition logged {A} (pre : list action) (c : coro A) : coro A :=
  match c with
  | Done r st l => Done r st (pre ++ l)
  | Await st l k => Await st (pre ++ l) k
  | Thread st l j k => Thread st (pre ++ l) j k
  end.

Fixpoint bind_coro {A B} (c : coro A) (f : A -> C B) : coro B :=
  match c with
  | Done (Ok a) st l => logged l (f a st)
  | Done (Raise e) st l => Done (Raise e) st l
  | Await st l k => Await st l (fun st' => bind_coro (k st') f)
  | Thread st l j k => Thread st l j (fun r st' => bind_coro (k r st') f)
  end.

Fixpoint except_coro {A} (c : coro A) (h : exn -> C A) : coro A :=
  match c with
  | Done (Ok a) st l => Done (Ok a) st l
  | Done (Raise e) st l => logged l (h e st)
  | Await st l k => Await st l (fun st' => except_coro (k st') h)
  | Thread st l j k => Thread st l j (fun r st' => except_coro (k r st') h)
  end.

(** The [finally] clause of the program has no [await]. *)
Fixpoint finally_coro {A} (c : coro A) (f : M unit) : coro A :=
  match c with
  | Done r st l =>
      match f st with
      | (Ok _, st2, l2) => Done r st2 (l ++ l2)
      | (Raise e, st2, l2) => Done (Raise e) st2 (l ++ l2)
      end
  | Await st l k => Await st l (fun st' => finally_coro (k st') f)
  | Thread st l j k => Thread st l j (fun r st' => finally_coro (k r st') f)
  end.

Definition ret {A} (a : A) : C A := fun st => Done (Ok a) st [].

Definition bind {A B} (m : C A) (f : A -> C B) : C B :=
  fun st => bind_coro (m st) f.

Definition try_except {A} (m : C A) (h : exn -> C A) : C A :=
  fun st => except_coro (m st) h.

Definition try_finally {A} (m : C A) (f : M unit) : C A :=
  fun st => finally_coro (m st) f.

(** A stretch of the handler without an [await]. *)
Definition atom {A} (m : M A) : C A :=
  fun st => let '(r, st1, l) := m st in Done r st1 l.

(** [await] of a call that returns nothing the program uses. *)
Definition await (a : action) (outcome : option exn) : C unit :=
  fun st =>
    Await st [a]
      (fun st' =>
         Done (match outcome with None => Ok tt | Some e => Raise e end) st' []).

(** [await] of a call that returns the identifier of the message it sent. *)
Definition await_message (a : action) (outcome : result Z) : C Z :=
  fun st => Await st [a] (fun st' => Done outcome st' []).

(** [await asyncio.to_thread(blocking_download)]. *)
Definition to_thread (j : job) : C info :=
  fun st =>
    Thread st [to_thread_blocking_download (j_chat j) (j_url j) (j_format j)] j
      (fun r st' => Done r st' []).

Declare Scope co_scope.
Delimit Scope co_scope with co.
Notation "x <- m ;; k" := (bind m (fun x => k))
  (at level 100, m at next level, right associativity) : co_scope.
Notation "m ;;; k" := (bind m (fun _ => k))
  (at level 100, right associativity) : co_scope.
Local Open Scope co_scope.

Fixpoint for_each {A} (l : list A) (body : A -> C unit) : C unit :=
  match l with
  | [] => ret tt
  | x :: r => body x ;;; for_each r body
  end.

Definition handle_url (update : message) (reply : result Z) : C unit :=
  let url := PyStr.strip (text update) in
  let chat := msg_chat_id update in
  if negb (re_match youtube_regex url) then
    _ <- await_message (reply_text chat invalid_url_text []) reply ;;
    ret tt
  else
    atom (modify (set_user_data
                    (insert chat (Session url (from_user_id update) chat
                                          None None None None)))) ;;;
    message_id <- await_message
                    (reply_text chat choose_format_text format_keyboard)
                    reply ;;
    atom (update_session chat (with_format_message_id message_id)).

(** Lines 83-101: the two commands answer with a fixed text. *)
Definition start_text : string :=
  "🚀 *Welcome to Ultra-Fast YouTube Downloader Bot!*" +:+ nl +:+ nl
  +:+ "Send me a YouTube link and I'll download it for you at maximum speed!".

Definition help_text : string :=
  "✨ *How to use:*" +:+ nl
  +:+ "1. Send me a YouTube URL" +:+ nl
  +:+ "2. Choose your preferred format (MP4/MP3)" +:+ nl
  +:+ "3. Watch real-time progress" +:+ nl
  +:+ "4. Receive your downloaded media!" +:+ nl +:+ nl
  +:+ "✅ All videos are supported.".

Definition start (update : message) (reply : result Z) : C unit :=
  _ <- await_message (reply_text (msg_chat_id update) start_text []) reply ;;
  ret tt.

Definition help_command (update : message) (reply : result Z) : C unit :=
  _ <- await_message (reply_text (msg_chat_id update) help_text []) reply ;;
  ret tt.

(** Lines 341-349. *)
Definition another_text : string := "✨ *Send me another YouTube URL*".

Definition another_download_handler (query : callback_query)
    (answered edited : option exn) : C unit :=
  await (query_answer (q_chat_id query)) answered ;;;
  await (query_edit_message_text (q_chat_id query) another_text) edited.

Definition deliver (j : job) (i : info) (title : string) (env : media_env)
    : C unit :=
  let chat := j_chat j in
  match find is_media_file (listdir env) with
  | None =>
      atom (raise (Exn OtherError "Downloaded file not found or is empty."))
  | Some (_, 0%N) =>
      atom (raise (Exn OtherError "Downloaded file not found or is empty."))
  | Some (name, file_size) =>
      let downloaded_file := tmp_dir env +:+ "/" +:+ name in
      await (edit_message_text chat (j_progress_message_id j) uploading_text)
            (edit_uploading env) ;;;
      let caption := (if j_format j =? "mp4" then "🎥 " else "🎵 ") +:+ title in
      try_except
        (if j_format j =? "mp3" then
           await (send_audio chat downloaded_file caption (PyStr.take 64 title)
                             "YouTube")
                 (send_media env)
         else
           if (size_limit <? file_size)%N then
             atom (raise (Exn OtherError
                            "File too large for Telegram (2GB limit)."))
           else
             await (send_video chat downloaded_file caption
                               (default 1280%Z (i_width i))
                               (default 720%Z (i_height i))
                               (default 0%Z (i_duration i)))
                   (send_media env))
        (fun e => atom (reraise "Upload to Telegram failed: " e)) ;;;
      await (delete_message chat (j_progress_message_id j))
            (delete_status env) ;;;
      await (send_message chat (complete_text title (j_format j) file_size)
                          another_keyboard)
            (send_summary env)
  end.

Definition report_failure (chat : Z) (env : media_env) (e : exn) : C unit :=
  atom (call (logger_error ("Download/Upload error: " +:+ exn_str e)) None) ;;;
  try_except
    (s <- atom (user_data_at chat) ;;
     message_id <- atom (subscript "progress_message_id"
                                   (progress_message_id s)) ;;
     await (edit_message_text chat message_id (error_msg e)) (edit_error env))
    (fun _ => await (send_message chat (error_msg e) []) (send_error env)).

Definition fetch (j : job) (env : media_env) : C (info * string) :=
  try_except
    (await (edit_message_text (j_chat j) (j_progress_message_id j)
                              starting_text)
           (edit_starting env) ;;;
     i <- to_thread j ;;
     s <- atom (user_data_at (j_chat j)) ;;
     title <- atom (subscript "title" (title s)) ;;
     ret (i, title))
    (fun e => atom (reraise "Download process failed: " e)).

Definition download_media (chat : Z) (env : media_env) : C unit :=
  try_finally
    (try_except
       (st <- atom get_state ;;
        match user_data st !! chat with
        | None => ret tt
        | Some _ =>
            j <- atom (prepare chat env) ;;
            r <- fetch j env ;;
            deliver j (fst r) (snd r) env
        end)
       (report_failure chat env))
    (release chat).

Definition accept_format (query : callback_query) (env : button_env) : C bool :=
  let chat := q_chat_id query in
  await (query_answer chat) (answer env) ;;;
  if PyStr.startswith (data query) "format_" then
    st <- atom get_state ;;
    match user_data st !! chat with
    | None =>
        await (query_edit_message_text chat expired_text) (edit_expired env) ;;;
        ret false
    | Some _ =>
        format_type <-
          atom (lift (match PyStr.split_second "_" (data query) with
                      | Some f => Ok f
                      | None => Raise (Exn IndexError "list index out of range")
                      end)) ;;
        atom (update_session chat (with_format format_type)) ;;;
        message_id <- await_message (reply_text chat initializing_text [])
                                    (reply_progress env) ;;
        atom (update_session chat (with_progress_message_id message_id)) ;;;
        ret true
    end
  else ret false.

Definition button_handler (query : callback_query) (env : button_env) : C unit :=
  go <- accept_format query env ;;
  if go then download_media (q_chat_id query) (media env) else ret tt.

Definition update_one (env : tick_env) (item : Z * progress) : C unit :=
  let '(chat, progress_data) := item in
  try_except
    (if is_stale (clock env chat) progress_data then atom (del_progress chat)
     else
       match p_status progress_data with
       | downloading =>
           bar <- atom (lift (create_progress_bar (percent progress_data))) ;;
           st <- atom get_state ;;
           match user_data st !! chat with
           | Some s =>
               match progress_message_id s with
               | Some message_id =>
                   await (edit_message_text chat message_id
                            (status_text bar (speed progress_data)
                                         (eta progress_data)))
                         (edit_status env chat)
               | None => ret tt
               end
           | None => ret tt
           end
       | _ => ret tt
       end)
    (fun e =>
       atom (call (logger_error ("Progress update error: " +:+ exn_str e))
                  None)).

Definition progress_updater (env : tick_env) : C unit :=
  st <- atom get_state ;;
  for_each (map_to_list (download_progress st)) (update_one env).

(** *** The program *)

(** A handler in progress: suspended in a call, or in the thread it handed
    [blocking_download] to, with how far that thread is. *)
Inductive activity :=
| in_call (k : state -> coro unit)
| in_thread (j : job) (w : worker_state) (k : result info -> state -> coro unit).

Record program := Program {
  tables : state;
  handlers : list activity;
  reporters : list (state -> coro unit)
}.

(** What happens next.  An update goes to the handler [main] registered for
    it: a text that is no command to [handle_url], the commands [/start] and
    [/help] to theirs, and a callback query to [button_handler] or to
    [another_download_handler] by the pattern its data matches.  The other
    events are a call that returns to the handler or to a reporter that waits
    for it, the steps of the worker thread, and a tick of the job queue. *)
Inductive event :=
| ev_message (update : message) (reply : result Z)
| ev_callback (query : callback_query) (env : button_env)
| ev_call_returns (n : nat)
| ev_extracted (n : nat) (r : result info)
| ev_hook (n : nat) (d : hook_call)
| ev_downloaded (n : nat) (outcome : option exn)
| ev_thread_returns (n : nat)
| ev_tick (env : tick_env)
| ev_tick_call_returns (n : nat)
| ev_start (update : message) (reply : result Z)
| ev_help (update : message) (reply : result Z)
| ev_another (query : callback_query) (answered edited : option exn).

Definition tables_of {A} (c : coro A) : state :=
  match c with Done _ st _ | Await st _ _ | Thread st _ _ _ => st end.

Definition calls_of {A} (c : coro A) : list action :=
  match c with Done _ _ l | Await _ l _ | Thread _ l _ _ => l end.

(** Where a handler is after a piece; an exception that leaves it is logged
    by the dispatcher and ends it. *)
Definition activity_of (c : coro unit) : option activity :=
  match c with
  | Done _ _ _ => None
  | Await _ _ k => Some (in_call k)
  | Thread _ _ j k => Some (in_thread j extracting k)
  end.

(** [progress_updater] hands nothing to a thread. *)
Definition reporter_of (c : coro unit) : option (state -> coro unit) :=
  match c with
  | Await _ _ k => Some k
  | _ => None
  end.

Definition put {A} (n : nat) (x : option A) (l : list A) : list A :=
  match x with
  | Some a => <[n := a]> l
  | None => delete n l
  end.

(** An update is taken up when the handler of the last one has returned. *)
Definition take_up (p : program) (c : coro unit) : option (program * list action) :=
  match handlers p with
  | [] =>
      Some (Program (tables_of c) (option_list (activity_of c)) (reporters p),
            calls_of c)
  | _ :: _ => None
  end.

(** One event; [None] when the program is not at that point. *)
Definition step (p : program) (ev : event) : option (program * list action) :=
  let st := tables p in
  match ev with
  | ev_message update reply => take_up p (handle_url update reply st)
  | ev_callback query env =>
      if PyStr.startswith (data query) "format_"
      then take_up p (button_handler query env st) else None
  | ev_start update reply => take_up p (start update reply st)
  | ev_help update reply => take_up p (help_command update reply st)
  | ev_another query answered edited =>
      if PyStr.startswith (data query) "another_download"
      then take_up p (another_download_handler query answered edited st)
      else None
  | ev_call_returns n =>
      match handlers p !! n with
      | Some (in_call k) =>
          let c := k st in
          Some (Program (tables_of c) (put n (activity_of c) (handlers p))
                        (reporters p), calls_of c)
      | _ => None
      end
  | ev_extracted n r =>
      match handlers p !! n with
      | Some (in_thread j extracting k) =>
          let '(r1, st1, l) := store_metadata j r st in
          let w := match r1 with Ok i => running i | Raise e => ended (Raise e) end in
          Some (Program st1 (<[n := in_thread j w k]> (handlers p))
                        (reporters p), l)
      | _ => None
      end
  | ev_hook n d =>
      match handlers p !! n with
      | Some (in_thread j (running _) _) =>
          let '(_, st1, l) := progress_hook (j_chat j) d st in
          Some (Program st1 (handlers p) (reporters p), l)
      | _ => None
      end
  | ev_downloaded n outcome =>
      match handlers p !! n with
      | Some (in_thread j (running i) k) =>
          let w := ended (match outcome with None => Ok i | Some e => Raise e end) in
          Some (Program st (<[n := in_thread j w k]> (handlers p))
                        (reporters p), [])
      | _ => None
      end
  | ev_thread_returns n =>
      match handlers p !! n with
      | Some (in_thread j (ended r) k) =>
          let c := k r st in
          Some (Program (tables_of c) (put n (activity_of c) (handlers p))
                        (reporters p), calls_of c)
      | _ => None
      end
  | ev_tick env =>
      let c := progress_updater env st in
      Some (Program (tables_of c) (handlers p)
                    (reporters p ++ option_list (reporter_of c)), calls_of c)
  | ev_tick_call_returns n =>
      match reporters p !! n with
      | Some k =>
          let c := k st in
          Some (Program (tables_of c) (handlers p)
                        (put n (reporter_of c) (reporters p)), calls_of c)
      | None => None
      end
  end.

Fixpoint run (p : program) (evs : list event) : option program :=
  match evs with
  | [] => Some p
  | ev :: rest =>
      match step p ev with
      | Some (p1, _) => run p1 rest
      | None => None
      end
  end.

(** The program when [main] has started it. *)
Definition initial : program := Program (State ∅ ∅) [] [].



(** A coroutine run to its end with nothing in between; the thread does
    what [w] says. *)
Fixpoint complete {A} (w : worker_env) (c : coro A)
    : result A * state * list action :=
  match c with
  | Done r st l => (r, st, l)
  | Await st l k =>
      let '(r, st1, l1) := complete w (k st) in (r, st1, l ++ l1)
  | Thread st l j k =>
      let '(r, st1, l1) := blocking_download j w st in
      let '(r2, st2, l2) := complete w (k r st1) in
      (r2, st2, l ++ l1 ++ l2)
  end.

End Async.

(** ** Vocabulary of the properties *)

Definition outcome_of {A} (x : result A * state * list action) : result A := x.1.1.
Definition final {A} (x : result A * state * list action) : state := x.1.2.
Definition log_of {A} (x : result A * state * list action) : list action := x.2.

(** The chat an action addresses; the log file has none. *)
Definition action_chat (a : action) : option Z :=
  match a with
  | reply_text c _ _ | query_answer c | query_edit_message_text c _
  | edit_message_text c _ _ | send_audio c _ _ _ _ | send_video c _ _ _ _ _
  | delete_message c _ | send_message c _ _
  | to_thread_blocking_download c _ _ => Some c
  | logger_error _ => None
  end.

Definition is_send_video (a : action) : bool :=
  match a with send_video _ _ _ _ _ _ => true | _ => false end.

Definition is_send_audio (a : action) : bool :=
  match a with send_audio _ _ _ _ _ => true | _ => false end.

(** A job is started by handing [blocking_download] to a thread. *)
Definition is_job_start (a : action) : bool :=
  match a with to_thread_blocking_download _ _ _ => true | _ => false end.

(** The status message is created by a reply. *)
Definition is_reply (a : action) : bool :=
  match a with reply_text _ _ _ => true | _ => false end.

(** The number a float stands for; not-a-number and the infinities stand
    for none. *)
Definition value (x : spec_float) : option Q :=
  match x with
  | S754_zero _ => Some 0%Q
  | S754_finite s m e =>
      let n := if s then Z.neg m else Z.pos m in
      Some match e with
           | Z.neg k => Qmake n (2 ^ k)
           | _ => inject_Z (n * 2 ^ e)
           end
  | _ => None
  end.

(** [n] copies of a symbol, one after the other. *)
Fixpoint copies (n : nat) (symbol : string) : string :=
  match n with
  | O => EmptyString
  | S n' => symbol +:+ copies n' symbol
  end.

(** The text of a bar as the specification describes it: between two
    backquotes [filled] filled segments, then [empty] empty ones; after a
    space, the percentage as it was given. *)
Definition drawing (filled empty : nat) (percentage_str : string) : string :=
  "`" +:+ copies filled "🟦" +:+ copies empty "⬜" +:+ "` " +:+ percentage_str.

(** Reading a text that [create_progress_bar] returned: the bar stands
    between the first two backquotes. *)
Definition bar_of (text : string) : string :=
  match text with
  | String "`" r => PyStr.before_first "`" r
  | _ => EmptyString
  end.

(** How often a symbol stands in a text. *)
Fixpoint occurrences (symbol s : string) : nat :=
  match s with
  | EmptyString => O
  | String _ r =>
      ((if PyStr.startswith s symbol then 1 else 0) + occurrences symbol r)%nat
  end.

Definition filled_segments (text : string) : nat :=
  occurrences "🟦" (bar_of text).

Definition empty_segments (text : string) : nat :=
  occurrences "⬜" (bar_of text).

(** The bar in the words of the specification: ten segments, of which
    [floor(percent / 10)], clamped into [0, 10], are filled. *)
Definition drawn_as_specified (text : string) (percent : Q) : Prop :=
  filled_segments text = Z.to_nat (Z.max 0 (Z.min 10 (Qfloor (percent / 10))))
  /\ (filled_segments text + empty_segments text = 10)%nat.

(** The mantissa of [10.0], and where the remainder of a division by it
    lies. *)
Definition ten_m : positive := 5629499534213120.

Definition ten_loc (r : Z) : location :=
  if (r =? 0)%Z then loc_Exact
  else loc_Inexact (if (r <? 3)%Z then Lt else Gt).

Definition inexact (l : location) : bool :=
  match l with loc_Exact => false | _ => true end.

Fixpoint all_digits (s : string) : bool :=
  match s with
  | EmptyString => true
  | String c r => PyStr.is_digit c && all_digits r
  end.

(** The session and the progress entry of a chat are both gone. *)
Definition cleared (chat : Z) (st : state) : Prop :=
  user_data st !! chat = None /\ download_progress st !! chat = None.

Definition GiB : N := 1024 * 1024 * 1024.

(** Between two states no session has been removed or added, and those
    there keep their locator, their format and their status message. *)
Definition sessions_kept (st st' : state) : Prop :=
  forall c,
    match user_data st !! c with
    | Some s =>
        exists s', user_data st' !! c = Some s'
                   /\ url s' = url s /\ format s' = format s
                   /\ progress_message_id s' = progress_message_id s
    | None => user_data st' !! c = None
    end.

Definition keeps_sessions {A} (m : M A) : Prop :=
  forall st, sessions_kept st (final (m st)).

(** No action of the log addresses the chat. *)
Definition silent_for (chat : Z) (l : list action) : Prop :=
  Forall (fun a => action_chat a <> Some chat) l.

(** A computation that starts with a known piece: the clauses of a [try]
    see what follows the piece. *)
Definition after {A} (pre : list action) (x : result A * state * list action)
    : result A * state * list action :=
  (outcome_of x, final x, pre ++ log_of x).

(** The notice of a failure in the words of the specification: a heading,
    the cause, and the advice to retry or to try other input. *)
Definition retry_advice : string :=
  "Please try a different video or try again later.".

Definition failure_notice (cause : string) : string :=
  "❌ *Download/Upload Failed!*" +:+ nl +:+ nl
  +:+ "Reason: `" +:+ cause +:+ "`" +:+ nl +:+ nl +:+ retry_advice.

(** The two formats a requester can choose: the label of each button and the
    callback data it sends. *)
Definition format_choices : keyboard :=
  [("🎥 MP4 Video", "format_mp4"); ("🎵 MP3 Audio", "format_mp3")].

(** A message that presents the format choices to a chat. *)
Definition presents_formats (chat : Z) (a : action) : Prop :=
  exists prompt, a = reply_text chat prompt format_choices.

(** The message that turns a text down. *)
Definition invalid_url_notice : string :=
  "❌ *Invalid YouTube URL!*" +:+ nl +:+ "Please send a valid YouTube link.".

(** The failure of the video branch on a file above the limit. *)
Definition too_large : exn :=
  Exn OtherError "Upload to Telegram failed: File too large for Telegram (2GB limit).".

(** A coroutine and a handler agree when the coroutine, run to its end with
    nothing in between, does what the handler does. *)
Definition agrees {A} (w : worker_env) (mc : Async.C A) (m : M A) : Prop :=
  forall st, Async.complete w (mc st) = m st.

(** ** Vocabulary of the further properties *)

Fixpoint no_newline (s : string) : bool :=
  match s with
  | EmptyString => true
  | String c r => negb (PyStr.ascii_eqb c newline) && no_newline r
  end.

(** The texts a pattern denotes. *)
Fixpoint lang (r : regex) (s : string) : Prop :=
  match r with
  | Str p => s = p
  | Seq a b => exists s1 s2, s = s1 +:+ s2 /\ lang a s1 /\ lang b s2
  | Alt a b => lang a s \/ lang b s
  | Opt a => lang a s \/ s = EmptyString
  | DotPlus => s <> EmptyString /\ no_newline s = true
  end.

(** The shape of a locator: an optional scheme, an optional [www.], one of
    three host names, a point, [com] or [be], a slash, and at least one more
    character that is not a line feed. *)
Definition locator_shape (s : string) : Prop :=
  exists sch w h t c rest,
    sch ∈ [""; "http://"; "https://"] /\ w ∈ [""; "www."]
    /\ h ∈ ["youtube"; "youtu"; "youtube-nocookie"] /\ t ∈ ["com"; "be"]
    /\ c <> newline
    /\ s = sch +:+ w +:+ h +:+ "." +:+ t +:+ "/" +:+ String c rest.

(** The actions of a log that address the chat. *)
Definition chat_actions (chat : Z) (l : list action) : list action :=
  filter (fun a => action_chat a = Some chat) l.

(** What the reporter sends to a chat for an entry of the progress store,
    given the session table. *)
Definition item_push (env : tick_env) (sessions : gmap Z session) (chat : Z)
    (pd : progress) : list action :=
  if is_stale (clock env chat) pd then []
  else
    match p_status pd, create_progress_bar (percent pd), sessions !! chat with
    | downloading, Ok bar, Some s =>
        match progress_message_id s with
        | Some m =>
            [edit_message_text chat m (status_text bar (speed pd) (eta pd))]
        | None => []
        end
    | _, _, _ => []
    end.

(** What one tick of the reporter sends to a chat. *)
Definition expected_push (env : tick_env) (st : state) (chat : Z) : list action :=
  match download_progress st !! chat with
  | Some pd => item_push env (user_data st) chat pd
  | None => []
  end.

(** The entry of a chat after one tick of the reporter. *)
Definition surviving (env : tick_env) (chat : Z) (entry : option progress)
    : option progress :=
  match entry with
  | Some pd => if is_stale (clock env chat) pd then None else Some pd
  | None => None
  end.

(** The entry a call of the hook stores, if it stores one. *)
Definition hook_entry (d : hook_call) : option progress :=
  if (h_status d =? "downloading")%string then
    Some (Progress downloading (default "0%" (h_percent_str d))
                   (default "N/A" (h_speed_str d))
                   (default "N/A" (h_eta_str d)) (h_clock d))
  else if (h_status d =? "finished")%string then
    Some (Progress finished "100%" "N/A" "0s" (h_clock d))
  else None.

(** A computation that takes every state to one related to it. *)
Definition respects (R : state -> state -> Prop) {A} (m : M A) : Prop :=
  forall st, R st (final (m st)).

(** No session is removed. *)
Definition sessions_stay (st st' : state) : Prop :=
  forall c, is_Some (user_data st !! c) -> is_Some (user_data st' !! c).

(** No progress entry has appeared, except perhaps one for [chat]. *)
Definition progress_within (chat : Z) (st st' : state) : Prop :=
  forall c, is_Some (download_progress st' !! c) ->
    c = chat \/ is_Some (download_progress st !! c).

(** No progress entry has appeared. *)
Definition progress_shrinks (st st' : state) : Prop :=
  forall c, is_Some (download_progress st' !! c) ->
    is_Some (download_progress st !! c).

(** Every job in flight has the session of its chat. *)
Definition jobs_have_sessions (sys : system) : Prop :=
  forall t, t ∈ tasks sys ->
    is_Some (user_data (sys_state sys) !! j_chat (t_job t)).

(** *** The progress store under the dispatcher *)













(** The texts whose capitals stay within the alphabet of the embedding:
    neither the micro sign nor the y with diaeresis occurs. *)
Fixpoint capitals_below_256 (s : string) : bool :=
  match s with
  | EmptyString => true
  | String c r =>
      negb ((PyStr.code c =? 181) || (PyStr.code c =? 255))%N
      && capitals_below_256 r
  end.

(** The attachment [download_media] sends for a file of the directory. *)
Definition send_action (j : job) (i : info) (t : string) (env : media_env)
    (name : string) : action :=
  let file := tmp_dir env +:+ "/" +:+ name in
  let caption := (if (j_format j =? "mp4")%string then "🎥 " else "🎵 ") +:+ t in
  if (j_format j =? "mp3")%string then
    send_audio (j_chat j) file caption (PyStr.take 64 t) "YouTube"
  else
    send_video (j_chat j) file caption (default 1280%Z (i_width i))
               (default 720%Z (i_height i)) (default 0%Z (i_duration i)).

(** The report of a failure [e]: the log file, the edit of the status
    message, and the new message when the edit fails. *)
Definition failure_report (chat pm : Z) (env : media_env) (e : exn) : list action :=
  logger_error ("Download/Upload error: " +:+ exn_str e)
  :: edit_message_text chat pm (error_msg e)
  :: match edit_error env with
     | None => []
     | Some _ => [send_message chat (error_msg e) []]
     end.

(** [Exception(f"Download process failed: {e}")]. *)
Definition download_failed (e : exn) : exn :=
  Exn OtherError ("Download process failed: " +:+ exn_str e).

(** [Exception(f"Upload to Telegram failed: {e}")]. *)
Definition upload_failed (e : exn) : exn :=
  Exn OtherError ("Upload to Telegram failed: " +:+ exn_str e).

Definition artifact_missing : exn :=
  Exn OtherError "Downloaded file not found or is empty.".

(** * Properties *)

(** ** Texts *)

Lemma append_cons (c : ascii) (a b : string) :
  String c a +:+ b = String c (a +:+ b).
Proof. reflexivity. Qed.

Lemma append_assoc (a b c : string) : (a +:+ b) +:+ c = a +:+ (b +:+ c).
Proof.
  induction a as [|d a IH]; [reflexivity|].
  now rewrite !append_cons, IH.
Qed.

Lemma rev_onto_append (a b acc : string) :
  PyStr.rev_onto (a +:+ b) acc = PyStr.rev_onto b (PyStr.rev_onto a acc).
Proof.
  revert acc. induction a as [|c a IH]; intros acc; [reflexivity|].
  rewrite append_cons. cbn [PyStr.rev_onto]. apply IH.
Qed.

Lemma rev_onto_acc (a acc : string) :
  PyStr.rev_onto a acc = PyStr.rev a +:+ acc.
Proof.
  unfold PyStr.rev. revert acc.
  induction a as [|c a IH]; intros acc; cbn [PyStr.rev_onto]; [reflexivity|].
  rewrite (IH (String c acc)), (IH (String c EmptyString)).
  now rewrite append_assoc.
Qed.

Lemma rev_append (a b : string) :
  PyStr.rev (a +:+ b) = PyStr.rev b +:+ PyStr.rev a.
Proof.
  unfold PyStr.rev at 1. rewrite rev_onto_append. apply rev_onto_acc.
Qed.

Lemma rev_rev (a : string) : PyStr.rev (PyStr.rev a) = a.
Proof.
  induction a as [|c a IH]; [reflexivity|].
  change (String c a) with (String c EmptyString +:+ a) at 1.
  rewrite rev_append, rev_append, IH. reflexivity.
Qed.

Lemma lstrip_stops (p : ascii -> bool) (x y : string) (c : ascii) :
  p c = false ->
  PyStr.lstrip p (x +:+ String c y) = PyStr.lstrip p x +:+ String c y.
Proof.
  intros Hc. induction x as [|d x IH].
  - change ("" +:+ String c y) with (String c y). cbn [PyStr.lstrip].
    now rewrite Hc.
  - rewrite append_cons. cbn [PyStr.lstrip].
    destruct (p d); [exact IH | now rewrite append_cons].
Qed.

Lemma rstrip_stops (p : ascii -> bool) (a x : string) (c : ascii) :
  p c = false ->
  PyStr.rstrip p (a +:+ String c x) = a +:+ String c (PyStr.rstrip p x).
Proof.
  intros Hc. unfold PyStr.rstrip.
  change (String c x) with (String c EmptyString +:+ x).
  rewrite !rev_append. rewrite append_assoc.
  change (PyStr.rev (String c EmptyString) +:+ PyStr.rev a)
    with (String c (PyStr.rev a)).
  rewrite (lstrip_stops p _ _ c Hc).
  change (String c (PyStr.rev a)) with (String c EmptyString +:+ PyStr.rev a).
  rewrite !rev_append, rev_rev. rewrite append_assoc. reflexivity.
Qed.

(** The function reads the digits before the point and nothing else. *)
Lemma digit_is_no_sign (c : ascii) :
  PyStr.is_digit c = true ->
  is_percent_sign c = false /\ PyStr.ascii_eqb c "." = false.
Proof.
  unfold is_percent_sign, PyStr.ascii_eqb, PyStr.is_digit. intros H.
  apply andb_prop in H as [H1 _]. apply N.leb_le in H1.
  split; apply N.eqb_neq; intros E; rewrite E in H1;
    vm_compute in H1; now apply H1.
Qed.

Lemma digits_before_point (a x : string) :
  all_digits a = true -> a <> EmptyString ->
  PyStr.before_first "." (PyStr.strip_set is_percent_sign (a +:+ String "." x))
  = a.
Proof.
  intros Hd Hne. unfold PyStr.strip_set.
  assert (Hl : PyStr.lstrip is_percent_sign (a +:+ String "." x)
               = a +:+ String "." x).
  { destruct a as [|c a]; [congruence|].
    cbn [all_digits] in Hd. apply andb_prop in Hd as [Hc _].
    rewrite append_cons. cbn [PyStr.lstrip].
    now rewrite (proj1 (digit_is_no_sign c Hc)). }
  rewrite Hl, rstrip_stops by reflexivity.
  clear Hl Hne. induction a as [|c a IH]; [reflexivity|].
  cbn [all_digits] in Hd. apply andb_prop in Hd as [Hc Hd].
  rewrite append_cons. cbn [PyStr.before_first].
  now rewrite (proj2 (digit_is_no_sign c Hc)), (IH Hd).
Qed.

(** ** Binary64 arithmetic *)

Section Binary64.

Local Open Scope Z_scope.

Lemma digits2_pos_bounds (p : positive) :
  2 ^ (Z.pos (digits2_pos p) - 1) <= Z.pos p < 2 ^ Z.pos (digits2_pos p).
Proof.
  induction p as [p IH|p IH|]; cbn [digits2_pos].
  - rewrite Pos2Z.inj_succ.
    replace (Z.succ (Z.pos (digits2_pos p)) - 1) with (Z.succ (Z.pos (digits2_pos p) - 1)) by lia.
    rewrite !Z.pow_succ_r by lia. lia.
  - rewrite Pos2Z.inj_succ.
    replace (Z.succ (Z.pos (digits2_pos p)) - 1) with (Z.succ (Z.pos (digits2_pos p) - 1)) by lia.
    rewrite !Z.pow_succ_r by lia. lia.
  - cbn. lia.
Qed.

Lemma Zdigits2_unique (m d : Z) :
  0 < m -> 2 ^ (d - 1) <= m < 2 ^ d -> Zdigits2 m = d.
Proof.
  intros Hm [Hlo Hhi]. destruct m as [|p|p]; try lia.
  cbn [Zdigits2]. pose proof (digits2_pos_bounds p) as [Blo Bhi].
  assert (0 <= d).
  { destruct (Z.leb_spec 0 d); [assumption|].
    rewrite Z.pow_neg_r in Hhi by lia. lia. }
  assert (Z.pos (digits2_pos p) - 1 < d).
  { apply (Z.pow_lt_mono_r_iff 2); lia. }
  assert (d - 1 < Z.pos (digits2_pos p)).
  { destruct (Z.leb_spec 1 d).
    - apply (Z.pow_lt_mono_r_iff 2); lia.
    - lia. }
  lia.
Qed.

Lemma of_Z_ten : PyFloat.of_Z 10 = S754_finite false ten_m (-49).
Proof. vm_compute. reflexivity. Qed.

Lemma div_eucl_div_mod (a b : Z) : Z.div_eucl a b = (a / b, a mod b).
Proof. unfold Z.div, Z.modulo. now destruct (Z.div_eucl a b). Qed.

Lemma shr_fexp_none (m e : Z) (l : location) :
  fexp PyFloat.prec PyFloat.emax (Zdigits2 m + e) <= e ->
  shr_fexp PyFloat.prec PyFloat.emax m e l = (shr_record_of_loc m l, e).
Proof.
  intros H. unfold shr_fexp, shr.
  destruct (fexp PyFloat.prec PyFloat.emax (Zdigits2 m + e) - e) eqn:E; try reflexivity. lia.
Qed.

Lemma shr_fexp_one (m e : Z) (l : location) :
  fexp PyFloat.prec PyFloat.emax (Zdigits2 m + e) = e + 1 ->
  shr_fexp PyFloat.prec PyFloat.emax m e l = (shr_1 (shr_record_of_loc m l), e + 1).
Proof.
  intros H. unfold shr_fexp, shr.
  replace (fexp PyFloat.prec PyFloat.emax (Zdigits2 m + e) - e) with 1 by lia. reflexivity.
Qed.

(** The location of the remainder of a division by ten. *)
Lemma location_ten (r : Z) :
  0 <= r < 5 ->
  new_location (Z.pos ten_m) (2 ^ 50 * r)
  = if r =? 0 then loc_Exact
    else loc_Inexact (if r <? 3 then Lt else Gt).
Proof.
  intros Hr. unfold new_location.
  change (Z.even (Z.pos ten_m)) with true. cbn match.
  unfold new_location_even.
  assert (r = 0 \/ r = 1 \/ r = 2 \/ r = 3 \/ r = 4) as [->|[->|[->|[->| ->]]]]
    by lia; reflexivity.
Qed.

Lemma div_core_ten (m1 : positive) (e1 e' s : Z) :
  e' = Z.min (fexp PyFloat.prec PyFloat.emax (Zdigits2 (Z.pos m1) + e1 - (53 + -49))) (e1 - -49) ->
  s = e1 - -49 - e' -> 50 <= s ->
  SFdiv_core_binary PyFloat.prec PyFloat.emax (Z.pos m1) e1 (Z.pos ten_m) (-49)
  = ((2 ^ (s - 50) * Z.pos m1) / 5, e',
     ten_loc ((2 ^ (s - 50) * Z.pos m1) mod 5)).
Proof.
  intros He' Hs Hs50. unfold SFdiv_core_binary.
  change (Zdigits2 (Z.pos ten_m)) with 53.
  rewrite <- He', <- Hs.
  assert (Hm' : match s with
                | 0 => Z.pos m1
                | Z.pos _ => Z.shiftl (Z.pos m1) s
                | Z.neg _ => 0
                end = (2 ^ (s - 50) * Z.pos m1) * 2 ^ 50).
  { destruct s as [|p|p]; try lia.
    rewrite Z.shiftl_mul_pow2 by lia.
    replace (Z.pos p) with ((Z.pos p - 50) + 50) at 1 by lia.
    rewrite Z.pow_add_r by lia. lia. }
  rewrite Hm', div_eucl_div_mod.
  change (Z.pos ten_m) with (5 * 2 ^ 50).
  rewrite Z.div_mul_cancel_r by lia.
  rewrite Z.mul_mod_distr_r by lia.
  rewrite (Z.mul_comm ((2 ^ (s - 50) * Z.pos m1) mod 5)).
  change (5 * 2 ^ 50) with (Z.pos ten_m).
  rewrite location_ten by (apply Z.mod_pos_bound; lia).
  reflexivity.
Qed.

Lemma loc_of_shr_record_of_loc (m : Z) (l : location) :
  loc_of_shr_record (shr_record_of_loc m l) = l.
Proof. destruct l as [|[| |]]; reflexivity. Qed.

Lemma shr_record_of_loc_of (mrs : shr_record) :
  shr_record_of_loc (shr_m mrs) (loc_of_shr_record mrs) = mrs.
Proof. destruct mrs as [m [|] [|]]; reflexivity. Qed.

Lemma shr_m_record_of_loc (m : Z) (l : location) :
  shr_m (shr_record_of_loc m l) = m.
Proof. destruct l as [|[| |]]; reflexivity. Qed.

Lemma round_nearest_even_cases (m : Z) (l : location) :
  round_nearest_even m l = m \/ round_nearest_even m l = m + 1.
Proof.
  destruct l as [|[| |]]; cbn; auto. destruct (Z.even m); auto.
Qed.

(** Rounding a mantissa of 53 digits in the normal range, then truncating. *)
Lemma int_round_53 (m e : Z) (l : location) :
  0 < m -> Zdigits2 m = 53 -> -1074 <= e -> e <= -2 ->
  PyFloat.int (binary_round_aux PyFloat.prec PyFloat.emax false m e l)
  = Ok (round_nearest_even m l / 2 ^ (- e)).
Proof.
  intros Hpos Hd Hlo Hhi.
  assert (Hm : 2 ^ 52 <= m < 2 ^ 53).
  { destruct m as [|p|p]; try lia.
    pose proof (digits2_pos_bounds p) as B. cbn [Zdigits2] in Hd.
    rewrite Hd in B. exact B. }
  unfold binary_round_aux.
  rewrite shr_fexp_none by (rewrite Hd; unfold fexp, emin, PyFloat.prec, PyFloat.emax; lia).
  rewrite shr_m_record_of_loc, loc_of_shr_record_of_loc.
  set (M := round_nearest_even m l).
  assert (HM : M = m \/ M = m + 1) by apply round_nearest_even_cases.
  destruct (Z.eq_dec M (2 ^ 53)) as [Hc|Hc].
  - rewrite Hc.
    rewrite shr_fexp_one
      by (change (Zdigits2 (2 ^ 53)) with 54; unfold fexp, emin, PyFloat.prec, PyFloat.emax; lia).
    change (shr_m (shr_1 (shr_record_of_loc (2 ^ 53) loc_Exact))) with (2 ^ 52).
    change (2 ^ 52) with (Z.pos 4503599627370496).
    cbv beta iota.
    replace (e + 1 <=? PyFloat.emax - PyFloat.prec) with true
      by (symmetry; apply Z.leb_le; unfold PyFloat.emax, PyFloat.prec; lia).
    cbn [PyFloat.int]. destruct (e + 1) as [|k|k] eqn:Ek; try lia.
    rewrite Z.shiftr_div_pow2 by lia. f_equal.
    replace (- e) with (1 + Z.pos k) by lia.
    rewrite Z.pow_add_r, <- Z.div_div by lia. reflexivity.
  - assert (HdM : Zdigits2 M = 53) by (apply Zdigits2_unique; lia).
    rewrite shr_fexp_none by (rewrite HdM; unfold fexp, emin, PyFloat.prec, PyFloat.emax; lia).
    rewrite shr_m_record_of_loc.
    destruct M as [|p|p]; try lia.
    replace (e <=? PyFloat.emax - PyFloat.prec) with true
      by (symmetry; apply Z.leb_le; unfold PyFloat.emax, PyFloat.prec; lia).
    cbn [PyFloat.int]. destruct e as [|k|k]; try lia.
    rewrite Z.shiftr_div_pow2 by lia. reflexivity.
Qed.

Lemma shr_1_record (q : Z) (l : location) :
  0 < q ->
  shr_1 (shr_record_of_loc q l)
  = {| shr_m := q / 2; shr_r := Z.odd q; shr_s := inexact l |}.
Proof.
  intros Hq. rewrite <- Z.div2_div.
  destruct q as [|[p|p|]|]; try lia; destruct l as [|[| |]]; reflexivity.
Qed.

(** A mantissa of 54 digits loses its last digit before it is rounded. *)
Lemma int_round_54 (m e : Z) (l : location) :
  0 < m -> Zdigits2 m = 54 -> -1074 <= e -> e <= -3 ->
  PyFloat.int (binary_round_aux PyFloat.prec PyFloat.emax false m e l)
  = Ok (round_nearest_even (m / 2)
            (loc_of_shr_record
               {| shr_m := m / 2; shr_r := Z.odd m; shr_s := inexact l |})
          / 2 ^ (- (e + 1))).
Proof.
  intros Hpos Hd Hlo Hhi.
  assert (Hm : 2 ^ 53 <= m < 2 ^ 54).
  { destruct m as [|p|p]; try lia.
    pose proof (digits2_pos_bounds p) as B. cbn [Zdigits2] in Hd.
    rewrite Hd in B. exact B. }
  assert (Hh : 2 ^ 52 <= m / 2 < 2 ^ 53).
  { split; [apply Z.div_le_lower_bound | apply Z.div_lt_upper_bound]; lia. }
  rewrite <- (int_round_53 (m / 2) (e + 1)); try lia.
  - f_equal. unfold binary_round_aux at 1.
    rewrite shr_fexp_one by (rewrite Hd; unfold fexp, emin, PyFloat.prec, PyFloat.emax; lia).
    rewrite shr_1_record by exact Hpos.
    unfold binary_round_aux.
    rewrite (shr_fexp_none (m / 2)).
    + rewrite shr_m_record_of_loc, loc_of_shr_record_of_loc. reflexivity.
    + rewrite (Zdigits2_unique (m / 2) 53) by lia.
      unfold fexp, emin, PyFloat.prec, PyFloat.emax; lia.
  - apply Zdigits2_unique; lia.
Qed.

Lemma no_carry (m1 q r T U : Z) :
  8 * m1 = 5 * q + r -> 0 <= r < 5 -> 0 <= q -> 0 < U -> T = 8 * U ->
  (q + 1) / T = q / T.
Proof.
  intros Hq Hr Hq0 HU ->.
  pose proof (Z.div_mod q (8 * U) ltac:(lia)) as Hdm.
  pose proof (Z.mod_pos_bound q (8 * U) ltac:(lia)) as Hb.
  set (a := q / (8 * U)) in *. set (b := q mod (8 * U)) in *.
  destruct (Z.eq_dec (b + 1) (8 * U)) as [E|E].
  - exfalso. assert (Hq1 : q + 1 = 8 * (U * (a + 1))) by lia.
    set (W := U * (a + 1)) in *. lia.
  - symmetry. apply (Z.div_unique _ _ _ (b + 1)); lia.
Qed.

Lemma round_up_is_odd (q : Z) (l : location) :
  round_nearest_even (q / 2)
    (loc_of_shr_record
       {| shr_m := q / 2; shr_r := Z.odd q; shr_s := inexact l |})
  = q / 2 + 1 ->
  Z.odd q = true.
Proof.
  destruct (Z.odd q); [reflexivity|].
  destruct (inexact l); cbn; lia.
Qed.

Lemma int_div_ten_normal (m1 : positive) (e1 : Z) :
  Zdigits2 (Z.pos m1) = 53 -> -1070 <= e1 -> e1 <= -1 ->
  PyFloat.int (PyFloat.div (S754_finite false m1 e1) (PyFloat.of_Z 10))
  = Ok (Z.pos m1 / (10 * 2 ^ (- e1))).
Proof.
  intros Hd Hlo Hhi. rewrite of_Z_ten. unfold PyFloat.div, SFdiv.
  rewrite (div_core_ten m1 e1 (e1 - 4) 53);
    [|rewrite Hd; unfold fexp, emin, PyFloat.prec, PyFloat.emax; lia|lia|lia].
  change (2 ^ (53 - 50)) with 8. cbn [xorb].
  pose proof (digits2_pos_bounds m1) as Hm. cbn [Zdigits2] in Hd.
  rewrite Hd in Hm. change (53 - 1) with 52 in Hm.
  set (q := 8 * Z.pos m1 / 5). set (r := (8 * Z.pos m1) mod 5).
  assert (Hqr : 8 * Z.pos m1 = 5 * q + r) by (apply Z.div_mod; lia).
  assert (Hr : 0 <= r < 5) by (apply Z.mod_pos_bound; lia).
  assert (Hq : 2 ^ 52 <= q < 2 ^ 54) by lia.
  assert (Hpow : 0 < 2 ^ (- e1)) by (apply Z.pow_pos_nonneg; lia).
  assert (Hfloor : q / (16 * 2 ^ (- e1)) = Z.pos m1 / (10 * 2 ^ (- e1))).
  { unfold q. rewrite Z.div_div by lia.
    replace (5 * (16 * 2 ^ (- e1))) with (8 * (10 * 2 ^ (- e1))) by lia.
    apply Z.div_mul_cancel_l; lia. }
  destruct (Z.ltb_spec q (2 ^ 53)) as [Hs|Hs].
  - rewrite int_round_53; [|lia|apply Zdigits2_unique; lia|lia|lia].
    f_equal. rewrite <- Hfloor.
    replace (- (e1 - 4)) with (4 + - e1) by lia.
    rewrite Z.pow_add_r by lia. change (2 ^ 4) with 16.
    destruct (round_nearest_even_cases q (ten_loc r)) as [-> | ->];
      [reflexivity|].
    apply (no_carry (Z.pos m1) q r _ (2 * 2 ^ (- e1))); lia.
  - rewrite int_round_54; [|lia|apply Zdigits2_unique; lia|lia|lia].
    f_equal. rewrite <- Hfloor.
    replace (- (e1 - 4 + 1)) with (3 + - e1) by lia.
    rewrite Z.pow_add_r by lia. change (2 ^ 3) with 8.
    match goal with
    | |- ?M / _ = _ =>
        destruct (round_nearest_even_cases (q / 2)
                    (loc_of_shr_record
                       {| shr_m := q / 2; shr_r := Z.odd q;
                          shr_s := inexact (ten_loc r) |})) as [E|E];
        [rewrite E | pose proof (round_up_is_odd q _ E) as Hodd; rewrite E]
    end.
    + rewrite Z.div_div by lia. f_equal. lia.
    + apply Z.odd_spec in Hodd as [h Hh].
      assert (Hhalf : q / 2 = h)
        by (symmetry; apply (Z.div_unique q 2 h 1); lia).
      rewrite Hhalf.
      rewrite <- (no_carry (Z.pos m1) q r (16 * 2 ^ (- e1)) (2 * 2 ^ (- e1)))
        by lia.
      replace (q + 1) with (2 * (h + 1)) by lia.
      replace (16 * 2 ^ (- e1)) with (2 * (8 * 2 ^ (- e1))) by lia.
      symmetry. apply Z.div_mul_cancel_l; lia.
Qed.

Lemma Zdigits2_le (m d : Z) : 0 <= m < 2 ^ d -> 0 <= d -> Zdigits2 m <= d.
Proof.
  intros [Hlo Hhi] Hd. destruct m as [|p|p]; [cbn; lia| |lia].
  cbn [Zdigits2]. pose proof (digits2_pos_bounds p) as [Blo _].
  assert (Z.pos (digits2_pos p) - 1 < d); [|lia].
  apply (Z.pow_lt_mono_r_iff 2); lia.
Qed.

Lemma int_div_ten_tiny (m1 : positive) (e1 : Z) :
  Zdigits2 (Z.pos m1) <= 53 -> -1074 <= e1 -> e1 < -1070 ->
  PyFloat.int (PyFloat.div (S754_finite false m1 e1) (PyFloat.of_Z 10)) = Ok 0.
Proof.
  intros Hd Hlo Hhi. rewrite of_Z_ten. unfold PyFloat.div, SFdiv, SFdiv_core_binary.
  change (Zdigits2 (Z.pos ten_m)) with 53.
  replace (Z.min (fexp PyFloat.prec PyFloat.emax (Zdigits2 (Z.pos m1) + e1 - (53 + -49)))
                 (e1 - -49)) with (-1074)
    by (unfold fexp, emin, PyFloat.prec, PyFloat.emax; lia).
  pose proof (digits2_pos_bounds m1) as [_ Hm]. cbn [Zdigits2] in Hd.
  assert (Hm53 : Z.pos m1 < 2 ^ 53).
  { eapply Z.lt_le_trans; [exact Hm|]. apply Z.pow_le_mono_r; lia. }
  set (s := e1 - -49 - -1074).
  assert (Hs : 0 < s <= 52) by (unfold s; lia).
  assert (Hm' : match s with
                | 0 => Z.pos m1
                | Z.pos _ => Z.shiftl (Z.pos m1) s
                | Z.neg _ => 0
                end = Z.pos m1 * 2 ^ s).
  { destruct s as [|p|p]; try lia. apply Z.shiftl_mul_pow2. lia. }
  rewrite Hm', div_eucl_div_mod. cbn [xorb].
  set (q := Z.pos m1 * 2 ^ s / Z.pos ten_m).
  set (l := new_location _ _).
  assert (Hq : 0 <= q < 2 ^ 53 - 1).
  { unfold q. split; [apply Z.div_pos; lia|].
    apply Z.div_lt_upper_bound; [lia|].
    assert (2 ^ s <= 2 ^ 52) by (apply Z.pow_le_mono_r; lia).
    change (Z.pos ten_m) with (5 * 2 ^ 50).
    apply Z.lt_le_trans with (2 ^ 53 * 2 ^ 52); [|vm_compute; discriminate].
    apply Z.le_lt_trans with (Z.pos m1 * 2 ^ 52);
      [apply Z.mul_le_mono_nonneg_l; lia | apply Z.mul_lt_mono_pos_r; lia]. }
  unfold binary_round_aux.
  rewrite shr_fexp_none.
  2:{ pose proof (Zdigits2_le q 53 ltac:(lia) ltac:(lia)).
      unfold fexp, emin, PyFloat.prec, PyFloat.emax; lia. }
  rewrite shr_m_record_of_loc, loc_of_shr_record_of_loc.
  set (M := round_nearest_even q l).
  assert (HM : 0 <= M < 2 ^ 53)
    by (destruct (round_nearest_even_cases q l); lia).
  rewrite shr_fexp_none.
  2:{ pose proof (Zdigits2_le M 53 ltac:(lia) ltac:(lia)).
      unfold fexp, emin, PyFloat.prec, PyFloat.emax; lia. }
  rewrite shr_m_record_of_loc.
  destruct M as [|p|p]; try lia; [reflexivity|].
  change (-1074 <=? PyFloat.emax - PyFloat.prec) with true. cbn [PyFloat.int].
  rewrite Z.shiftr_div_pow2 by lia. f_equal.
  apply Z.div_small. split; [lia|].
  apply Z.lt_le_trans with (2 ^ 53); [lia|].
  apply Z.pow_le_mono_r; lia.
Qed.

Lemma Qfloor_tenth (n : Z) (d : positive) :
  Qfloor (Qmake n d / 10) = n / (10 * Z.pos d).
Proof.
  unfold Qdiv, Qmult, Qinv, Qfloor. cbn [Qnum Qden].
  change (Qnum 10) with 10. cbn match. cbn [Qnum Qden].
  rewrite Z.mul_1_r, Pos2Z.inj_mul. f_equal. lia.
Qed.

Lemma int_div_ten_floor (x : spec_float) (q : Q) :
  valid_binary PyFloat.prec PyFloat.emax x = true -> value x = Some q ->
  (0 <= q)%Q -> (q <= 100)%Q ->
  PyFloat.int (PyFloat.div x (PyFloat.of_Z 10)) = Ok (Qfloor (q / 10)).
Proof.
  intros Hv Hq H0 H100. rewrite of_Z_ten.
  destruct x as [s| | |s m e]; try discriminate.
  - injection Hq as <-. destruct s; reflexivity.
  - cbn [value] in Hq. injection Hq as <-.
    cbn [valid_binary] in Hv. unfold bounded, canonical_mantissa in Hv.
    apply andb_prop in Hv as [Hc He].
    apply Z.eqb_eq in Hc. apply Z.leb_le in He.
    pose proof (digits2_pos_bounds m) as Hm.
    destruct s.
    { exfalso. destruct e as [|k|k]; unfold Qle in H0; cbn in H0; lia. }
    destruct e as [|k|k].
    + exfalso. unfold fexp, emin, PyFloat.prec, PyFloat.emax in Hc.
      assert (Hd : Z.pos (digits2_pos m) = 53) by lia.
      rewrite Hd in Hm. unfold Qle in H100. cbn in H100. lia.
    + exfalso. unfold fexp, emin, PyFloat.prec, PyFloat.emax in Hc.
      assert (Hd : Z.pos (digits2_pos m) = 53) by lia.
      rewrite Hd in Hm. unfold Qle in H100. cbn [inject_Z Qnum Qden] in H100.
      assert (0 < 2 ^ Z.pos k) by (apply Z.pow_pos_nonneg; lia).
      change (53 - 1) with 52 in Hm. nia.
    + rewrite Qfloor_tenth, Pos2Z.inj_pow.
      rewrite <- of_Z_ten.
      destruct (Z.leb_spec (-1070) (Z.neg k)) as [Hn|Hn].
      * rewrite int_div_ten_normal; [reflexivity| |exact Hn|lia].
        cbn [Zdigits2]. unfold fexp, emin, PyFloat.prec, PyFloat.emax in Hc. lia.
      * rewrite int_div_ten_tiny; [| |unfold fexp, emin, PyFloat.prec, PyFloat.emax in Hc; lia|exact Hn].
        -- f_equal. symmetry. apply Z.div_small. split; [lia|].
           unfold fexp, emin, PyFloat.prec, PyFloat.emax in Hc.
           assert (Hm53 : Z.pos m < 2 ^ 53).
           { eapply Z.lt_le_trans; [apply Hm|]. apply Z.pow_le_mono_r; lia. }
           assert (2 ^ 53 <= 2 ^ Z.pos k) by (apply Z.pow_le_mono_r; lia).
           lia.
        -- cbn [Zdigits2]. unfold fexp, emin, PyFloat.prec, PyFloat.emax in Hc. lia.
Qed.

(** Every float the program builds from a text is a binary64 number. *)

Lemma shr_1_m (mrs : shr_record) :
  0 <= shr_m mrs -> shr_m (shr_1 mrs) = shr_m mrs / 2.
Proof.
  destruct mrs as [m r s]. cbn [shr_m]. intros Hm.
  rewrite <- Z.div2_div. destruct m as [|[p|p|]|]; try lia; reflexivity.
Qed.

Lemma iter_shr_1_m (p : positive) :
  forall mrs, 0 <= shr_m mrs ->
    shr_m (SpecFloat.iter_pos shr_1 p mrs) = shr_m mrs / 2 ^ Z.pos p.
Proof.
  assert (Hpow : forall k, 0 < 2 ^ Z.pos k)
    by (intros k; apply Z.pow_pos_nonneg; lia).
  induction p as [p IH|p IH|]; intros mrs Hm; cbn [SpecFloat.iter_pos].
  - pose proof (Hpow p).
    assert (H1 : shr_m (shr_1 mrs) = shr_m mrs / 2) by now apply shr_1_m.
    assert (H2 : 0 <= shr_m (shr_1 mrs)) by (rewrite H1; apply Z.div_pos; lia).
    pose proof (IH _ H2) as H3.
    assert (H4 : 0 <= shr_m (SpecFloat.iter_pos shr_1 p (shr_1 mrs)))
      by (rewrite H3; apply Z.div_pos; lia).
    rewrite (IH _ H4), H3, H1.
    rewrite !Z.div_div by lia. f_equal.
    change (Z.pos p~1) with (2 * Z.pos p + 1).
    replace (2 * Z.pos p + 1) with (1 + Z.pos p + Z.pos p) by lia.
    rewrite !Z.pow_add_r by lia. change (2 ^ 1) with 2. lia.
  - pose proof (Hpow p).
    pose proof (IH _ Hm) as H3.
    assert (H4 : 0 <= shr_m (SpecFloat.iter_pos shr_1 p mrs))
      by (rewrite H3; apply Z.div_pos; lia).
    rewrite (IH _ H4), H3.
    rewrite !Z.div_div by lia. f_equal.
    change (Z.pos p~0) with (2 * Z.pos p).
    replace (2 * Z.pos p) with (Z.pos p + Z.pos p) by lia.
    rewrite !Z.pow_add_r by lia. lia.
  - now apply shr_1_m.
Qed.

Lemma shr_fexp_spec (mx ex : Z) (lx : location) :
  0 <= mx -> ex <= fexp PyFloat.prec PyFloat.emax (Zdigits2 mx + ex) ->
  exists mrs,
    shr_fexp PyFloat.prec PyFloat.emax mx ex lx = (mrs, fexp PyFloat.prec PyFloat.emax (Zdigits2 mx + ex))
    /\ shr_m mrs = mx / 2 ^ (fexp PyFloat.prec PyFloat.emax (Zdigits2 mx + ex) - ex).
Proof.
  intros Hm He. unfold shr_fexp, shr.
  destruct (fexp PyFloat.prec PyFloat.emax (Zdigits2 mx + ex) - ex) as [|n|n] eqn:En; try lia.
  - eexists. split; [f_equal; lia|].
    rewrite shr_m_record_of_loc. now rewrite Z.div_1_r.
  - eexists. split; [f_equal; lia|].
    rewrite iter_shr_1_m by (now rewrite shr_m_record_of_loc).
    now rewrite shr_m_record_of_loc.
Qed.

Lemma binary_round_aux_valid (sx : bool) (mx ex : Z) (lx : location) :
  0 < mx -> ex <= fexp PyFloat.prec PyFloat.emax (Zdigits2 mx + ex) ->
  valid_binary PyFloat.prec PyFloat.emax (binary_round_aux PyFloat.prec PyFloat.emax sx mx ex lx) = true.
Proof.
  intros Hm He. unfold binary_round_aux.
  destruct (shr_fexp_spec mx ex lx ltac:(lia) He) as (mrs & -> & Hmrs).
  set (f := fexp PyFloat.prec PyFloat.emax (Zdigits2 mx + ex)) in *.
  set (M := round_nearest_even (shr_m mrs) (loc_of_shr_record mrs)).
  assert (Hd : 2 ^ (Zdigits2 mx - 1) <= mx < 2 ^ Zdigits2 mx).
  { destruct mx as [|p|p]; try lia. apply digits2_pos_bounds. }
  assert (Hd1 : 1 <= Zdigits2 mx).
  { destruct mx as [|p|p]; cbn; lia. }
  set (d := Zdigits2 mx) in *. set (n := f - ex) in *.
  assert (Hn : 0 <= n) by (unfold n; lia).
  assert (Hpn : 0 < 2 ^ n) by (apply Z.pow_pos_nonneg; lia).
  assert (HM : M = shr_m mrs \/ M = shr_m mrs + 1)
    by apply round_nearest_even_cases.
  assert (Hf : f = Z.max (d + ex - 53) (-1074)) by reflexivity.
  destruct (Z.leb_spec (-1074) (d + ex - 53)) as [Hnorm|Hsub].
  - (* the normal range *)
    assert (Hdn : d = n + 53) by (unfold n; lia).
    assert (Hm' : 2 ^ 52 <= shr_m mrs < 2 ^ 53).
    { rewrite Hmrs. split.
      - apply Z.div_le_lower_bound; [lia|].
        rewrite <- Z.pow_add_r by lia.
        replace (n + 52) with (d - 1) by lia. apply Hd.
      - apply Z.div_lt_upper_bound; [lia|].
        rewrite <- Z.pow_add_r by lia.
        replace (n + 53) with d by lia. apply Hd. }
    destruct (Z.eq_dec M (2 ^ 53)) as [Hc|Hc].
    + rewrite Hc.
      rewrite shr_fexp_one
        by (change (Zdigits2 (2 ^ 53)) with 54; unfold fexp, emin, PyFloat.prec, PyFloat.emax; lia).
      change (shr_m (shr_1 (shr_record_of_loc (2 ^ 53) loc_Exact)))
        with (Z.pos 4503599627370496).
      cbv beta iota.
      destruct (f + 1 <=? PyFloat.emax - PyFloat.prec) eqn:Eb; [|reflexivity].
      cbn [valid_binary]. unfold bounded, canonical_mantissa. rewrite Eb.
      rewrite andb_true_r. apply Z.eqb_eq.
      change (Z.pos (digits2_pos 4503599627370496)) with 53.
      unfold fexp, emin, PyFloat.prec, PyFloat.emax. lia.
    + assert (HdM : Zdigits2 M = 53) by (apply Zdigits2_unique; lia).
      rewrite shr_fexp_none
        by (rewrite HdM; unfold fexp, emin, PyFloat.prec, PyFloat.emax; lia).
      rewrite shr_m_record_of_loc.
      destruct M as [|p|p]; try lia.
      destruct (f <=? PyFloat.emax - PyFloat.prec) eqn:Eb; [|reflexivity].
      cbn [valid_binary]. unfold bounded, canonical_mantissa. rewrite Eb.
      rewrite andb_true_r. apply Z.eqb_eq.
      cbn [Zdigits2] in HdM. rewrite HdM.
      unfold fexp, emin, PyFloat.prec, PyFloat.emax. lia.
  - (* below the normal range *)
    assert (Hm' : 0 <= shr_m mrs < 2 ^ 52).
    { rewrite Hmrs. split; [apply Z.div_pos; lia|].
      apply Z.div_lt_upper_bound; [lia|].
      rewrite <- Z.pow_add_r by lia.
      eapply Z.lt_le_trans; [apply Hd|].
      apply Z.pow_le_mono_r; [lia|]. unfold n. lia. }
    assert (HdM : Zdigits2 M <= 53) by (apply Zdigits2_le; lia).
    rewrite shr_fexp_none by (unfold fexp, emin, PyFloat.prec, PyFloat.emax; lia).
    rewrite shr_m_record_of_loc.
    destruct M as [|p|p]; try lia; [reflexivity|].
    destruct (f <=? PyFloat.emax - PyFloat.prec) eqn:Eb; [|reflexivity].
    cbn [valid_binary]. unfold bounded, canonical_mantissa. rewrite Eb.
    rewrite andb_true_r. apply Z.eqb_eq. cbn [Zdigits2] in HdM.
    unfold fexp, emin, PyFloat.prec, PyFloat.emax. lia.
Qed.

Lemma digits2_pos_iter_xO (m d : positive) :
  digits2_pos (Pos.iter xO m d) = (digits2_pos m + d)%positive.
Proof.
  induction d as [|d IH] using Pos.peano_ind.
  - cbn. lia.
  - rewrite Pos.iter_succ. cbn [digits2_pos]. rewrite IH. lia.
Qed.

Lemma binary_round_valid (sx : bool) (mx : positive) (ex : Z) :
  valid_binary PyFloat.prec PyFloat.emax (binary_round PyFloat.prec PyFloat.emax sx mx ex) = true.
Proof.
  unfold binary_round, shl_align.
  destruct (fexp PyFloat.prec PyFloat.emax (Z.pos (digits2_pos mx) + ex) - ex) as [|d|d] eqn:E;
    apply binary_round_aux_valid; cbn [Zdigits2]; try lia.
  change (PosDef.Pos.iter xO mx d) with (Pos.iter xO mx d).
  rewrite digits2_pos_iter_xO, Pos2Z.inj_add.
  replace (Z.pos (digits2_pos mx) + Z.pos d
           + fexp PyFloat.prec PyFloat.emax (Z.pos (digits2_pos mx) + ex))
    with (Z.pos (digits2_pos mx) + ex) by lia.
  lia.
Qed.

Lemma binary_normalize_valid (m e : Z) (szero : bool) :
  valid_binary PyFloat.prec PyFloat.emax (binary_normalize PyFloat.prec PyFloat.emax m e szero) = true.
Proof.
  destruct m; cbn [binary_normalize]; [reflexivity| |];
    apply binary_round_valid.
Qed.

End Binary64.

(** ** The progress bar *)

(** [float] raises nothing but [ValueError]. *)
Lemma float_raises_value_error (s : string) (e : exn) :
  PyFloat.float s = Raise e -> exn_cls e = ValueError.
Proof.
  unfold PyFloat.float. intros H.
  destruct (PyFloat.drop_underscores _ _); [|now inversion H].
  destruct (PyFloat.parse_literal _); [discriminate | now inversion H].
Qed.

Lemma of_literal_valid (l : PyFloat.literal) :
  valid_binary PyFloat.prec PyFloat.emax (PyFloat.of_literal l) = true.
Proof.
  destruct l as [|neg|neg [|m] e]; try reflexivity.
  cbn [PyFloat.of_literal]. destruct e as [|k|k].
  - apply binary_normalize_valid.
  - apply binary_normalize_valid.
  - unfold PyFloat.of_quotient. cbv zeta.
    destruct (Z.div_eucl _ _) as [q r]. apply binary_normalize_valid.
Qed.

Lemma float_valid (s : string) (x : spec_float) :
  PyFloat.float s = Ok x ->
  valid_binary PyFloat.prec PyFloat.emax x = true.
Proof.
  unfold PyFloat.float. intros H.
  destruct (PyFloat.drop_underscores _ _); [|discriminate].
  destruct (PyFloat.parse_literal _) as [l|]; [|discriminate].
  injection H as <-. apply of_literal_valid.
Qed.

Lemma percent_value_valid (s : string) (x : spec_float) :
  percent_value s = Ok x ->
  valid_binary PyFloat.prec PyFloat.emax x = true.
Proof.
  unfold percent_value. intros H.
  destruct (PyFloat.float _) as [y|e] eqn:E.
  - injection H as <-. now apply float_valid in E.
  - destruct (exn_cls e); try discriminate; now injection H as <-.
Qed.

(** The number of filled segments is the floor of a tenth of the value, for
    every value between 0 and 100. *)
Lemma filled_bars_floor (s : string) (x : spec_float) (q : Q) :
  percent_value s = Ok x -> value x = Some q ->
  (0 <= q)%Q -> (q <= 100)%Q ->
  filled_bars s = Ok (Qfloor (q / 10)).
Proof.
  intros Hx Hq H0 H100. unfold filled_bars. rewrite Hx.
  apply int_div_ten_floor; try assumption.
  now apply percent_value_valid with s.
Qed.

Lemma floor_tenth_bounds (q : Q) :
  (0 <= q)%Q -> (q <= 100)%Q -> (0 <= Qfloor (q / 10) <= 10)%Z.
Proof.
  intros H0 H100. split.
  - change 0%Z with (Qfloor 0). apply Qfloor_resp_le.
    apply Qle_shift_div_l; [reflexivity|]. now rewrite Qmult_0_l.
  - change 10%Z with (Qfloor 10). apply Qfloor_resp_le.
    apply Qle_shift_div_r; [reflexivity|]. exact H100.
Qed.

Lemma repeat_nat_copies (symbol : string) (n : nat) :
  PyStr.repeat_nat symbol n = copies n symbol.
Proof. induction n as [|n IH]; cbn; [reflexivity | now rewrite IH]. Qed.

Lemma repeat_within (symbol : string) (k : Z) :
  (- 10 <= k <= 20)%Z ->
  PyStr.repeat symbol k = Ok (copies (Z.to_nat k) symbol).
Proof.
  intros Hk. unfold PyStr.repeat, PyStr.ssize_max.
  destruct (Z.ltb_spec k (- (2 ^ 63 - 1) - 1)) as [H|_]; [lia|].
  destruct (Z.ltb_spec (2 ^ 63 - 1) k) as [H|_]; [lia|].
  cbn [orb]. now rewrite repeat_nat_copies.
Qed.

(** The text returned for a count of filled segments between 0 and 10. *)
Lemma create_progress_bar_draws (s : string) (k : Z) :
  filled_bars s = Ok k -> (0 <= k <= 10)%Z ->
  create_progress_bar s
  = Ok (drawing (Z.to_nat k) (10 - Z.to_nat k) s).
Proof.
  intros Hf Hk. unfold create_progress_bar, progress_bar. rewrite Hf.
  rewrite !repeat_within by (unfold empty_bars, bars; lia).
  unfold drawing, empty_bars, bars.
  replace (Z.to_nat (10 - k)) with (10 - Z.to_nat k)%nat by lia.
  now rewrite append_assoc.
Qed.

(** *** Reading the bar off the text *)

Lemma before_first_filled (r : string) :
  PyStr.before_first "`" ("🟦" +:+ r) = "🟦" +:+ PyStr.before_first "`" r.
Proof. reflexivity. Qed.

Lemma before_first_empty (r : string) :
  PyStr.before_first "`" ("⬜" +:+ r) = "⬜" +:+ PyStr.before_first "`" r.
Proof. reflexivity. Qed.

Lemma before_first_bar (filled empty : nat) (r : string) :
  PyStr.before_first "`"
    (copies filled "🟦" +:+ copies empty "⬜" +:+ String "`" r)
  = copies filled "🟦" +:+ copies empty "⬜".
Proof.
  induction filled as [|n IH].
  - change (copies 0 "🟦" +:+ ?x) with x.
    induction empty as [|m IHm]; [reflexivity|].
    cbn [copies]. rewrite !append_assoc, before_first_empty.
    now rewrite IHm.
  - cbn [copies]. rewrite !append_assoc, before_first_filled.
    now rewrite IH.
Qed.

Lemma bar_of_drawing (filled empty : nat) (s : string) :
  bar_of (drawing filled empty s) = copies filled "🟦" +:+ copies empty "⬜".
Proof.
  unfold drawing, bar_of. rewrite append_cons.
  change ("" +:+ ?x) with x.
  change ("` " +:+ s) with (String "`" (" " +:+ s)).
  apply before_first_bar.
Qed.

Lemma occurrences_filled (filled empty : nat) :
  occurrences "🟦" (copies filled "🟦" +:+ copies empty "⬜") = filled
  /\ occurrences "⬜" (copies filled "🟦" +:+ copies empty "⬜") = empty.
Proof.
  induction filled as [|n [IH1 IH2]].
  - change (copies 0 "🟦" +:+ ?x) with x.
    induction empty as [|m [IH1 IH2]]; [split; reflexivity|].
    cbn [copies]. split.
    + change (occurrences "🟦" ("⬜" +:+ copies m "⬜"))
        with (occurrences "🟦" (copies m "⬜")). exact IH1.
    + change (occurrences "⬜" ("⬜" +:+ copies m "⬜"))
        with (S (occurrences "⬜" (copies m "⬜"))). now rewrite IH2.
  - cbn [copies]. rewrite append_assoc. split.
    + change (occurrences "🟦" ("🟦" +:+ ?x)) with (S (occurrences "🟦" x)).
      now rewrite IH1.
    + change (occurrences "⬜" ("🟦" +:+ ?x)) with (occurrences "⬜" x).
      exact IH2.
Qed.

Lemma segments_of_drawing (filled empty : nat) (s : string) :
  filled_segments (drawing filled empty s) = filled
  /\ empty_segments (drawing filled empty s) = empty.
Proof.
  unfold filled_segments, empty_segments. rewrite bar_of_drawing.
  apply occurrences_filled.
Qed.

(** C3 (as amended).  A percentage text whose value, as the function reads
    it, lies between 0 and 100, whole or not, is drawn with ten segments of
    which [floor(value / 10)] are filled; and a text that [float] rejects is
    drawn with no filled and ten empty segments.  The counts are read off the
    returned text.  Nothing is clamped outside that range. *)
Theorem create_progress_bar_in_range (s : string) :
  (forall x q,
      percent_value s = Ok x -> value x = Some q ->
      (0 <= q)%Q -> (q <= 100)%Q ->
      exists text,
        create_progress_bar s = Ok text
        /\ text = drawing (Z.to_nat (Qfloor (q / 10)))
                          (10 - Z.to_nat (Qfloor (q / 10))) s
        /\ filled_segments text = Z.to_nat (Qfloor (q / 10))
        /\ (filled_segments text + empty_segments text = 10)%nat
        /\ drawn_as_specified text q)
  /\ (forall e,
        PyFloat.float (PyStr.before_first "." (PyStr.strip_set is_percent_sign s))
          = Raise e ->
        exists text,
          create_progress_bar s = Ok text
          /\ text = drawing 0 10 s
          /\ filled_segments text = 0%nat /\ empty_segments text = 10%nat).
Proof.
  split.
  - intros x q Hx Hq H0 H100.
    pose proof (floor_tenth_bounds q H0 H100) as Hk.
    pose proof (filled_bars_floor s x q Hx Hq H0 H100) as Hf.
    eexists. split; [apply (create_progress_bar_draws s _ Hf Hk)|].
    split; [reflexivity|].
    destruct (segments_of_drawing (Z.to_nat (Qfloor (q / 10)))
                (10 - Z.to_nat (Qfloor (q / 10))) s) as [Hfill Hempty].
    split; [exact Hfill|]. split; [rewrite Hfill, Hempty; lia|].
    split; [rewrite Hfill; f_equal; lia | rewrite Hfill, Hempty; lia].
  - intros e He.
    assert (Hf : filled_bars s = Ok 0%Z).
    { unfold filled_bars, percent_value.
      rewrite He, (float_raises_value_error _ _ He). reflexivity. }
    eexists. split; [apply (create_progress_bar_draws s 0 Hf); lia|].
    split; [reflexivity|]. apply segments_of_drawing.
Qed.

Lemma create_progress_bar_in_range_witness :
  (exists text,
      create_progress_bar " 45.3%" = Ok text
      /\ text = drawing 4 6 " 45.3%"
      /\ filled_segments text = 4%nat
      /\ (filled_segments text + empty_segments text = 10)%nat)
  /\ (exists text,
         create_progress_bar "455e-1%" = Ok text
         /\ filled_segments text = 4%nat)
  /\ (exists text,
         create_progress_bar "bad" = Ok text
         /\ text = drawing 0 10 "bad"
         /\ filled_segments text = 0%nat /\ empty_segments text = 10%nat).
Proof.
  split; [|split].
  - destruct (proj1 (create_progress_bar_in_range " 45.3%")
                (PyFloat.of_Z 45) (Qmake 6333186975989760 140737488355328))
      as (text & H1 & H2 & H3 & H4 & _);
      [vm_compute; reflexivity | vm_compute; reflexivity
      | vm_compute; discriminate | vm_compute; discriminate |].
    exists text. repeat split; assumption.
  - destruct (proj1 (create_progress_bar_in_range "455e-1%")
                (S754_finite false 6403555720167424 (-47))
                (Qmake 6403555720167424 140737488355328))
      as (text & H1 & _ & H3 & _);
      [vm_compute; reflexivity | vm_compute; reflexivity
      | vm_compute; discriminate | vm_compute; discriminate |].
    exists text. split; assumption.
  - apply (proj2 (create_progress_bar_in_range "bad")
             (Exn ValueError "could not convert string to float: 'bad'")).
    vm_compute. reflexivity.
Defined.

(** C3 (as stated) fails: the text ["150%"] has the value 150, and its bar
    has fifteen filled segments and no empty one, where the specification
    clamps to ten filled segments. *)
Lemma create_progress_bar_not_clamped :
  percent_value "150%" = Ok (PyFloat.of_Z 150)
  /\ value (PyFloat.of_Z 150) = Some (Qmake 5277655813324800 35184372088832)
  /\ (Qmake 5277655813324800 35184372088832 == 150)%Q
  /\ exists text,
       create_progress_bar "150%" = Ok text
       /\ filled_segments text = 15%nat /\ empty_segments text = 0%nat
       /\ ~ drawn_as_specified text (Qmake 5277655813324800 35184372088832).
Proof.
  split; [vm_compute; reflexivity|].
  split; [vm_compute; reflexivity|].
  split; [vm_compute; reflexivity|].
  eexists. split; [vm_compute; reflexivity|].
  split; [vm_compute; reflexivity|].
  split; [vm_compute; reflexivity|].
  intros [H _]. vm_compute in H. discriminate H.
Qed.

(** C4.  The number of filled segments, read off the returned text, grows
    with the percentage: of two texts read as values [q1 <= q2] between 0 and
    100, the first has [floor(q1 / 10)] and the second [floor(q2 / 10)] filled
    segments, no more in the first than in the second; and the text ["bad"]
    is drawn as the bar of 0%, with no filled and ten empty segments. *)
Theorem create_progress_bar_monotonic (s1 s2 : string) (x1 x2 : spec_float)
    (q1 q2 : Q) :
  percent_value s1 = Ok x1 -> percent_value s2 = Ok x2 ->
  value x1 = Some q1 -> value x2 = Some q2 ->
  (0 <= q1)%Q -> (q1 <= q2)%Q -> (q2 <= 100)%Q ->
  (exists t1 t2,
      create_progress_bar s1 = Ok t1 /\ create_progress_bar s2 = Ok t2
      /\ filled_segments t1 = Z.to_nat (Qfloor (q1 / 10))
      /\ filled_segments t2 = Z.to_nat (Qfloor (q2 / 10))
      /\ (filled_segments t1 <= filled_segments t2)%nat)
  /\ (exists tbad t0,
         create_progress_bar "bad" = Ok tbad
         /\ create_progress_bar "0%" = Ok t0
         /\ bar_of tbad = bar_of t0
         /\ tbad = drawing 0 10 "bad"
         /\ filled_segments tbad = 0%nat /\ empty_segments tbad = 10%nat).
Proof.
  intros Hx1 Hx2 Hq1 Hq2 H0 H12 H100. split.
  - assert (H1hi : (q1 <= 100)%Q) by (eapply Qle_trans; eassumption).
    assert (H2lo : (0 <= q2)%Q) by (eapply Qle_trans; eassumption).
    pose proof (floor_tenth_bounds q1 H0 H1hi) as Hk1.
    pose proof (floor_tenth_bounds q2 H2lo H100) as Hk2.
    pose proof (filled_bars_floor s1 x1 q1 Hx1 Hq1 H0 H1hi) as Hf1.
    pose proof (filled_bars_floor s2 x2 q2 Hx2 Hq2 H2lo H100) as Hf2.
    exists (drawing (Z.to_nat (Qfloor (q1 / 10)))
                    (10 - Z.to_nat (Qfloor (q1 / 10))) s1),
           (drawing (Z.to_nat (Qfloor (q2 / 10)))
                    (10 - Z.to_nat (Qfloor (q2 / 10))) s2).
    split; [apply (create_progress_bar_draws s1 _ Hf1 Hk1)|].
    split; [apply (create_progress_bar_draws s2 _ Hf2 Hk2)|].
    rewrite (proj1 (segments_of_drawing _ _ s1)).
    rewrite (proj1 (segments_of_drawing _ _ s2)).
    split; [reflexivity|]. split; [reflexivity|].
    apply Z2Nat.inj_le; try lia.
    apply Qfloor_resp_le.
    apply Qmult_le_compat_r; [exact H12 | discriminate].
  - exists (drawing 0 10 "bad"), (drawing 0 10 "0%").
    repeat split; vm_compute; reflexivity.
Qed.

(** The text of C4 at two percentages yt-dlp reports, and at two that are
    not whole. *)
Lemma create_progress_bar_monotonic_witness :
  (exists t1 t2,
      create_progress_bar " 45.3%" = Ok t1
      /\ create_progress_bar "100.0%" = Ok t2
      /\ filled_segments t1 = 4%nat /\ filled_segments t2 = 10%nat
      /\ (filled_segments t1 <= filled_segments t2)%nat)
  /\ (exists t1 t2,
         create_progress_bar "95e-1%" = Ok t1
         /\ create_progress_bar "455e-1%" = Ok t2
         /\ filled_segments t1 = 0%nat /\ filled_segments t2 = 4%nat
         /\ (filled_segments t1 <= filled_segments t2)%nat).
Proof.
  split.
  - destruct (create_progress_bar_monotonic " 45.3%" "100.0%"
                (PyFloat.of_Z 45) (PyFloat.of_Z 100)
                (Qmake 6333186975989760 140737488355328)
                (Qmake 7036874417766400 70368744177664))
      as [(t1 & t2 & H1 & H2 & H3 & H4 & H5) _];
      [vm_compute; reflexivity | vm_compute; reflexivity
      | vm_compute; reflexivity | vm_compute; reflexivity
      | vm_compute; discriminate | vm_compute; discriminate
      | vm_compute; discriminate |].
    exists t1, t2. repeat split; assumption.
  - destruct (create_progress_bar_monotonic "95e-1%" "455e-1%"
                (S754_finite false 5348024557502464 (-49))
                (S754_finite false 6403555720167424 (-47))
                (Qmake 5348024557502464 562949953421312)
                (Qmake 6403555720167424 140737488355328))
      as [(t1 & t2 & H1 & H2 & H3 & H4 & H5) _];
      [vm_compute; reflexivity | vm_compute; reflexivity
      | vm_compute; reflexivity | vm_compute; reflexivity
      | vm_compute; discriminate | vm_compute; discriminate
      | vm_compute; discriminate |].
    exists t1, t2. repeat split; assumption.
Defined.

(** Below 0 and above 100 the bar has more than ten segments; the texts
    [float] reads as not-a-number or infinity are not drawn at all, [int]
    raising outside the [try]; and a count that does not fit an index is not
    drawn either. *)
Example create_progress_bar_outside :
  filled_bars "-20%" = Ok (-2)%Z
  /\ create_progress_bar "-20%" = Ok (drawing 0 12 "-20%")
  /\ create_progress_bar "nan%"
     = Raise (Exn ValueError "cannot convert float NaN to integer")
  /\ create_progress_bar "inf%"
     = Raise (Exn OverflowError "cannot convert float infinity to integer")
  /\ create_progress_bar "1e30%"
     = Raise (Exn OverflowError "cannot fit 'int' into an index-sized integer").
Proof. repeat split; vm_compute; reflexivity. Qed.

(** ** Running the handlers *)

Ltac unfold_monad :=
  unfold outcome_of, final, log_of, bind, ret, raise, lift, call, call_message,
    modify, get_state, try_except, try_finally, attempt, subscript in *.

Lemma user_data_set_user_data f st :
  user_data (set_user_data f st) = f (user_data st).
Proof. reflexivity. Qed.

Lemma user_data_set_download_progress f st :
  user_data (set_download_progress f st) = user_data st.
Proof. reflexivity. Qed.

Lemma download_progress_set_user_data f st :
  download_progress (set_user_data f st) = download_progress st.
Proof. reflexivity. Qed.

Lemma download_progress_set_download_progress f st :
  download_progress (set_download_progress f st) = f (download_progress st).
Proof. reflexivity. Qed.

Ltac simpl_state :=
  rewrite ?user_data_set_user_data, ?user_data_set_download_progress,
    ?download_progress_set_user_data, ?download_progress_set_download_progress
    in *.

Lemma user_data_at_found (chat : Z) (s : session) (st : state) :
  user_data st !! chat = Some s -> user_data_at chat st = (Ok s, st, []).
Proof. intros H. unfold user_data_at. unfold_monad. now rewrite H. Qed.

Lemma user_data_at_missing (chat : Z) (st : state) :
  user_data st !! chat = None ->
  user_data_at chat st = (Raise (Exn KeyError (PyStr.str_of_Z chat)), st, []).
Proof. intros H. unfold user_data_at. unfold_monad. now rewrite H. Qed.

Lemma update_session_found (chat : Z) (f : session -> session) (s : session)
    (st : state) :
  user_data st !! chat = Some s ->
  update_session chat f st = (Ok tt, set_user_data (insert chat (f s)) st, []).
Proof.
  intros H. unfold update_session. unfold bind at 1.
  rewrite (user_data_at_found _ _ _ H). reflexivity.
Qed.

(** ** [handle_url] *)

(** C9.  A text that does not match the pattern is answered with the
    invalid-URL message and leaves the state as it was, so no session is
    created; a text that matches creates the session of the chat afresh,
    whatever was there, and the format choices are presented. *)
Theorem handle_url_validates (update : message) (reply : result Z) (st : state) :
  let chat := msg_chat_id update in
  let locator := PyStr.strip (text update) in
  let x := handle_url update reply st in
  (re_match youtube_regex locator = false ->
     final x = st
     /\ log_of x = [reply_text chat invalid_url_notice []])
  /\ (re_match youtube_regex locator = true ->
        user_data (final x) !! chat
          = Some (Session locator (from_user_id update) chat
                    (match reply with Ok m => Some m | Raise _ => None end)
                    None None None)
        /\ (forall c, c <> chat -> user_data (final x) !! c = user_data st !! c)
        /\ download_progress (final x) = download_progress st
        /\ log_of x
           = [reply_text chat "🌌 *URL received!* Choose your desired format:"
                         [("🎥 MP4 Video", "format_mp4");
                          ("🎵 MP3 Audio", "format_mp3")]]
        /\ Exists (presents_formats chat) (log_of x)).
Proof.
  cbv zeta. split; intros Hm.
  - assert (handle_url update reply st
            = (match reply with Ok _ => Ok tt | Raise e => Raise e end, st,
               [reply_text (msg_chat_id update) invalid_url_text []])) as ->.
    { unfold handle_url. rewrite Hm. unfold_monad. now destruct reply. }
    split; reflexivity.
  - set (fresh := Session (PyStr.strip (text update)) (from_user_id update)
                          (msg_chat_id update) None None None None).
    set (chosen := [reply_text (msg_chat_id update) choose_format_text
                               format_keyboard]).
    assert (handle_url update reply st
            = match reply with
              | Ok m =>
                  (Ok tt,
                   set_user_data
                     (insert (msg_chat_id update) (with_format_message_id m fresh))
                     (set_user_data (insert (msg_chat_id update) fresh) st),
                   chosen)
              | Raise e =>
                  (Raise e, set_user_data (insert (msg_chat_id update) fresh) st,
                   chosen)
              end) as ->.
    { unfold handle_url. rewrite Hm. cbn [negb]. fold fresh.
      unfold bind at 1. unfold modify at 1.
      unfold bind at 1. unfold call_message at 1. fold chosen.
      destruct reply as [m|e]; [|reflexivity].
      erewrite update_session_found by (cbn; apply lookup_insert_eq).
      now rewrite app_nil_r. }
    unfold final, log_of.
    assert (Hshown : Exists (presents_formats (msg_chat_id update)) chosen).
    { apply Exists_cons_hd. eexists. reflexivity. }
    destruct reply as [m|e]; cbn [fst snd]; simpl_state;
      rewrite ?lookup_insert_eq;
      (repeat split; try reflexivity; try exact Hshown);
      intros c Hc; now rewrite !lookup_insert_ne by congruence.
Qed.

Lemma handle_url_validates_witness :
  let st := State ∅ ∅ in
  (final (handle_url (Message "not-a-url" 7 1) (Ok 10%Z) st) = st
   /\ log_of (handle_url (Message "not-a-url" 7 1) (Ok 10%Z) st)
      = [reply_text 7 invalid_url_notice []])
  /\ (user_data
        (final (handle_url (Message "https://youtube.com/watch?v=abc" 7 1)
                           (Ok 10%Z) st)) !! 7%Z
      = Some (Session "https://youtube.com/watch?v=abc" 1 7 (Some 10%Z)
                      None None None)
      /\ log_of (handle_url (Message "https://youtube.com/watch?v=abc" 7 1)
                            (Ok 10%Z) st)
         = [reply_text 7 "🌌 *URL received!* Choose your desired format:"
                       [("🎥 MP4 Video", "format_mp4");
                        ("🎵 MP3 Audio", "format_mp3")]]).
Proof.
  cbv zeta. split.
  - apply (proj1 (handle_url_validates (Message "not-a-url" 7 1) (Ok 10%Z)
                    (State ∅ ∅))).
    vm_compute. reflexivity.
  - pose proof (proj2 (handle_url_validates
                         (Message "https://youtube.com/watch?v=abc" 7 1)
                         (Ok 10%Z) (State ∅ ∅))) as H.
    cbv zeta in H.
    destruct (H ltac:(vm_compute; reflexivity)) as (H1 & _ & _ & H4 & _).
    split; [exact H1 | exact H4].
Defined.

(** ** [button_handler] *)

(** C6.  A format choice for a chat that has no session changes neither
    table, starts no job and creates no status message; once the query is
    acknowledged, all it does is to show the expired-session message. *)
Theorem format_choice_without_session (query : callback_query)
    (env : button_env) (st : state) :
  user_data st !! q_chat_id query = None ->
  PyStr.startswith (data query) "format_" = true ->
  let chat := q_chat_id query in
  let x := button_handler query env st in
  final x = st
  /\ Forall (fun a => is_job_start a = false /\ is_reply a = false) (log_of x)
  /\ (forall j, outcome_of (button_handler_start query env st) <> Ok (Some j))
  /\ (forall sys, sys_state sys = st ->
        exists l, step sys (ev_callback query env) = Some (sys, l))
  /\ (answer env = None ->
        log_of x = [query_answer chat; query_edit_message_text chat expired_text]).
Proof.
  intros Hnone Hfmt. cbv zeta.
  assert (Ha : forall st0, st0 = st ->
            accept_format query env st0
            = match answer env with
              | Some e => (Raise e, st, [query_answer (q_chat_id query)])
              | None =>
                  (match edit_expired env with
                   | None => Ok false
                   | Some e => Raise e
                   end, st,
                   [query_answer (q_chat_id query);
                    query_edit_message_text (q_chat_id query) expired_text])
              end).
  { intros st0 ->. unfold accept_format. rewrite Hfmt. unfold_monad.
    destruct (answer env); [reflexivity|]. cbn. rewrite Hnone.
    destruct (edit_expired env); reflexivity. }
  assert (Hb : button_handler query env st
               = match answer env with
                 | Some e => (Raise e, st, [query_answer (q_chat_id query)])
                 | None =>
                     (match edit_expired env with
                      | None => Ok tt
                      | Some e => Raise e
                      end, st,
                      [query_answer (q_chat_id query);
                       query_edit_message_text (q_chat_id query) expired_text])
                 end).
  { unfold button_handler, bind. rewrite (Ha st eq_refl).
    destruct (answer env); [reflexivity|].
    destruct (edit_expired env); reflexivity. }
  assert (Hs : button_handler_start query env st
               = match answer env with
                 | Some e => (Raise e, st, [query_answer (q_chat_id query)])
                 | None =>
                     (match edit_expired env with
                      | None => Ok None
                      | Some e => Raise e
                      end, st,
                      [query_answer (q_chat_id query);
                       query_edit_message_text (q_chat_id query) expired_text])
                 end).
  { unfold button_handler_start, bind. rewrite (Ha st eq_refl).
    destruct (answer env); [reflexivity|].
    destruct (edit_expired env); reflexivity. }
  rewrite Hb. unfold final, log_of, outcome_of.
  split; [destruct (answer env); reflexivity|].
  split.
  { destruct (answer env); cbn; repeat constructor. }
  split.
  { intros j. rewrite Hs.
    destruct (answer env); [discriminate|].
    destruct (edit_expired env); discriminate. }
  split.
  { intros [st0 ts] Hst. cbn in Hst. subst st0. cbn [step sys_state].
    rewrite Hs. destruct (answer env); [eauto|].
    destruct (edit_expired env); eauto. }
  intros Hans. now rewrite Hans.
Qed.

Lemma format_choice_without_session_witness :
  log_of (button_handler (CallbackQuery 8 "format_mp4")
            (ButtonEnv None None (Ok 11%Z)
               (MediaEnv (PyFloat.of_Z 1000) "/tmp/x" None
                  (WorkerEnv (Ok (Info None None None None)) [] None)
                  [] None None None None None None))
            (State ∅ ∅))
  = [query_answer 8; query_edit_message_text 8 expired_text].
Proof.
  apply (format_choice_without_session (CallbackQuery 8 "format_mp4")
           (ButtonEnv None None (Ok 11%Z)
              (MediaEnv (PyFloat.of_Z 1000) "/tmp/x" None
                 (WorkerEnv (Ok (Info None None None None)) [] None)
                 [] None None None None None None))
           (State ∅ ∅)); reflexivity.
Defined.

(** ** Sessions are never removed *)

Lemma sessions_kept_refl (st : state) : sessions_kept st st.
Proof. intros c. destruct (user_data st !! c) as [s|] eqn:E; eauto. Qed.

Lemma sessions_kept_trans (st1 st2 st3 : state) :
  sessions_kept st1 st2 -> sessions_kept st2 st3 -> sessions_kept st1 st3.
Proof.
  intros H12 H23 c. specialize (H12 c). specialize (H23 c).
  destruct (user_data st1 !! c) as [s1|].
  - destruct H12 as (s2 & E2 & ? & ? & ?). rewrite E2 in H23.
    destruct H23 as (s3 & E3 & ? & ? & ?). exists s3.
    repeat split; congruence.
  - now rewrite H12 in H23.
Qed.

Lemma sessions_kept_same (st st' : state) :
  user_data st' = user_data st -> sessions_kept st st'.
Proof.
  intros E c. rewrite E. destruct (user_data st !! c) as [s|]; eauto.
Qed.

Create HintDb sessions.

Lemma ks_ret {A} (a : A) : keeps_sessions (ret a).
Proof. intros st. apply sessions_kept_refl. Qed.

Lemma ks_raise {A} (e : exn) : keeps_sessions (@raise A e).
Proof. intros st. apply sessions_kept_refl. Qed.

Lemma ks_lift {A} (r : result A) : keeps_sessions (lift r).
Proof. intros st. apply sessions_kept_refl. Qed.

Lemma ks_call (a : action) (o : option exn) : keeps_sessions (call a o).
Proof. intros st. apply sessions_kept_refl. Qed.

Lemma ks_call_message (a : action) (o : result Z) :
  keeps_sessions (call_message a o).
Proof. intros st. apply sessions_kept_refl. Qed.

Lemma ks_get_state : keeps_sessions get_state.
Proof. intros st. apply sessions_kept_refl. Qed.

Lemma ks_modify_progress (f : gmap Z progress -> gmap Z progress) :
  keeps_sessions (modify (set_download_progress f)).
Proof. intros st. now apply sessions_kept_same. Qed.

Lemma ks_bind {A B} (m : M A) (k : A -> M B) :
  keeps_sessions m -> (forall a, keeps_sessions (k a)) -> keeps_sessions (bind m k).
Proof.
  intros Hm Hk st. specialize (Hm st). unfold bind, final in *.
  destruct (m st) as [[[a|e] st1] l1]; cbn in *; [|assumption].
  specialize (Hk a st1). unfold final in Hk.
  destruct (k a st1) as [[r st2] l2]. cbn in *.
  eapply sessions_kept_trans; eassumption.
Qed.

Lemma ks_try_except {A} (m : M A) (h : exn -> M A) :
  keeps_sessions m -> (forall e, keeps_sessions (h e)) ->
  keeps_sessions (try_except m h).
Proof.
  intros Hm Hh st. specialize (Hm st). unfold try_except, final in *.
  destruct (m st) as [[[a|e] st1] l1]; cbn in *; [assumption|].
  specialize (Hh e st1). unfold final in Hh.
  destruct (h e st1) as [[r st2] l2]. cbn in *.
  eapply sessions_kept_trans; eassumption.
Qed.

Lemma ks_try_finally {A} (m : M A) (f : M unit) :
  keeps_sessions m -> keeps_sessions f -> keeps_sessions (try_finally m f).
Proof.
  intros Hm Hf st. specialize (Hm st). unfold try_finally, final in *.
  destruct (m st) as [[r st1] l1]. cbn in *.
  specialize (Hf st1). unfold final in Hf.
  destruct (f st1) as [[[u|e] st2] l2]; cbn in *;
    eapply sessions_kept_trans; eassumption.
Qed.

Lemma ks_attempt {A} (m : M A) : keeps_sessions m -> keeps_sessions (attempt m).
Proof.
  intros Hm st. specialize (Hm st). unfold attempt, final in *.
  now destruct (m st) as [[r st1] l1].
Qed.

Lemma ks_subscript {A} (key : string) (v : option A) :
  keeps_sessions (subscript key v).
Proof. destruct v; intros st; apply sessions_kept_refl. Qed.

Lemma ks_user_data_at (chat : Z) : keeps_sessions (user_data_at chat).
Proof.
  intros st. unfold user_data_at. unfold_monad.
  destruct (user_data st !! chat); apply sessions_kept_refl.
Qed.

Lemma ks_with_title (chat : Z) (t : string) :
  keeps_sessions (update_session chat (with_title t)).
Proof.
  intros st. destruct (user_data st !! chat) as [s|] eqn:E.
  - rewrite (update_session_found _ _ _ _ E). unfold final. cbn [fst snd].
    intros c. simpl_state.
    destruct (decide (c = chat)) as [->|Hne].
    + rewrite E, lookup_insert_eq. now exists (with_title t s).
    + rewrite lookup_insert_ne by congruence.
      destruct (user_data st !! c); eauto.
  - unfold update_session, bind.
    rewrite (user_data_at_missing _ _ E). apply sessions_kept_refl.
Qed.

Lemma ks_update_progress (chat : Z) (f : progress -> progress) :
  keeps_sessions (update_progress chat f).
Proof.
  intros st. unfold update_progress. unfold_monad.
  destruct (download_progress st !! chat); cbn;
    now apply sessions_kept_same.
Qed.

Lemma ks_del_progress (chat : Z) : keeps_sessions (del_progress chat).
Proof.
  intros st. unfold del_progress. unfold_monad.
  destruct (download_progress st !! chat); cbn;
    now apply sessions_kept_same.
Qed.

Lemma ks_release (chat : Z) : keeps_sessions (release chat).
Proof.
  intros st. unfold release. unfold_monad.
  destruct (download_progress st !! chat); cbn;
    now apply sessions_kept_same.
Qed.

Lemma ks_progress_hook (chat : Z) (d : hook_call) :
  keeps_sessions (progress_hook chat d).
Proof.
  intros st. unfold progress_hook.
  destruct (h_status d =? "downloading")%string;
    [|destruct (h_status d =? "finished")%string];
    now apply sessions_kept_same.
Qed.

Lemma ks_for_each {A} (l : list A) (body : A -> M unit) :
  (forall x, keeps_sessions (body x)) -> keeps_sessions (for_each l body).
Proof.
  intros Hb. induction l as [|x r IH]; cbn [for_each].
  - apply ks_ret.
  - apply ks_bind; auto.
Qed.

#[export] Hint Resolve ks_ret ks_raise ks_lift ks_call ks_call_message
  ks_get_state ks_modify_progress ks_bind ks_try_except ks_try_finally
  ks_attempt ks_subscript ks_user_data_at ks_with_title ks_update_progress
  ks_del_progress ks_release ks_progress_hook ks_for_each : sessions.

Ltac keeps :=
  repeat first
    [ progress (eauto with sessions)
    | progress intros
    | apply ks_bind
    | apply ks_try_except
    | apply ks_try_finally
    | match goal with
      | |- keeps_sessions (match ?x with _ => _ end) => destruct x
      | |- keeps_sessions (if ?x then _ else _) => destruct x
      | |- keeps_sessions (let '(_, _) := ?x in _) => destruct x
      end ].

Lemma ks_store_metadata (j : job) (r : result info) :
  keeps_sessions (store_metadata j r).
Proof. unfold store_metadata. keeps. Qed.

Lemma ks_blocking_download (j : job) (w : worker_env) :
  keeps_sessions (blocking_download j w).
Proof.
  unfold blocking_download, run_download. pose proof (ks_store_metadata j).
  keeps.
Qed.

Lemma ks_prepare (chat : Z) (env : media_env) : keeps_sessions (prepare chat env).
Proof. unfold prepare. keeps. Qed.

Lemma ks_fetch (j : job) (env : media_env) : keeps_sessions (fetch j env).
Proof.
  unfold fetch, reraise. pose proof (ks_blocking_download j). keeps.
Qed.

Lemma ks_deliver (j : job) (i : info) (t : string) (env : media_env) :
  keeps_sessions (deliver j i t env).
Proof. unfold deliver, reraise. keeps. Qed.

Lemma ks_report_failure (chat : Z) (env : media_env) (e : exn) :
  keeps_sessions (report_failure chat env e).
Proof. unfold report_failure. keeps. Qed.

(** The body of the [try] of [download_media]. *)
Lemma ks_download_body (chat : Z) (env : media_env) :
  keeps_sessions (j <- prepare chat env ;;
                  r <- fetch j env ;;
                  deliver j (fst r) (snd r) env).
Proof.
  pose proof (ks_prepare chat env). pose proof (fun j => ks_fetch j env).
  pose proof (fun j i t => ks_deliver j i t env). keeps.
Qed.

Lemma ks_download_media (chat : Z) (env : media_env) :
  keeps_sessions (download_media chat env).
Proof.
  unfold download_media.
  pose proof (ks_download_body chat env).
  pose proof (ks_report_failure chat env). keeps.
Qed.

(** ** What [download_media] leaves behind *)

Lemma release_run (chat : Z) (st : state) :
  exists st', release chat st = (Ok tt, st', [])
              /\ download_progress st' !! chat = None
              /\ user_data st' = user_data st.
Proof.
  unfold release. unfold_monad.
  destruct (download_progress st !! chat) eqn:E; cbn.
  - eexists. split; [reflexivity|]. simpl_state.
    split; [apply lookup_delete_eq | reflexivity].
  - exists st. auto.
Qed.

Lemma try_finally_release {A} (m : M A) (chat : Z) (st : state) :
  try_finally m (release chat) st
  = (outcome_of (m st),
     final (release chat (final (m st))),
     log_of (m st)).
Proof.
  unfold try_finally, outcome_of, final, log_of.
  destruct (m st) as [[r st1] l1]. cbn [fst snd].
  destruct (release_run chat st1) as (st2 & -> & _ & _).
  cbn [fst snd]. now rewrite app_nil_r.
Qed.

Lemma settle_clears (chat : Z) (env : media_env) (m : M unit) (st : state) :
  download_progress (final (settle chat env m st)) !! chat = None.
Proof.
  unfold settle. rewrite try_finally_release.
  destruct (release_run chat (final (try_except m (report_failure chat env) st)))
    as (st2 & E & H & _).
  unfold final at 1. cbn [fst snd]. unfold final at 1. now rewrite E.
Qed.

(** C2 (as amended).  When [download_media] has ended, however it ended, the
    progress store holds no entry for the chat; the session table is as
    large as before: the session of the chat is still there, with its
    locator, its format and its status message. *)
Theorem download_media_releases_progress (chat : Z) (env : media_env)
    (st : state) :
  let x := download_media chat env st in
  download_progress (final x) !! chat = None
  /\ sessions_kept st (final x)
  /\ (forall s, user_data st !! chat = Some s ->
        exists s', user_data (final x) !! chat = Some s'
                   /\ url s' = url s /\ format s' = format s
                   /\ progress_message_id s' = progress_message_id s).
Proof.
  cbv zeta. split; [|split].
  - apply (settle_clears chat env).
  - apply ks_download_media.
  - intros s Hs. pose proof (ks_download_media chat env st chat) as H.
    now rewrite Hs in H.
Qed.

Lemma download_media_releases_progress_witness :
  let st := State {[7%Z := Session "https://youtu.be/x" 1 7 (Some 10%Z)
                              (Some "mp3") (Some 11%Z) None]} ∅ in
  let env := MediaEnv (PyFloat.of_Z 1000) "/tmp/x" None
               (WorkerEnv (Ok (Info (Some "Song") None None None)) [] None)
               [("Song.mp3", 5000000%N)] None None None None None None in
  exists s', user_data (final (download_media 7 env st)) !! 7%Z = Some s'
             /\ url s' = "https://youtu.be/x" /\ format s' = Some "mp3"
             /\ progress_message_id s' = Some 11%Z.
Proof.
  cbv zeta.
  apply (proj2 (proj2 (download_media_releases_progress 7
           (MediaEnv (PyFloat.of_Z 1000) "/tmp/x" None
              (WorkerEnv (Ok (Info (Some "Song") None None None)) [] None)
              [("Song.mp3", 5000000%N)] None None None None None None)
           (State {[7%Z := Session "https://youtu.be/x" 1 7 (Some 10%Z)
                             (Some "mp3") (Some 11%Z) None]} ∅)))
         (Session "https://youtu.be/x" 1 7 (Some 10%Z)
                  (Some "mp3") (Some 11%Z) None)).
  vm_compute. reflexivity.
Defined.

(** C2 (as stated) fails: after a delivered audio job the session of the
    chat is still in the session table. *)
Lemma session_survives_delivery :
  let st := State {[7%Z := Session "https://youtube.com/watch?v=abc" 1 7
                              (Some 10%Z) (Some "mp3") (Some 11%Z) None]} ∅ in
  let env := MediaEnv (PyFloat.of_Z 1000) "/tmp/x" None
               (WorkerEnv (Ok (Info (Some "Song") None None None)) [] None)
               [("Song.mp3", 5000000%N)] None None None None None None in
  let x := download_media 7 env st in
  outcome_of x = Ok tt
  /\ existsb is_send_audio (log_of x) = true
  /\ user_data (final x) !! 7%Z
     = Some (Session "https://youtube.com/watch?v=abc" 1 7 (Some 10%Z)
                     (Some "mp3") (Some 11%Z) (Some "Song"))
  /\ ~ cleared 7 (final x).
Proof.
  cbv zeta.
  split; [vm_compute; reflexivity|].
  split; [vm_compute; reflexivity|].
  split; [vm_compute; reflexivity|].
  intros [H _]. vm_compute in H. discriminate H.
Qed.

(** ** Running [download_media] up to the delivery *)

Lemma prepare_run (chat : Z) (env : media_env) (st : state) (s : session)
    (f : string) (pm : Z) :
  user_data st !! chat = Some s -> format s = Some f ->
  progress_message_id s = Some pm ->
  prepare chat env st
  = (Ok (Job chat (url s) f pm),
     set_download_progress
       (insert chat (Progress starting "0%" "N/A" "N/A" (clock_start env))) st,
     []).
Proof.
  intros Hs Hf Hp. unfold prepare. unfold bind at 1.
  rewrite (user_data_at_found _ _ _ Hs), Hf, Hp. reflexivity.
Qed.

Lemma hooks_run (chat : Z) (calls : list hook_call) (st : state) :
  exists st', for_each calls (progress_hook chat) st = (Ok tt, st', [])
              /\ user_data st' = user_data st.
Proof.
  revert st. induction calls as [|d r IH]; intros st; cbn [for_each].
  - exists st. auto.
  - unfold bind.
    assert (exists st1, progress_hook chat d st = (Ok tt, st1, [])
                        /\ user_data st1 = user_data st) as (st1 & -> & E1).
    { unfold progress_hook.
      destruct (h_status d =? "downloading")%string;
        [|destruct (h_status d =? "finished")%string];
        eexists; split; reflexivity. }
    destruct (IH st1) as (st2 & -> & E2).
    exists st2. split; [reflexivity | congruence].
Qed.

Lemma blocking_download_run (j : job) (w : worker_env) (st : state)
    (s : session) (p : progress) (i : info) :
  user_data st !! j_chat j = Some s ->
  download_progress st !! j_chat j = Some p ->
  extract_info w = Ok i -> download w = None ->
  exists st',
    blocking_download j w st = (Ok i, st', [])
    /\ user_data st'
       = <[j_chat j := with_title (default "download" (i_title i)) s]>
           (user_data st).
Proof.
  intros Hs Hp Hi Hd.
  unfold blocking_download, store_metadata, run_download.
  rewrite Hi, Hd. unfold bind at 1. unfold bind at 1. unfold lift at 1.
  unfold bind at 1. rewrite (update_session_found _ _ _ _ Hs).
  unfold bind at 1. unfold update_progress. unfold bind at 1.
  unfold get_state at 1. simpl_state. rewrite Hp.
  unfold modify at 1. unfold ret at 1. cbn [app].
  unfold bind at 1. unfold bind at 1.
  match goal with
  | |- context [for_each ?c ?b ?s0] =>
      destruct (hooks_run (j_chat j) c s0) as (st2 & -> & E2)
  end.
  exists st2. split; [reflexivity|]. rewrite E2. now simpl_state.
Qed.

Lemma fetch_run (j : job) (env : media_env) (st : state) (s : session)
    (p : progress) (i : info) :
  user_data st !! j_chat j = Some s ->
  download_progress st !! j_chat j = Some p ->
  edit_starting env = None ->
  extract_info (worker env) = Ok i -> download (worker env) = None ->
  exists st',
    fetch j env st
    = (Ok (i, default "download" (i_title i)), st',
       [edit_message_text (j_chat j) (j_progress_message_id j) starting_text;
        to_thread_blocking_download (j_chat j) (j_url j) (j_format j)])
    /\ user_data st'
       = <[j_chat j := with_title (default "download" (i_title i)) s]>
           (user_data st).
Proof.
  intros Hs Hp He Hi Hd.
  destruct (blocking_download_run j (worker env) st s p i Hs Hp Hi Hd)
    as (st' & Hb & Hu).
  exists st'. split; [|exact Hu].
  unfold fetch, try_except. unfold bind at 1. unfold call at 1. rewrite He.
  unfold bind at 1. unfold call at 1.
  unfold bind at 1. rewrite Hb.
  unfold bind at 1.
  erewrite user_data_at_found by (rewrite Hu; apply lookup_insert_eq).
  reflexivity.
Qed.

Lemma try_except_after {A} (m m' : M A) (h : exn -> M A) (st st' : state)
    (pre : list action) :
  m st = after pre (m' st') ->
  try_except m h st = after pre (try_except m' h st').
Proof.
  intros E. unfold try_except, after, outcome_of, final, log_of in *. rewrite E.
  destruct (m' st') as [[[a|e] s1] l1]; cbn [fst snd]; [reflexivity|].
  destruct (h e s1) as [[r s2] l2]. cbn [fst snd]. now rewrite app_assoc.
Qed.

Lemma try_finally_after {A} (m m' : M A) (f : M unit) (st st' : state)
    (pre : list action) :
  m st = after pre (m' st') ->
  try_finally m f st = after pre (try_finally m' f st').
Proof.
  intros E. unfold try_finally, after, outcome_of, final, log_of in *. rewrite E.
  destruct (m' st') as [[r s1] l1]. cbn [fst snd].
  destruct (f s1) as [[[u|e] s2] l2]; cbn [fst snd]; now rewrite app_assoc.
Qed.

Lemma settle_after (chat : Z) (env : media_env) (m m' : M unit)
    (st st' : state) (pre : list action) :
  m st = after pre (m' st') ->
  settle chat env m st = after pre (settle chat env m' st').
Proof.
  intros E. unfold settle. apply try_finally_after.
  now apply try_except_after.
Qed.

(** With a session that has its format and its status message, an edit of
    the status that succeeds and a download that succeeds, [download_media]
    comes to the delivery. *)
Lemma download_media_reaches_delivery (chat : Z) (env : media_env) (st : state)
    (s : session) (f : string) (pm : Z) (i : info) :
  user_data st !! chat = Some s -> format s = Some f ->
  progress_message_id s = Some pm ->
  edit_starting env = None ->
  extract_info (worker env) = Ok i -> download (worker env) = None ->
  let j := Job chat (url s) f pm in
  let t := default "download" (i_title i) in
  exists st',
    user_data st' = <[chat := with_title t s]> (user_data st)
    /\ download_media chat env st
       = after [edit_message_text chat pm starting_text;
                to_thread_blocking_download chat (url s) f]
               (settle chat env (deliver j i t env) st').
Proof.
  intros Hs Hf Hp He Hi Hd. cbv zeta.
  set (j := Job chat (url s) f pm).
  set (st1 := set_download_progress
                (insert chat (Progress starting "0%" "N/A" "N/A"
                                       (clock_start env))) st).
  destruct (fetch_run j env st1 s
              (Progress starting "0%" "N/A" "N/A" (clock_start env)) i)
    as (st' & Hfetch & Hu); try assumption.
  { subst st1. simpl_state. apply lookup_insert_eq. }
  exists st'. split; [exact Hu|].
  change (download_media chat env st)
    with (settle chat env
            (st0 <- get_state ;;
             match user_data st0 !! chat with
             | None => ret tt
             | Some _ =>
                 j <- prepare chat env ;;
                 r <- fetch j env ;;
                 deliver j (fst r) (snd r) env
             end) st).
  apply settle_after.
  unfold bind at 1. unfold get_state at 1. rewrite Hs.
  unfold bind at 1. rewrite (prepare_run chat env st s f pm Hs Hf Hp).
  fold j. fold st1. unfold bind at 1. rewrite Hfetch. cbn [fst snd].
  unfold after, outcome_of, final, log_of.
  now destruct (deliver j i _ env st') as [[r s2] l2].
Qed.

Lemma take_length (n : nat) (s : string) : String.length (PyStr.take n s) <= n.
Proof.
  revert s. induction n as [|n IH]; intros [|c r]; cbn; try lia.
  specialize (IH r). lia.
Qed.

(** The clauses of [download_media] after a failure [e], when the session
    has its status message. *)
Lemma settle_raise (chat : Z) (env : media_env) (m : M unit) (st st1 : state)
    (l1 : list action) (e : exn) (s1 : session) (pm : Z) :
  m st = (Raise e, st1, l1) ->
  user_data st1 !! chat = Some s1 -> progress_message_id s1 = Some pm ->
  settle chat env m st
  = (match edit_error env with
     | None => Ok tt
     | Some _ => match send_error env with None => Ok tt | Some e' => Raise e' end
     end,
     final (release chat st1),
     l1 ++ logger_error ("Download/Upload error: " +:+ exn_str e)
        :: edit_message_text chat pm (error_msg e)
        :: match edit_error env with
           | None => []
           | Some _ => [send_message chat (error_msg e) []]
           end).
Proof.
  intros Hm Hs Hp. unfold settle. rewrite try_finally_release.
  assert (try_except m (report_failure chat env) st
          = (match edit_error env with
             | None => Ok tt
             | Some _ =>
                 match send_error env with None => Ok tt | Some e' => Raise e' end
             end, st1,
             l1 ++ logger_error ("Download/Upload error: " +:+ exn_str e)
                :: edit_message_text chat pm (error_msg e)
                :: match edit_error env with
                   | None => []
                   | Some _ => [send_message chat (error_msg e) []]
                   end)) as ->.
  { unfold try_except at 1. rewrite Hm.
    unfold report_failure. unfold bind at 1. unfold call at 1.
    unfold try_except. unfold bind at 1.
    rewrite (user_data_at_found _ _ _ Hs), Hp. unfold_monad.
    destruct (edit_error env); [destruct (send_error env)|]; reflexivity. }
  reflexivity.
Qed.

Lemma settle_ok (chat : Z) (env : media_env) (m : M unit) (st st1 : state)
    (l1 : list action) :
  m st = (Ok tt, st1, l1) ->
  settle chat env m st = (Ok tt, final (release chat st1), l1).
Proof.
  intros Hm. unfold settle. rewrite try_finally_release.
  unfold try_except. now rewrite Hm.
Qed.

(** What the clauses of [download_media] add to the log is the report of a
    failure: no attachment and no job. *)
Lemma settle_log (chat : Z) (env : media_env) (m : M unit) (st : state) :
  exists tail,
    log_of (settle chat env m st) = log_of (m st) ++ tail
    /\ Forall (fun a => is_send_video a = false /\ is_send_audio a = false
                        /\ is_job_start a = false) tail.
Proof.
  unfold settle. rewrite try_finally_release. unfold log_of at 1. cbn [snd].
  unfold try_except, log_of. destruct (m st) as [[[u|e] st1] l1]; cbn [fst snd].
  - exists []. split; [now rewrite app_nil_r | constructor].
  - destruct (report_failure chat env e st1) as [[r st2] l2] eqn:E.
    exists l2. split; [reflexivity|].
    unfold report_failure in E. unfold_monad.
    destruct (user_data_at chat st1) as [[[s1|e1] st3] l3] eqn:E1.
    + destruct (progress_message_id s1); [destruct (edit_error env)|];
        inversion E; subst; rewrite ?app_nil_r;
        try (unfold user_data_at in E1; unfold_monad;
             destruct (user_data st1 !! chat); inversion E1; subst; cbn);
        repeat constructor.
    + inversion E; subst.
      unfold user_data_at in E1; unfold_monad.
      destruct (user_data st1 !! chat); inversion E1; subst; cbn.
      repeat constructor.
Qed.

(** ** Failures are reported *)

(** C8.  When the fetch or the delivery of a job fails with [e], the text
    shown has a fixed head, at most 100 characters of [str(e)] and the advice
    to retry; it is put into the status message by an edit, and when that edit
    fails it is sent as a new message. *)
Theorem failure_is_reported (chat : Z) (env : media_env) (st st1 : state)
    (s : session) (pm : Z) (e : exn) (l1 : list action) :
  user_data st !! chat = Some s ->
  progress_message_id s = Some pm ->
  (j <- prepare chat env ;;
   r <- fetch j env ;;
   deliver j (fst r) (snd r) env) st = (Raise e, st1, l1) ->
  let x := download_media chat env st in
  let cause := PyStr.take 100 (exn_str e) in
  let shown := failure_notice cause in
  String.length cause <= 100
  /\ (exists before, shown = before +:+ cause +:+ "`" +:+ nl +:+ nl
                                +:+ retry_advice)
  /\ log_of x
     = l1 ++ logger_error ("Download/Upload error: " +:+ exn_str e)
          :: edit_message_text chat pm shown
          :: match edit_error env with
             | None => []
             | Some _ => [send_message chat shown []]
             end
  /\ download_progress (final x) !! chat = None.
Proof.
  intros Hs Hp Hbody. cbv zeta.
  split; [apply take_length|].
  split; [eexists; unfold failure_notice;
          rewrite <- !append_assoc; reflexivity|].
  split; [|apply (settle_clears chat env)].
  change (failure_notice (PyStr.take 100 (exn_str e))) with (error_msg e).
  pose proof (ks_download_body chat env st chat) as Hk.
  rewrite Hbody, Hs in Hk. unfold final in Hk. cbn [fst snd] in Hk.
  destruct Hk as (s1 & Hs1 & _ & _ & Hp1). rewrite Hp in Hp1.
  change (download_media chat env st)
    with (settle chat env
            (st0 <- get_state ;;
             match user_data st0 !! chat with
             | None => ret tt
             | Some _ =>
                 j <- prepare chat env ;;
                 r <- fetch j env ;;
                 deliver j (fst r) (snd r) env
             end) st).
  erewrite settle_raise; [reflexivity | | exact Hs1 | exact Hp1].
  unfold bind at 1. unfold get_state at 1. rewrite Hs, Hbody. reflexivity.
Qed.

Lemma failure_is_reported_witness :
  let st := State {[7%Z := Session "https://youtu.be/x" 1 7 (Some 10%Z)
                              (Some "mp4") (Some 11%Z) None]} ∅ in
  let env := MediaEnv (PyFloat.of_Z 1000) "/tmp/x" None
               (WorkerEnv (Raise (Exn OtherError "ERROR: Video unavailable"))
                          [] None)
               [] None None None None
               (Some (Exn OtherError "Message is not modified")) None in
  let shown :=
    failure_notice "Download process failed: ERROR: Video unavailable" in
  (exists before,
      shown = before +:+ "Please try a different video or try again later.")
  /\ log_of (download_media 7 env st)
  = [edit_message_text 7 11 starting_text;
     to_thread_blocking_download 7 "https://youtu.be/x" "mp4";
     logger_error
       "Download/Upload error: Download process failed: ERROR: Video unavailable";
     edit_message_text 7 11 shown;
     send_message 7 shown []].
Proof.
  cbv zeta.
  split;
    [exists ("❌ *Download/Upload Failed!*" +:+ nl +:+ nl
             +:+ "Reason: `Download process failed: ERROR: Video unavailable`"
             +:+ nl +:+ nl); vm_compute; reflexivity|].
  refine (proj1 (proj2 (proj2 (failure_is_reported 7
           (MediaEnv (PyFloat.of_Z 1000) "/tmp/x" None
              (WorkerEnv (Raise (Exn OtherError "ERROR: Video unavailable"))
                         [] None)
              [] None None None None
              (Some (Exn OtherError "Message is not modified")) None)
           (State {[7%Z := Session "https://youtu.be/x" 1 7 (Some 10%Z)
                             (Some "mp4") (Some 11%Z) None]} ∅)
           (State {[7%Z := Session "https://youtu.be/x" 1 7 (Some 10%Z)
                             (Some "mp4") (Some 11%Z) None]}
                  {[7%Z := Progress starting "0%" "N/A" "N/A"
                                    (PyFloat.of_Z 1000)]})
           (Session "https://youtu.be/x" 1 7 (Some 10%Z)
                    (Some "mp4") (Some 11%Z) None)
           11
           (Exn OtherError "Download process failed: ERROR: Video unavailable")
           [edit_message_text 7 11 starting_text;
            to_thread_blocking_download 7 "https://youtu.be/x" "mp4"]
           _ _ _)))); vm_compute; reflexivity.
Defined.

(** ** The delivery and the size limit *)

Lemma deliver_oversized (j : job) (i : info) (t : string) (env : media_env)
    (st : state) (name : string) (file_size : N) :
  (j_format j =? "mp3")%string = false ->
  find is_media_file (listdir env) = Some (name, file_size) ->
  (size_limit < file_size)%N ->
  edit_uploading env = None ->
  deliver j i t env st
  = (Raise too_large, st,
     [edit_message_text (j_chat j) (j_progress_message_id j) uploading_text]).
Proof.
  intros Hf Hfind Hsize He. unfold deliver. rewrite Hfind.
  destruct file_size as [|p]; [now vm_compute in Hsize|].
  rewrite Hf, He. apply N.ltb_lt in Hsize. rewrite Hsize.
  reflexivity.
Qed.

Lemma deliver_audio (j : job) (i : info) (t : string) (env : media_env)
    (st : state) (name : string) (file_size : N) :
  j_format j = "mp3" ->
  find is_media_file (listdir env) = Some (name, file_size) ->
  file_size <> 0%N ->
  edit_uploading env = None ->
  exists r tail,
    deliver j i t env st
    = (r, st,
       edit_message_text (j_chat j) (j_progress_message_id j) uploading_text
       :: send_audio (j_chat j) (tmp_dir env +:+ "/" +:+ name) ("🎵 " +:+ t)
                     (PyStr.take 64 t) "YouTube"
       :: tail)
    /\ Forall (fun a => is_send_video a = false) tail
    /\ (send_media env = None -> delete_status env = None ->
        send_summary env = None ->
        r = Ok tt
        /\ tail = [delete_message (j_chat j) (j_progress_message_id j);
                   send_message (j_chat j) (complete_text t "mp3" file_size)
                                another_keyboard]).
Proof.
  intros Hf Hfind Hsize He. unfold deliver. rewrite Hfind.
  destruct file_size as [|p]; [congruence|].
  rewrite Hf, He. cbn [String.eqb Ascii.eqb Bool.eqb].
  unfold_monad. unfold reraise, raise.
  destruct (send_media env) as [e1|];
    [|destruct (delete_status env) as [e2|];
      [|destruct (send_summary env) as [e3|]]];
    cbn; do 2 eexists; (split; [reflexivity|]);
    (split; [repeat constructor|]); intros; try discriminate; auto.
Qed.

Lemma size_limit_below_two_GiB : (size_limit < 2 * GiB)%N.
Proof. reflexivity. Qed.

(** C7 (as amended).  A job in a format other than mp3 whose file is larger
    than the limit of 2000 MiB, as every file above 2 GiB is, is not sent:
    the log has no video attachment, the failure is shown in the status
    message (or in a new message when the edit fails), and the progress entry
    of the chat is removed.  The session of the chat is still there. *)
Theorem oversized_video_is_rejected (chat : Z) (env : media_env) (st : state)
    (s : session) (f : string) (pm : Z) (i : info) (name : string)
    (file_size : N) :
  user_data st !! chat = Some s -> format s = Some f ->
  progress_message_id s = Some pm ->
  (f =? "mp3")%string = false ->
  edit_starting env = None ->
  extract_info (worker env) = Ok i -> download (worker env) = None ->
  find is_media_file (listdir env) = Some (name, file_size) ->
  (size_limit < file_size)%N ->
  edit_uploading env = None ->
  let x := download_media chat env st in
  let shown := error_head +:+ exn_str too_large +:+ error_tail in
  log_of x
  = [edit_message_text chat pm starting_text;
     to_thread_blocking_download chat (url s) f;
     edit_message_text chat pm uploading_text;
     logger_error ("Download/Upload error: " +:+ exn_str too_large);
     edit_message_text chat pm shown]
    ++ match edit_error env with
       | None => []
       | Some _ => [send_message chat shown []]
       end
  /\ Forall (fun a => is_send_video a = false) (log_of x)
  /\ download_progress (final x) !! chat = None
  /\ (exists s', user_data (final x) !! chat = Some s'
                 /\ url s' = url s /\ format s' = Some f
                 /\ progress_message_id s' = Some pm).
Proof.
  intros Hs Hf Hp Hmp3 He Hi Hd Hfind Hsize Hu. cbv zeta.
  destruct (download_media_reaches_delivery chat env st s f pm i
              Hs Hf Hp He Hi Hd) as (st' & Hst' & Hrun).
  cbv zeta in Hrun.
  set (j := Job chat (url s) f pm) in *.
  set (t := default "download" (i_title i)) in *.
  assert (Hlog : log_of (download_media chat env st)
    = [edit_message_text chat pm starting_text;
       to_thread_blocking_download chat (url s) f;
       edit_message_text chat pm uploading_text;
       logger_error ("Download/Upload error: " +:+ exn_str too_large);
       edit_message_text chat pm
         (error_head +:+ exn_str too_large +:+ error_tail)]
      ++ match edit_error env with
         | None => []
         | Some _ =>
             [send_message chat
                (error_head +:+ exn_str too_large +:+ error_tail) []]
         end).
  { rewrite Hrun.
    erewrite (settle_raise chat env (deliver j i t env) st' st'
                [edit_message_text chat pm uploading_text] too_large
                (with_title t s) pm).
    - reflexivity.
    - apply (deliver_oversized j i t env st' name file_size); assumption.
    - rewrite Hst'. apply lookup_insert_eq.
    - exact Hp. }
  split; [exact Hlog|]. split.
  { rewrite Hlog. destruct (edit_error env); repeat constructor. }
  split; [apply (settle_clears chat env)|].
  pose proof (ks_download_media chat env st chat) as Hk.
  rewrite Hs in Hk. destruct Hk as (s' & E & ? & ? & ?).
  exists s'. repeat split; congruence.
Qed.

Lemma oversized_video_is_rejected_witness :
  let st := State {[7%Z := Session "https://youtu.be/x" 1 7 (Some 10%Z)
                              (Some "mp4") (Some 11%Z) None]} ∅ in
  let env := MediaEnv (PyFloat.of_Z 1000) "/tmp/x" None
               (WorkerEnv (Ok (Info (Some "Film") None None None)) [] None)
               [("Film.mp4", 3000000000%N)] None None None None None None in
  Forall (fun a => is_send_video a = false) (log_of (download_media 7 env st))
  /\ download_progress (final (download_media 7 env st)) !! 7%Z = None.
Proof.
  cbv zeta.
  pose proof (oversized_video_is_rejected 7
    (MediaEnv (PyFloat.of_Z 1000) "/tmp/x" None
       (WorkerEnv (Ok (Info (Some "Film") None None None)) [] None)
       [("Film.mp4", 3000000000%N)] None None None None None None)
    (State {[7%Z := Session "https://youtu.be/x" 1 7 (Some 10%Z)
                      (Some "mp4") (Some 11%Z) None]} ∅)
    (Session "https://youtu.be/x" 1 7 (Some 10%Z) (Some "mp4") (Some 11%Z) None)
    "mp4" 11 (Info (Some "Film") None None None) "Film.mp4" 3000000000%N
    eq_refl eq_refl eq_refl eq_refl eq_refl eq_refl eq_refl eq_refl eq_refl
    eq_refl) as H.
  cbv zeta in H. destruct H as (_ & Hv & Hp & _). split; assumption.
Defined.

(** C7 (as stated) fails: a video above 2 GiB is rejected and not sent, and
    afterwards the session of the chat is still in the session table. *)
Lemma session_survives_rejection :
  let st := State {[7%Z := Session "https://youtu.be/x" 1 7 (Some 10%Z)
                              (Some "mp4") (Some 11%Z) None]} ∅ in
  let env := MediaEnv (PyFloat.of_Z 1000) "/tmp/x" None
               (WorkerEnv (Ok (Info (Some "Film") None None None)) [] None)
               [("Film.mp4", 3000000000%N)] None None None None None None in
  let x := download_media 7 env st in
  (2 * GiB < 3000000000)%N
  /\ existsb is_send_video (log_of x) = false
  /\ In (edit_message_text 7 11
           (error_head +:+ exn_str too_large +:+ error_tail)) (log_of x)
  /\ user_data (final x) !! 7%Z
     = Some (Session "https://youtu.be/x" 1 7 (Some 10%Z) (Some "mp4")
                     (Some 11%Z) (Some "Film"))
  /\ ~ cleared 7 (final x).
Proof.
  cbv zeta.
  split; [reflexivity|].
  split; [vm_compute; reflexivity|].
  split; [vm_compute; auto 10|].
  split; [vm_compute; reflexivity|].
  intros [H _]. vm_compute in H. discriminate H.
Qed.

(** C10.  A job in the format mp3 that comes to the delivery with a file
    that is not empty sends it as audio whatever its size: nothing compares
    the size with the limit, and no video is sent.  The comparison is made on
    the other branch, where a file above the limit is not sent. *)
Theorem audio_is_sent_whatever_its_size (chat : Z) (env : media_env)
    (st : state) (s : session) (pm : Z) (i : info) (name : string)
    (file_size : N) :
  user_data st !! chat = Some s -> format s = Some "mp3" ->
  progress_message_id s = Some pm ->
  edit_starting env = None ->
  extract_info (worker env) = Ok i -> download (worker env) = None ->
  find is_media_file (listdir env) = Some (name, file_size) ->
  file_size <> 0%N ->
  edit_uploading env = None ->
  let x := download_media chat env st in
  let t := default "download" (i_title i) in
  (exists tail,
     log_of x
     = [edit_message_text chat pm starting_text;
        to_thread_blocking_download chat (url s) "mp3";
        edit_message_text chat pm uploading_text;
        send_audio chat (tmp_dir env +:+ "/" +:+ name) ("🎵 " +:+ t)
                   (PyStr.take 64 t) "YouTube"] ++ tail
     /\ Forall (fun a => is_send_video a = false) tail
     /\ (send_media env = None -> delete_status env = None ->
         send_summary env = None ->
         outcome_of x = Ok tt
         /\ tail = [delete_message chat pm;
                    send_message chat (complete_text t "mp3" file_size)
                                 another_keyboard]))
  /\ (forall j' i' t' st',
        (j_format j' =? "mp3")%string = false ->
        (size_limit < file_size)%N ->
        deliver j' i' t' env st'
        = (Raise too_large, st',
           [edit_message_text (j_chat j') (j_progress_message_id j')
                              uploading_text])).
Proof.
  intros Hs Hf Hp He Hi Hd Hfind Hsize Hu. cbv zeta. split.
  - destruct (download_media_reaches_delivery chat env st s "mp3" pm i
                Hs Hf Hp He Hi Hd) as (st' & Hst' & Hrun).
    cbv zeta in Hrun.
    set (j := Job chat (url s) "mp3" pm) in *.
    set (t := default "download" (i_title i)) in *.
    destruct (deliver_audio j i t env st' name file_size eq_refl Hfind Hsize Hu)
      as (r & tail & Hdel & Hnov & Hfull).
    destruct (settle_log chat env (deliver j i t env) st')
      as (tail' & Hlog & Htail').
    rewrite Hdel in Hlog. unfold log_of at 2 in Hlog. cbn [snd] in Hlog.
    exists (tail ++ tail'). split; [|split].
    + rewrite Hrun. unfold after at 1. unfold log_of at 1. cbn [snd].
      rewrite Hlog. cbn [j_chat j_progress_message_id j app].
      reflexivity.
    + apply Forall_app. split; [exact Hnov|].
      eapply Forall_impl; [exact Htail'|]. now intros a (H & _).
    + intros H1 H2 H3. destruct (Hfull H1 H2 H3) as [-> ->].
      rewrite Hrun. unfold after, outcome_of at 1. cbn [fst].
      rewrite (settle_ok chat env _ st' st' _ Hdel) in Hlog |- *.
      unfold log_of in Hlog. cbn [snd] in Hlog.
      split; [reflexivity|].
      apply (f_equal length) in Hlog. rewrite length_app in Hlog.
      cbn [length] in Hlog.
      destruct tail' as [|a tail']; [reflexivity | cbn [length] in Hlog; lia].
  - intros j' i' t' st' Hfmt Hlim.
    now apply (deliver_oversized j' i' t' env st' name file_size).
Qed.

Lemma audio_is_sent_whatever_its_size_witness :
  let st := State {[7%Z := Session "https://youtu.be/x" 1 7 (Some 10%Z)
                              (Some "mp3") (Some 11%Z) None]} ∅ in
  let env := MediaEnv (PyFloat.of_Z 1000) "/tmp/x" None
               (WorkerEnv (Ok (Info (Some "Song") None None None)) [] None)
               [("Song.mp3", 3000000000%N)] None None None None None None in
  (size_limit < 3000000000)%N
  /\ exists tail,
       log_of (download_media 7 env st)
       = [edit_message_text 7 11 starting_text;
          to_thread_blocking_download 7 "https://youtu.be/x" "mp3";
          edit_message_text 7 11 uploading_text;
          send_audio 7 "/tmp/x/Song.mp3" "🎵 Song" "Song" "YouTube"] ++ tail.
Proof.
  cbv zeta. split; [reflexivity|].
  pose proof (audio_is_sent_whatever_its_size 7
    (MediaEnv (PyFloat.of_Z 1000) "/tmp/x" None
       (WorkerEnv (Ok (Info (Some "Song") None None None)) [] None)
       [("Song.mp3", 3000000000%N)] None None None None None None)
    (State {[7%Z := Session "https://youtu.be/x" 1 7 (Some 10%Z)
                      (Some "mp3") (Some 11%Z) None]} ∅)
    (Session "https://youtu.be/x" 1 7 (Some 10%Z) (Some "mp3") (Some 11%Z) None)
    11 (Info (Some "Song") None None None) "Song.mp3" 3000000000%N
    eq_refl eq_refl eq_refl eq_refl eq_refl eq_refl eq_refl
    ltac:(discriminate) eq_refl) as H.
  cbv zeta in H. destruct H as [(tail & Hlog & _) _]. exists tail. exact Hlog.
Defined.

(** ** The reporter and stale entries *)

(** One turn of the loop: it never raises, leaves the sessions alone, removes
    at most the entry of its chat and addresses no other chat. *)
Lemma update_one_run (env : tick_env) (c : Z) (pd : progress) (st : state) :
  exists st' l,
    update_one env (c, pd) st = (Ok tt, st', l)
    /\ user_data st' = user_data st
    /\ (forall k, download_progress st' !! k = None
                  \/ download_progress st' !! k = download_progress st !! k)
    /\ (forall k, k <> c -> silent_for k l)
    /\ (is_stale (clock env c) pd = true ->
        download_progress st' !! c = None /\ silent_for c l).
Proof.
  unfold update_one, try_except.
  destruct (is_stale (clock env c) pd) eqn:Hstale.
  - unfold del_progress. unfold_monad.
    destruct (download_progress st !! c) eqn:E; cbn.
    + do 2 eexists. split; [reflexivity|]. simpl_state.
      split; [reflexivity|]. split; [|split].
      * intros k. destruct (decide (k = c)) as [->|Hne].
        -- left. apply lookup_delete_eq.
        -- right. now apply lookup_delete_ne.
      * intros; constructor.
      * intros _. split; [apply lookup_delete_eq | constructor].
    + do 2 eexists. split; [reflexivity|].
      split; [reflexivity|]. split; [|split].
      * intros k. now right.
      * intros; repeat constructor; discriminate.
      * intros _. split; [exact E | repeat constructor; discriminate].
  - destruct (p_status pd); unfold_monad; cbn;
      try (exists st, []; split; [reflexivity|]; split; [reflexivity|];
           split; [now right|]; split; [intros; constructor | discriminate]).
    destruct (create_progress_bar (percent pd)) as [bar|e]; cbn.
    + destruct (user_data st !! c) as [s|]; cbn;
        [destruct (progress_message_id s) as [m|]; cbn;
         [destruct (edit_status env c) as [e|]; cbn|]|];
        do 2 eexists; (split; [reflexivity|]);
        (split; [reflexivity|]); (split; [now right|]);
        (split; [|discriminate]);
        intros k Hk; repeat constructor; cbn; congruence.
    + do 2 eexists. split; [reflexivity|]. split; [reflexivity|].
      split; [now right|]. split; [|discriminate].
      intros k Hk; repeat constructor; cbn; congruence.
Qed.

Lemma reporter_loop (env : tick_env) (items : list (Z * progress)) :
  forall st, NoDup items.*1 ->
  exists st' l,
    for_each items (update_one env) st = (Ok tt, st', l)
    /\ user_data st' = user_data st
    /\ (forall k, download_progress st' !! k = None
                  \/ download_progress st' !! k = download_progress st !! k)
    /\ (forall k, k ∉ items.*1 -> silent_for k l)
    /\ (forall k pd, (k, pd) ∈ items -> is_stale (clock env k) pd = true ->
          download_progress st' !! k = None /\ silent_for k l).
Proof.
  induction items as [|[c pd] rest IH]; intros st Hnd; cbn [for_each].
  - exists st, []. split; [reflexivity|]. split; [reflexivity|].
    split; [now right|]. split; [intros; constructor|].
    intros k pd' Hin. now apply elem_of_nil in Hin.
  - cbn in Hnd. apply NoDup_cons in Hnd as [Hc Hnd].
    destruct (update_one_run env c pd st)
      as (st1 & l1 & E1 & U1 & D1 & S1 & T1).
    destruct (IH st1 Hnd) as (st2 & l2 & E2 & U2 & D2 & S2 & T2).
    exists st2, (l1 ++ l2). unfold bind. rewrite E1, E2.
    split; [reflexivity|]. split; [congruence|]. split; [|split].
    + intros k. destruct (D2 k) as [H|H]; [now left|].
      rewrite H. apply D1.
    + intros k Hk. cbn in Hk. apply not_elem_of_cons in Hk as [Hne Hk].
      apply Forall_app. split; [now apply S1 | now apply S2].
    + intros k pd' Hin Hstale.
      apply elem_of_cons in Hin as [Heq|Hin].
      * injection Heq as -> ->. destruct (T1 Hstale) as [Hgone Hs1].
        split.
        -- destruct (D2 c) as [H|H]; [exact H | now rewrite H].
        -- apply Forall_app. split; [exact Hs1 | now apply S2].
      * assert (Hk : k ∈ rest.*1).
        { apply list_elem_of_fmap. now exists (k, pd'). }
        destruct (T2 k pd' Hin Hstale) as [Hgone Hs2].
        split; [exact Hgone|].
        apply Forall_app. split; [|exact Hs2].
        apply S1. intros ->. contradiction.
Qed.

(** C5.  An entry whose last update is more than 300 seconds before the
    clock of the tick is removed from the progress store by that tick,
    whatever its status, and the tick addresses no action to its chat: nothing
    is drawn or sent for it. *)
Theorem stale_snapshot_is_evicted (env : tick_env) (st : state) (chat : Z)
    (pd : progress) :
  download_progress st !! chat = Some pd ->
  is_stale (clock env chat) pd = true ->
  let x := progress_updater env st in
  outcome_of x = Ok tt
  /\ download_progress (final x) !! chat = None
  /\ silent_for chat (log_of x)
  /\ user_data (final x) = user_data st.
Proof.
  intros Hpd Hstale. cbv zeta.
  destruct (reporter_loop env (map_to_list (download_progress st)) st
              (NoDup_fst_map_to_list _))
    as (st' & l & E & U & _ & _ & T).
  assert (Hrun : progress_updater env st = (Ok tt, st', l)).
  { unfold progress_updater, bind. unfold get_state at 1. now rewrite E. }
  rewrite Hrun. unfold outcome_of, final, log_of. cbn [fst snd].
  destruct (T chat pd) as [Hgone Hsilent];
    [now apply elem_of_map_to_list | exact Hstale |].
  auto.
Qed.

Lemma stale_snapshot_is_evicted_witness :
  let st := State {[7%Z := Session "https://youtu.be/x" 1 7 (Some 10%Z)
                              (Some "mp4") (Some 11%Z) None]}
                  {[7%Z := Progress downloading " 45.3%" "1.2MiB/s" "00:10"
                                    (PyFloat.of_Z 1000)]} in
  let env := TickEnv (fun _ => PyFloat.of_Z 1301) (fun _ => None) in
  outcome_of (progress_updater env st) = Ok tt
  /\ download_progress (final (progress_updater env st)) !! 7%Z = None
  /\ silent_for 7 (log_of (progress_updater env st))
  /\ user_data (final (progress_updater env st)) = user_data st.
Proof.
  cbv zeta.
  apply (stale_snapshot_is_evicted
           (TickEnv (fun _ => PyFloat.of_Z 1301) (fun _ => None))
           (State {[7%Z := Session "https://youtu.be/x" 1 7 (Some 10%Z)
                             (Some "mp4") (Some 11%Z) None]}
                  {[7%Z := Progress downloading " 45.3%" "1.2MiB/s" "00:10"
                                    (PyFloat.of_Z 1000)]})
           7 (Progress downloading " 45.3%" "1.2MiB/s" "00:10"
                       (PyFloat.of_Z 1000)));
    vm_compute; reflexivity.
Defined.

(** ** The pieces of [download_media] *)

Lemma prepare_chat (chat : Z) (env : media_env) (st st1 : state) (j : job)
    (l : list action) :
  prepare chat env st = (Ok j, st1, l) -> j_chat j = chat.
Proof.
  unfold prepare, user_data_at. unfold_monad.
  destruct (user_data st !! chat) as [s|]; cbn; [|discriminate].
  destruct (format s); cbn; [|discriminate].
  destruct (progress_message_id s); cbn; [|discriminate].
  intros H. now inversion H.
Qed.

Ltac step_piece :=
  match goal with
  | |- context [prepare ?a ?b ?c] => destruct (prepare a b c) as [[[?|?] ?] ?] eqn:?
  | |- context [edit_starting ?a] => destruct (edit_starting a)
  | |- context [blocking_download ?a ?b ?c] =>
      destruct (blocking_download a b c) as [[[?|?] ?] ?]
  | |- context [user_data_at ?a ?b] => destruct (user_data_at a b) as [[[?|?] ?] ?]
  | |- context [subscript ?k ?v ?c] => destruct (subscript k v c) as [[[?|?] ?] ?]
  | |- context [deliver ?a ?b ?c ?d ?e] =>
      destruct (deliver a b c d e) as [[[?|?] ?] ?]
  | |- context [report_failure ?a ?b ?c ?d] =>
      destruct (report_failure a b c d) as [[[?|?] ?] ?]
  | |- context [release ?a ?b] => destruct (release a b) as [[[?|?] ?] ?]
  end;
  cbv beta iota zeta; cbn [app fst snd].

Ltac finish_pieces :=
  repeat match goal with a : unit |- _ => destruct a end;
  repeat first [ rewrite <- app_assoc | rewrite <- app_comm_cons
               | rewrite app_nil_r | rewrite app_nil_l ];
  reflexivity.

(** Run one after the other, the pieces of [download_media] are
    [download_media]. *)
Lemma download_media_in_steps_eq (chat : Z) (env : media_env) (st : state) :
  download_media_in_steps chat env st = download_media chat env st.
Proof.
  unfold download_media, download_media_in_steps, download_media_start,
    download_media_resume, settle, launch, fetch, reraise.
  unfold bind, try_except, try_finally, attempt, call, ret, raise, lift,
    get_state.
  destruct (user_data st !! chat) as [s|] eqn:Hs.
  - destruct (prepare chat env st) as [[[j|e] st1] l1] eqn:Hprep.
    + pose proof (prepare_chat _ _ _ _ _ _ Hprep) as Hj.
      cbv beta iota zeta; cbn [app fst snd].
      repeat (rewrite ?Hj; step_piece);
        finish_pieces.
    + cbv beta iota zeta; cbn [app fst snd].
      repeat step_piece;
        finish_pieces.
  - cbv beta iota zeta; cbn [app fst snd].
    repeat step_piece;
      finish_pieces.
Qed.

(** ** Jobs in flight *)

Lemma launch_chat (chat : Z) (env : media_env) (st st1 : state) (j : job)
    (l : list action) :
  launch chat env st = (Ok j, st1, l) -> j_chat j = chat.
Proof.
  unfold launch, bind. intros H.
  destruct (prepare chat env st) as [[[j0|e] st0] l0] eqn:Hprep; [|discriminate].
  apply prepare_chat in Hprep.
  unfold try_except, bind, call, ret, reraise, raise in H.
  destruct (edit_starting env); cbn in H; inversion H; now subst.
Qed.

Lemma download_media_start_chat (chat : Z) (env : media_env) (st st1 : state)
    (j : job) (l : list action) :
  download_media_start chat env st = (Ok (Some j), st1, l) -> j_chat j = chat.
Proof.
  unfold download_media_start, bind, get_state, attempt, ret. intros H.
  destruct (user_data st !! chat).
  - destruct (launch chat env st) as [[[j0|e] st0] l0] eqn:Hl.
    + apply launch_chat in Hl. inversion H; now subst.
    + destruct (settle chat env (raise e) st0) as [[[u|e'] st2] l2];
        discriminate.
  - destruct (settle chat env (fun st0 => (Ok tt, st0, [])) st)
      as [[[u|e'] st2] l2]; discriminate.
Qed.

Lemma button_handler_start_chat (query : callback_query) (env : button_env)
    (st st1 : state) (j : job) (l : list action) :
  button_handler_start query env st = (Ok (Some j), st1, l) ->
  j_chat j = q_chat_id query.
Proof.
  unfold button_handler_start, bind. intros H.
  destruct (accept_format query env st) as [[[[|]|e] st0] l0]; try discriminate.
  destruct (download_media_start (q_chat_id query) (media env) st0)
    as [[r st2] l2] eqn:Hd.
  inversion H; subst. now apply download_media_start_chat in Hd.
Qed.

(** *** The coroutines are the handlers *)

Section Agreement.

Variable w : worker_env.

Lemma complete_logged {A} (pre : list action) (c : Async.coro A) :
  Async.complete w (Async.logged pre c)
  = let '(r, st, l) := Async.complete w c in (r, st, pre ++ l).
Proof.
  destruct c as [r st l|st l k|st l j k]; cbn [Async.logged Async.complete].
  - reflexivity.
  - destruct (Async.complete w (k st)) as [[r st1] l1].
    now repeat rewrite <- app_assoc.
  - destruct (blocking_download j w st) as [[r st1] l1].
    destruct (Async.complete w (k r st1)) as [[r2 st2] l2].
    now repeat rewrite <- app_assoc.
Qed.

Lemma complete_bind {A B} (c : Async.coro A) (f : A -> Async.C B) :
  Async.complete w (Async.bind_coro c f)
  = match Async.complete w c with
    | (Ok a, st1, l1) =>
        let '(r, st2, l2) := Async.complete w (f a st1) in (r, st2, l1 ++ l2)
    | (Raise e, st1, l1) => (Raise e, st1, l1)
    end.
Proof.
  induction c as [r st l|st l k IH|st l j k IH];
    cbn [Async.bind_coro Async.complete].
  - destruct r as [a|e]; [apply complete_logged | reflexivity].
  - rewrite IH. destruct (Async.complete w (k st)) as [[[a|e] st1] l1];
      [|reflexivity].
    destruct (Async.complete w (f a st1)) as [[r st2] l2].
    now repeat rewrite <- app_assoc.
  - destruct (blocking_download j w st) as [[r st1] l1]. rewrite IH.
    destruct (Async.complete w (k r st1)) as [[[a|e] st2] l2]; [|reflexivity].
    destruct (Async.complete w (f a st2)) as [[r3 st3] l3].
    now repeat rewrite <- app_assoc.
Qed.

Lemma complete_except {A} (c : Async.coro A) (h : exn -> Async.C A) :
  Async.complete w (Async.except_coro c h)
  = match Async.complete w c with
    | (Ok a, st1, l1) => (Ok a, st1, l1)
    | (Raise e, st1, l1) =>
        let '(r, st2, l2) := Async.complete w (h e st1) in (r, st2, l1 ++ l2)
    end.
Proof.
  induction c as [r st l|st l k IH|st l j k IH];
    cbn [Async.except_coro Async.complete].
  - destruct r as [a|e]; [reflexivity | apply complete_logged].
  - rewrite IH. destruct (Async.complete w (k st)) as [[[a|e] st1] l1];
      [reflexivity|].
    destruct (Async.complete w (h e st1)) as [[r st2] l2].
    now repeat rewrite <- app_assoc.
  - destruct (blocking_download j w st) as [[r st1] l1]. rewrite IH.
    destruct (Async.complete w (k r st1)) as [[[a|e] st2] l2]; [reflexivity|].
    destruct (Async.complete w (h e st2)) as [[r3 st3] l3].
    now repeat rewrite <- app_assoc.
Qed.

Lemma complete_finally {A} (c : Async.coro A) (f : M unit) :
  Async.complete w (Async.finally_coro c f)
  = let '(r, st1, l1) := Async.complete w c in
    match f st1 with
    | (Ok _, st2, l2) => (r, st2, l1 ++ l2)
    | (Raise e, st2, l2) => (Raise e, st2, l1 ++ l2)
    end.
Proof.
  induction c as [r st l|st l k IH|st l j k IH];
    cbn [Async.finally_coro Async.complete].
  - destruct (f st) as [[[u|e] st2] l2]; reflexivity.
  - rewrite IH. destruct (Async.complete w (k st)) as [[r st1] l1].
    destruct (f st1) as [[[u|e] st2] l2]; now repeat rewrite <- app_assoc.
  - destruct (blocking_download j w st) as [[r st1] l1]. rewrite IH.
    destruct (Async.complete w (k r st1)) as [[r2 st2] l2].
    destruct (f st2) as [[[u|e] st3] l3]; now repeat rewrite <- app_assoc.
Qed.

Lemma agrees_ret {A} (a : A) : agrees w (Async.ret a) (ret a).
Proof. intros st. reflexivity. Qed.

Lemma agrees_atom {A} (m : M A) : agrees w (Async.atom m) m.
Proof.
  intros st. unfold Async.atom. now destruct (m st) as [[r st1] l].
Qed.

Lemma agrees_await (a : action) (outcome : option exn) :
  agrees w (Async.await a outcome) (call a outcome).
Proof. intros st. reflexivity. Qed.

Lemma agrees_await_message (a : action) (outcome : result Z) :
  agrees w (Async.await_message a outcome) (call_message a outcome).
Proof. intros st. reflexivity. Qed.

Lemma agrees_bind {A B} (mc : Async.C A) (m : M A) (fc : A -> Async.C B)
    (f : A -> M B) :
  agrees w mc m -> (forall a, agrees w (fc a) (f a)) ->
  agrees w (Async.bind mc fc) (bind m f).
Proof.
  intros Hm Hf st. unfold Async.bind, bind.
  rewrite complete_bind, Hm.
  destruct (m st) as [[[a|e] st1] l1]; [|reflexivity].
  now rewrite Hf.
Qed.

Lemma agrees_try_except {A} (mc : Async.C A) (m : M A)
    (hc : exn -> Async.C A) (h : exn -> M A) :
  agrees w mc m -> (forall e, agrees w (hc e) (h e)) ->
  agrees w (Async.try_except mc hc) (try_except m h).
Proof.
  intros Hm Hh st. unfold Async.try_except, try_except.
  rewrite complete_except, Hm.
  destruct (m st) as [[[a|e] st1] l1]; [reflexivity|].
  now rewrite Hh.
Qed.

Lemma agrees_try_finally {A} (mc : Async.C A) (m : M A) (f : M unit) :
  agrees w mc m ->
  agrees w (Async.try_finally mc f) (try_finally m f).
Proof.
  intros Hm st. unfold Async.try_finally, try_finally.
  now rewrite complete_finally, Hm.
Qed.

Lemma agrees_for_each {A} (l : list A) (bc : A -> Async.C unit)
    (b : A -> M unit) :
  (forall x, agrees w (bc x) (b x)) ->
  agrees w (Async.for_each l bc) (for_each l b).
Proof.
  intros Hb. induction l as [|x l IH]; cbn [Async.for_each for_each].
  - apply agrees_ret.
  - apply agrees_bind; [apply Hb | intros _; exact IH].
Qed.

(** The thread does in one go what [blocking_download] does. *)
Lemma agrees_to_thread {B} (j : job) (fc : info -> Async.C B)
    (f : info -> M B) :
  (forall i, agrees w (fc i) (f i)) ->
  agrees w (Async.bind (Async.to_thread j) fc)
    (bind (call (to_thread_blocking_download (j_chat j) (j_url j) (j_format j))
                None)
          (fun _ => bind (blocking_download j w) f)).
Proof.
  intros Hf st. unfold Async.bind, Async.to_thread, bind, call.
  cbn [Async.bind_coro Async.complete].
  destruct (blocking_download j w st) as [[[i|e] st1] l1];
    cbn [Async.bind_coro Async.complete Async.logged].
  - rewrite complete_logged, Hf.
    destruct (f i st1) as [[r st2] l2]. reflexivity.
  - now rewrite app_nil_r.
Qed.

Ltac agree :=
  repeat first
    [ apply agrees_to_thread; intros
    | apply agrees_bind; [|intros]
    | apply agrees_try_except; [|intros]
    | apply agrees_try_finally
    | apply agrees_for_each; intros
    | apply agrees_ret | apply agrees_atom | apply agrees_await
    | apply agrees_await_message
    | match goal with
      | |- agrees _ (if ?b then _ else _) _ => destruct b
      | |- agrees _ (match ?x with _ => _ end) _ => destruct x
      | |- agrees _ (let '(_, _) := ?x in _) _ => destruct x
      end ].

Lemma handle_url_agrees (update : message) (reply : result Z) :
  agrees w (Async.handle_url update reply) (handle_url update reply).
Proof. unfold Async.handle_url, handle_url. agree. Qed.

Lemma deliver_agrees (j : job) (i : info) (title : string) (env : media_env) :
  agrees w (Async.deliver j i title env) (deliver j i title env).
Proof. unfold Async.deliver, deliver. agree. Qed.

Lemma report_failure_agrees (chat : Z) (env : media_env) (e : exn) :
  agrees w (Async.report_failure chat env e) (report_failure chat env e).
Proof. unfold Async.report_failure, report_failure. agree. Qed.

Lemma accept_format_agrees (query : callback_query) (env : button_env) :
  agrees w (Async.accept_format query env) (accept_format query env).
Proof.
  unfold Async.accept_format, accept_format. agree.
  intros st. unfold Async.atom, lift.
  now destruct (PyStr.split_second _ _).
Qed.

Lemma progress_updater_agrees (env : tick_env) :
  agrees w (Async.progress_updater env) (progress_updater env).
Proof.
  unfold Async.progress_updater, progress_updater, Async.update_one, update_one.
  agree.
Qed.

End Agreement.

Lemma fetch_agrees (j : job) (env : media_env) :
  agrees (worker env) (Async.fetch j env) (fetch j env).
Proof.
  unfold Async.fetch, fetch.
  apply agrees_try_except; [|intros e; apply agrees_atom].
  apply agrees_bind; [apply agrees_await|]. intros _.
  apply agrees_to_thread. intros i.
  apply agrees_bind; [apply agrees_atom|]. intros s.
  apply agrees_bind; [apply agrees_atom|]. intros t.
  apply agrees_ret.
Qed.

Lemma download_media_agrees (chat : Z) (env : media_env) :
  agrees (worker env) (Async.download_media chat env) (download_media chat env).
Proof.
  unfold Async.download_media, download_media.
  apply agrees_try_finally. apply agrees_try_except.
  - apply agrees_bind; [apply agrees_atom|]. intros st.
    destruct (user_data st !! chat); [|apply agrees_ret].
    apply agrees_bind; [apply agrees_atom|]. intros j.
    apply agrees_bind; [apply fetch_agrees|]. intros r.
    apply deliver_agrees.
  - intros e. apply report_failure_agrees.
Qed.

(** Run to its end with nothing in between, the coroutine of a format
    choice does what [button_handler] does. *)
Lemma button_handler_agrees (query : callback_query) (env : button_env) :
  agrees (worker (media env)) (Async.button_handler query env)
    (button_handler query env).
Proof.
  unfold Async.button_handler, button_handler.
  apply agrees_bind; [apply accept_format_agrees|].
  intros [|]; [apply download_media_agrees | apply agrees_ret].
Qed.







(** ** The locator pattern *)

Lemma ascii_eqb_eq (a b : ascii) : PyStr.ascii_eqb a b = true <-> a = b.
Proof.
  unfold PyStr.ascii_eqb, PyStr.code. rewrite N.eqb_eq. split; [|now intros ->].
  intros H. rewrite <- (ascii_N_embedding a), <- (ascii_N_embedding b).
  now rewrite H.
Qed.

Lemma strip_prefix_spec (p s rest : string) :
  PyStr.strip_prefix p s = Some rest <-> s = p +:+ rest.
Proof.
  revert s. induction p as [|a p IH]; intros s; cbn [PyStr.strip_prefix].
  - change ("" +:+ rest) with rest. split; congruence.
  - rewrite append_cons. destruct s as [|b s]; [split; discriminate|].
    destruct (PyStr.ascii_eqb a b) eqn:E.
    + apply ascii_eqb_eq in E as ->. rewrite IH. split; congruence.
    + split; [discriminate|]. intros H. injection H as -> _.
      rewrite (proj2 (ascii_eqb_eq a a) eq_refl) in E. discriminate.
Qed.

Lemma dot_plus_spec (s : string) (k : string -> bool) :
  dot_plus s k = true
  <-> exists s1 s2, s = s1 +:+ s2 /\ lang DotPlus s1 /\ k s2 = true.
Proof.
  induction s as [|c s IH]; cbn [dot_plus].
  - split; [discriminate|]. intros (s1 & s2 & E & [Hne _] & _).
    destruct s1; [congruence | discriminate].
  - destruct (PyStr.ascii_eqb c newline) eqn:Hc.
    + split; [discriminate|]. intros (s1 & s2 & E & [Hne Hnl] & _).
      destruct s1 as [|d s1]; [congruence|]. rewrite append_cons in E.
      injection E as <- _. cbn in Hnl. now rewrite Hc in Hnl.
    + rewrite orb_true_iff, IH. split.
      * intros [(s1 & s2 & -> & [Hne Hnl] & Hk)|Hk].
        -- exists (String c s1), s2. rewrite append_cons.
           repeat split; [discriminate | cbn; now rewrite Hc | exact Hk].
        -- exists (String c EmptyString), s.
           repeat split; [discriminate | cbn; now rewrite Hc | exact Hk].
      * intros (s1 & s2 & E & [Hne Hnl] & Hk).
        destruct s1 as [|d s1]; [congruence|]. rewrite append_cons in E.
        injection E as <- ->. cbn in Hnl. apply andb_prop in Hnl as [_ Hnl].
        destruct s1 as [|d' s1]; [now right|]. left.
        exists (String d' s1), s2. repeat split; [discriminate|exact Hnl|exact Hk].
Qed.

(** The matcher finds a match exactly when a prefix of the text is
    denoted by the pattern and the continuation accepts the rest. *)
Lemma matches_lang (r : regex) :
  forall (s : string) (k : string -> bool),
    matches r s k = true
    <-> exists s1 s2, s = s1 +:+ s2 /\ lang r s1 /\ k s2 = true.
Proof.
  induction r as [p|a IHa b IHb|a IHa b IHb|a IHa|]; intros s k;
    cbn [matches lang].
  - destruct (PyStr.strip_prefix p s) as [rest|] eqn:E.
    + apply strip_prefix_spec in E as ->. split.
      * intros Hk. now exists p, rest.
      * intros (s1 & s2 & E & -> & Hk).
        apply String.app_inj in E. now subst.
    + split; [discriminate|]. intros (s1 & s2 & -> & -> & _).
      assert (H : PyStr.strip_prefix p (p +:+ s2) = Some s2)
        by now apply strip_prefix_spec.
      congruence.
  - rewrite IHa. split.
    + intros (s1 & s2 & -> & Ha & Hb). apply IHb in Hb as (t1 & t2 & -> & Hb & Hk).
      exists (s1 +:+ t1), t2. rewrite append_assoc. split; [reflexivity|].
      split; [|exact Hk]. now exists s1, t1.
    + intros (s1 & s2 & -> & (u1 & u2 & -> & Ha & Hb) & Hk).
      exists u1, (u2 +:+ s2). rewrite append_assoc. split; [reflexivity|].
      split; [exact Ha|]. apply IHb. now exists u2, s2.
  - rewrite orb_true_iff, IHa, IHb. split.
    + intros [(s1 & s2 & E & H & Hk)|(s1 & s2 & E & H & Hk)];
        exists s1, s2; auto.
    + intros (s1 & s2 & E & [H|H] & Hk); [left|right]; exists s1, s2; auto.
  - rewrite orb_true_iff, IHa. split.
    + intros [(s1 & s2 & E & H & Hk)|Hk].
      * exists s1, s2; auto.
      * exists EmptyString, s. auto.
    + intros (s1 & s2 & E & [H | ->] & Hk).
      * left. exists s1, s2; auto.
      * right. now subst.
  - apply dot_plus_spec.
Qed.

Lemma re_match_lang (r : regex) (s : string) :
  re_match r s = true <-> exists s1 s2, s = s1 +:+ s2 /\ lang r s1.
Proof.
  unfold re_match. rewrite matches_lang. split.
  - intros (s1 & s2 & E & H & _). eauto.
  - intros (s1 & s2 & E & H). eauto.
Qed.

Lemma lang_scheme (x : string) :
  lang (Opt (Seq (Str "http") (Seq (Opt (Str "s")) (Str "://")))) x
  <-> x ∈ [""; "http://"; "https://"].
Proof.
  cbn [lang]. rewrite !elem_of_cons, elem_of_nil. split.
  - intros [(s1 & s2 & -> & -> & t1 & t2 & -> & [->| ->] & ->)| ->]; auto.
  - intros [->|[->|[->|[]]]]; [now right| |]; left.
    + exists "http", "://". repeat split. exists "", "://". auto.
    + exists "http", "s://". repeat split. exists "s", "://". auto.
Qed.

Lemma lang_www (x : string) : lang (Opt (Str "www.")) x <-> x ∈ [""; "www."].
Proof.
  cbn [lang]. rewrite !elem_of_cons, elem_of_nil. split.
  - intros [->| ->]; auto.
  - intros [->|[->|[]]]; auto.
Qed.

Lemma lang_host (x : string) :
  lang (Alt (Str "youtube") (Alt (Str "youtu") (Str "youtube-nocookie"))) x
  <-> x ∈ ["youtube"; "youtu"; "youtube-nocookie"].
Proof.
  cbn [lang]. rewrite !elem_of_cons, elem_of_nil. split.
  - intros [->|[->| ->]]; auto.
  - intros [->|[->|[->|[]]]]; auto.
Qed.

Lemma lang_tld (x : string) :
  lang (Alt (Str "com") (Str "be")) x <-> x ∈ ["com"; "be"].
Proof.
  cbn [lang]. rewrite !elem_of_cons, elem_of_nil. split.
  - intros [->| ->]; auto.
  - intros [->|[->|[]]]; auto.
Qed.

Lemma lang_dot_plus (x : string) :
  lang DotPlus x
  <-> exists c rest, x = String c rest /\ c <> newline /\ no_newline rest = true.
Proof.
  cbn [lang]. split.
  - intros [Hne Hnl]. destruct x as [|c rest]; [congruence|].
    cbn in Hnl. apply andb_prop in Hnl as [Hc Hnl].
    exists c, rest. repeat split; [|exact Hnl].
    intros ->. rewrite (proj2 (ascii_eqb_eq newline newline) eq_refl) in Hc.
    discriminate.
  - intros (c & rest & -> & Hc & Hnl). split; [discriminate|].
    cbn. rewrite Hnl, andb_true_r. apply negb_true_iff.
    destruct (PyStr.ascii_eqb c newline) eqn:E; [|reflexivity].
    now apply ascii_eqb_eq in E.
Qed.

(** What the pattern matches. *)
Lemma youtube_regex_shape (s : string) :
  re_match youtube_regex s = true <-> locator_shape s.
Proof.
  unfold locator_shape.
  rewrite re_match_lang. unfold youtube_regex. split.
  - intros (s1 & s2 & -> & H). cbn [lang] in H.
    destruct H as (sch & r1 & -> & Hsch & w & r2 & -> & Hw & h & r3 & -> & Hh
                   & pt & r4 & -> & -> & t & r5 & -> & Ht
                   & sl & d & -> & -> & Hd).
    apply lang_scheme in Hsch. apply lang_www in Hw. apply lang_host in Hh.
    apply lang_tld in Ht. apply (proj1 (lang_dot_plus d)) in Hd.
    destruct Hd as (c & rest & -> & Hc & _).
    exists sch, w, h, t, c, (rest +:+ s2).
    repeat split; try assumption.
    rewrite !append_assoc. reflexivity.
  - intros (sch & w & h & t & c & rest & Hsch & Hw & Hh & Ht & Hc & ->).
    exists (sch +:+ w +:+ h +:+ "." +:+ t +:+ "/" +:+ String c EmptyString), rest.
    split; [rewrite !append_assoc; reflexivity|].
    cbn [lang].
    exists sch, (w +:+ h +:+ "." +:+ t +:+ "/" +:+ String c EmptyString).
    split; [reflexivity|]. split; [now apply lang_scheme|].
    exists w, (h +:+ "." +:+ t +:+ "/" +:+ String c EmptyString).
    split; [reflexivity|]. split; [now apply lang_www|].
    exists h, ("." +:+ t +:+ "/" +:+ String c EmptyString).
    split; [reflexivity|]. split; [now apply lang_host|].
    exists ".", (t +:+ "/" +:+ String c EmptyString).
    split; [reflexivity|]. split; [reflexivity|].
    exists t, ("/" +:+ String c EmptyString).
    split; [reflexivity|]. split; [now apply lang_tld|].
    exists "/", (String c EmptyString).
    split; [reflexivity|]. split; [reflexivity|].
    split; [discriminate|]. cbn. rewrite andb_true_r. apply negb_true_iff.
    destruct (PyStr.ascii_eqb c newline) eqn:E; [|reflexivity].
    now apply ascii_eqb_eq in E.
Qed.

Lemma handle_url_log (update : message) (reply : result Z) (st : state) :
  log_of (handle_url update reply st)
  = if re_match youtube_regex (PyStr.strip (text update))
    then [reply_text (msg_chat_id update) choose_format_text format_keyboard]
    else [reply_text (msg_chat_id update) invalid_url_text []].
Proof.
  unfold handle_url.
  destruct (re_match youtube_regex (PyStr.strip (text update))); cbn [negb].
  - unfold bind at 1. unfold modify at 1.
    unfold bind at 1. unfold call_message at 1.
    destruct reply as [m|e]; [|reflexivity].
    erewrite update_session_found by (simpl_state; apply lookup_insert_eq).
    reflexivity.
  - unfold_monad. now destruct reply.
Qed.

(** X1.  [handle_url] takes a text for a locator exactly when the text, with
    the white space at both ends removed, has the shape of a locator.  Then,
    and only then, it presents the format choices; otherwise, and only then,
    it answers with the invalid-URL notice.  What follows the first character
    after the slash is not looked at. *)
Theorem handle_url_accepts_the_shape (update : message) (reply : result Z)
    (st : state) :
  let chat := msg_chat_id update in
  let x := handle_url update reply st in
  (locator_shape (PyStr.strip (text update))
   <-> Exists (presents_formats chat) (log_of x))
  /\ (~ locator_shape (PyStr.strip (text update))
      <-> log_of x = [reply_text chat invalid_url_notice []]).
Proof.
  cbv zeta. rewrite handle_url_log.
  pose proof (youtube_regex_shape (PyStr.strip (text update))) as Hshape.
  destruct (re_match youtube_regex (PyStr.strip (text update))).
  - assert (Hyes : locator_shape (PyStr.strip (text update)))
      by now apply Hshape.
    split; split.
    + intros _. apply Exists_cons_hd. eexists. reflexivity.
    + intros _. exact Hyes.
    + intros Hno. now destruct Hno.
    + intros E. discriminate E.
  - assert (Hno : ~ locator_shape (PyStr.strip (text update))).
    { intros H. apply Hshape in H. discriminate H. }
    split; split.
    + intros H. now destruct Hno.
    + intros H. apply Exists_cons in H as [(prompt & E) | H].
      * discriminate E.
      * now apply Exists_nil in H.
    + intros _. reflexivity.
    + intros _. exact Hno.
Qed.

(** ** The reporter, entry by entry *)

Lemma chat_actions_app (k : Z) (l1 l2 : list action) :
  chat_actions k (l1 ++ l2) = chat_actions k l1 ++ chat_actions k l2.
Proof. apply filter_app. Qed.

Lemma chat_actions_logger (k : Z) (t : string) (l : list action) :
  chat_actions k (logger_error t :: l) = chat_actions k l.
Proof.
  unfold chat_actions. rewrite filter_cons.
  destruct (decide _) as [H|H]; [discriminate H | reflexivity].
Qed.

Lemma chat_actions_edit (k c m : Z) (t : string) (l : list action) :
  chat_actions k (edit_message_text c m t :: l)
  = if decide (k = c) then edit_message_text c m t :: chat_actions k l
    else chat_actions k l.
Proof.
  unfold chat_actions. rewrite filter_cons. cbn [action_chat].
  destruct (decide (Some c = Some k)) as [H|H], (decide (k = c)) as [E|E];
    try reflexivity; congruence.
Qed.

(** One turn of the loop in full. *)
Lemma update_one_full (env : tick_env) (c : Z) (pd : progress) (st : state) :
  exists l,
    update_one env (c, pd) st
    = (Ok tt,
       State (user_data st)
             (if is_stale (clock env c) pd then delete c (download_progress st)
              else download_progress st),
       l)
    /\ forall k, chat_actions k l
                 = if decide (k = c) then item_push env (user_data st) c pd
                   else [].
Proof.
  destruct st as [ud dp]. unfold update_one, try_except, item_push.
  cbn [user_data download_progress].
  destruct (is_stale (clock env c) pd) eqn:Hstale.
  - unfold del_progress. unfold_monad. cbn [download_progress].
    destruct (dp !! c) eqn:E; cbn.
    + eexists. split; [reflexivity|]. intros k. now destruct (decide (k = c)).
    + eexists. rewrite (delete_id _ _ E). split; [reflexivity|].
      intros k. rewrite chat_actions_logger. now destruct (decide (k = c)).
  - destruct (p_status pd); unfold_monad; cbn;
      try (exists []; split; [reflexivity|];
           intros k; now destruct (decide (k = c))).
    destruct (create_progress_bar (percent pd)) as [bar|e]; cbn.
    + destruct (ud !! c) as [s|]; cbn;
        [destruct (progress_message_id s) as [m|]; cbn;
         [destruct (edit_status env c) as [e|]; cbn|]|];
        eexists; (split; [reflexivity|]); intros k;
        rewrite ?chat_actions_edit, ?chat_actions_logger;
        now destruct (decide (k = c)).
    + eexists. split; [reflexivity|]. intros k.
      rewrite chat_actions_logger. now destruct (decide (k = c)).
Qed.

Lemma reporter_loop_full (env : tick_env) (items : list (Z * progress)) :
  forall st, NoDup items.*1 ->
  exists st' l,
    for_each items (update_one env) st = (Ok tt, st', l)
    /\ user_data st' = user_data st
    /\ (forall k,
          download_progress st' !! k
          = match (list_to_map items : gmap Z progress) !! k with
            | Some pd => if is_stale (clock env k) pd then None
                         else download_progress st !! k
            | None => download_progress st !! k
            end)
    /\ (forall k,
          chat_actions k l
          = match (list_to_map items : gmap Z progress) !! k with
            | Some pd => item_push env (user_data st) k pd
            | None => []
            end).
Proof.
  induction items as [|[c pd] rest IH]; intros st Hnd; cbn [for_each].
  - exists st, []. repeat split.
  - cbn in Hnd. apply NoDup_cons in Hnd as [Hc Hnd].
    destruct (update_one_full env c pd st) as (l1 & E1 & A1).
    set (st1 := State (user_data st)
                  (if is_stale (clock env c) pd
                   then delete c (download_progress st)
                   else download_progress st)) in *.
    destruct (IH st1 Hnd) as (st2 & l2 & E2 & U2 & D2 & A2).
    exists st2, (l1 ++ l2). unfold bind. rewrite E1, E2.
    split; [reflexivity|]. split; [exact U2|].
    assert (Hrest : (list_to_map rest : gmap Z progress) !! c = None)
      by now apply not_elem_of_list_to_map_1.
    split.
    + intros k. rewrite D2, list_to_map_cons.
      destruct (decide (k = c)) as [->|Hne].
      * rewrite Hrest, lookup_insert_eq. subst st1. cbn [download_progress].
        destruct (is_stale (clock env c) pd); [apply lookup_delete_eq|reflexivity].
      * rewrite lookup_insert_ne by congruence. subst st1.
        cbn [download_progress].
        assert ((if is_stale (clock env c) pd
                 then delete c (download_progress st)
                 else download_progress st) !! k = download_progress st !! k)
          as ->; [|reflexivity].
        destruct (is_stale (clock env c) pd); [|reflexivity].
        now apply lookup_delete_ne.
    + intros k. rewrite chat_actions_app, A1, A2, list_to_map_cons.
      destruct (decide (k = c)) as [->|Hne].
      * rewrite Hrest, lookup_insert_eq. now rewrite app_nil_r.
      * rewrite lookup_insert_ne by congruence. reflexivity.
Qed.

Lemma progress_updater_full (env : tick_env) (st : state) :
  exists st' l,
    progress_updater env st = (Ok tt, st', l)
    /\ user_data st' = user_data st
    /\ (forall k, download_progress st' !! k
                  = surviving env k (download_progress st !! k))
    /\ (forall k, chat_actions k l = expected_push env st k).
Proof.
  destruct (reporter_loop_full env (map_to_list (download_progress st)) st
              (NoDup_fst_map_to_list _))
    as (st' & l & E & U & D & A).
  exists st', l. split.
  { unfold progress_updater, bind. unfold get_state at 1. now rewrite E. }
  split; [exact U|]. rewrite list_to_map_to_list in D, A. split.
  - intros k. rewrite D. unfold surviving.
    destruct (download_progress st !! k) as [pd|]; [|reflexivity].
    now destruct (is_stale (clock env k) pd).
  - intros k. rewrite A. reflexivity.
Qed.

(** X2.  A tick of the reporter never raises, whatever the Telegram calls
    do, leaves the sessions alone, and removes from the progress store the
    stale entries and nothing else. *)
Theorem tick_evicts_exactly_the_stale (env : tick_env) (st : state) :
  let x := progress_updater env st in
  outcome_of x = Ok tt
  /\ user_data (final x) = user_data st
  /\ forall k, download_progress (final x) !! k
               = surviving env k (download_progress st !! k).
Proof.
  cbv zeta. destruct (progress_updater_full env st) as (st' & l & -> & U & D & _).
  unfold outcome_of, final. cbn [fst snd]. auto.
Qed.


(** ** The progress hook *)

Lemma progress_hook_entry (chat : Z) (d : hook_call) (st : state) :
  progress_hook chat d st
  = (Ok tt,
     match hook_entry d with
     | Some p => set_download_progress (insert chat p) st
     | None => st
     end, []).
Proof.
  unfold progress_hook, hook_entry.
  destruct (h_status d =? "downloading")%string; [reflexivity|].
  destruct (h_status d =? "finished")%string; reflexivity.
Qed.

Lemma hooks_keep_the_latest (chat : Z) (calls : list hook_call) :
  forall st,
    for_each calls (progress_hook chat) st
    = (Ok tt,
       State (user_data st)
             (match last (omap hook_entry calls) with
              | Some p => <[chat := p]> (download_progress st)
              | None => download_progress st
              end), []).
Proof.
  induction calls as [|d r IH]; intros [ud dp]; cbn [for_each].
  - reflexivity.
  - unfold bind. rewrite progress_hook_entry. rewrite IH.
    change (omap hook_entry (d :: r))
      with (match hook_entry d with
            | Some p => p :: omap hook_entry r
            | None => omap hook_entry r
            end).
    destruct (hook_entry d) as [p|]; cbn [user_data download_progress
      set_download_progress app]; [|reflexivity].
    rewrite last_cons.
    destruct (last (omap hook_entry r)) as [q|]; [|reflexivity].
    now rewrite insert_insert_eq.
Qed.

(** X4.  However often yt-dlp calls the hook during a download, the
    progress store ends with the entry of the last call whose status is
    [downloading] or [finished] for the chat of the job, the entries of the
    other chats and the sessions are as before, and calls with another status
    leave no trace. *)
Theorem run_download_keeps_the_latest (j : job) (calls : list hook_call)
    (outcome : option exn) (st : state) :
  let x := run_download j calls outcome st in
  outcome_of x = match outcome with None => Ok tt | Some e => Raise e end
  /\ log_of x = []
  /\ user_data (final x) = user_data st
  /\ download_progress (final x)
     = match last (omap hook_entry calls) with
       | Some p => <[j_chat j := p]> (download_progress st)
       | None => download_progress st
       end.
Proof.
  cbv zeta. unfold run_download, bind. rewrite hooks_keep_the_latest.
  unfold lift, outcome_of, log_of, final. cbn [fst snd app].
  destruct outcome; repeat split.
Qed.

(** ** [download_media], path by path *)

(** [download_media] when the body of its [try] raises. *)
Lemma download_media_raises (chat : Z) (env : media_env) (st st1 : state)
    (s : session) (pm : Z) (e : exn) (l1 : list action) :
  user_data st !! chat = Some s ->
  progress_message_id s = Some pm ->
  (j <- prepare chat env ;;
   r <- fetch j env ;;
   deliver j (fst r) (snd r) env) st = (Raise e, st1, l1) ->
  download_media chat env st
  = (match edit_error env with
     | None => Ok tt
     | Some _ => match send_error env with None => Ok tt | Some e' => Raise e' end
     end,
     final (release chat st1),
     l1 ++ failure_report chat pm env e).
Proof.
  intros Hs Hp Hbody.
  pose proof (ks_download_body chat env st chat) as Hk.
  rewrite Hbody, Hs in Hk. unfold final in Hk. cbn [fst snd] in Hk.
  destruct Hk as (s1 & Hs1 & _ & _ & Hp1). rewrite Hp in Hp1.
  change (download_media chat env st)
    with (settle chat env
            (st0 <- get_state ;;
             match user_data st0 !! chat with
             | None => ret tt
             | Some _ =>
                 j <- prepare chat env ;;
                 r <- fetch j env ;;
                 deliver j (fst r) (snd r) env
             end) st).
  erewrite settle_raise; [reflexivity | | exact Hs1 | exact Hp1].
  unfold bind at 1. unfold get_state at 1. rewrite Hs, Hbody. reflexivity.
Qed.

Lemma body_run (chat : Z) (env : media_env) (st : state) (s : session)
    (f : string) (pm : Z) :
  user_data st !! chat = Some s -> format s = Some f ->
  progress_message_id s = Some pm ->
  (j <- prepare chat env ;;
   r <- fetch j env ;;
   deliver j (fst r) (snd r) env) st
  = (r <- fetch (Job chat (url s) f pm) env ;;
     deliver (Job chat (url s) f pm) (fst r) (snd r) env)
      (set_download_progress
         (insert chat (Progress starting "0%" "N/A" "N/A" (clock_start env))) st).
Proof.
  intros Hs Hf Hp. unfold bind at 1.
  rewrite (prepare_run chat env st s f pm Hs Hf Hp).
  match goal with
  | |- _ = ?x => destruct x as [[r st2] l2] eqn:E
  end.
  reflexivity.
Qed.

Lemma fetch_edit_fails (j : job) (env : media_env) (st : state) (e0 : exn) :
  edit_starting env = Some e0 ->
  fetch j env st
  = (Raise (download_failed e0), st,
     [edit_message_text (j_chat j) (j_progress_message_id j) starting_text]).
Proof.
  intros He. unfold fetch, try_except, bind, call, reraise, raise. now rewrite He.
Qed.

Lemma fetch_worker_fails (j : job) (env : media_env) (st : state) (s : session)
    (p : progress) (e0 : exn) :
  user_data st !! j_chat j = Some s ->
  download_progress st !! j_chat j = Some p ->
  edit_starting env = None ->
  (extract_info (worker env) = Raise e0
   \/ exists i, extract_info (worker env) = Ok i
                /\ download (worker env) = Some e0) ->
  exists st',
    fetch j env st
    = (Raise (download_failed e0), st',
       [edit_message_text (j_chat j) (j_progress_message_id j) starting_text;
        to_thread_blocking_download (j_chat j) (j_url j) (j_format j)]).
Proof.
  intros Hs Hp He Hw.
  unfold fetch, try_except. unfold bind at 1. unfold call at 1. rewrite He.
  unfold bind at 1. unfold call at 1. unfold bind at 1.
  assert (exists st', blocking_download j (worker env) st = (Raise e0, st', []))
    as (st' & ->).
  { unfold blocking_download, store_metadata, run_download.
    destruct Hw as [Hx|(i & Hx & Hd)]; rewrite Hx.
    - eexists. reflexivity.
    - rewrite Hd. unfold bind at 1. unfold bind at 1. unfold lift at 1.
      unfold bind at 1. rewrite (update_session_found _ _ _ _ Hs).
      unfold bind at 1. unfold update_progress. unfold bind at 1.
      unfold get_state at 1. simpl_state. rewrite Hp.
      unfold modify at 1. unfold ret at 1. cbn [app].
      unfold bind at 1. unfold bind at 1.
      rewrite hooks_keep_the_latest. eexists. reflexivity. }
  exists st'. reflexivity.
Qed.

(** X5.  When yt-dlp fails, reading the metadata or downloading, the job
    ends there: the cause shown is the text of its error after
    [Download process failed: ], nothing is uploaded, and the progress entry
    of the chat is removed. *)
Theorem fetch_failure_ends_the_job (chat : Z) (env : media_env) (st : state)
    (s : session) (f : string) (pm : Z) (e0 : exn) :
  user_data st !! chat = Some s -> format s = Some f ->
  progress_message_id s = Some pm ->
  edit_starting env = None ->
  (extract_info (worker env) = Raise e0
   \/ exists i, extract_info (worker env) = Ok i
                /\ download (worker env) = Some e0) ->
  let x := download_media chat env st in
  log_of x
  = [edit_message_text chat pm starting_text;
     to_thread_blocking_download chat (url s) f]
    ++ failure_report chat pm env (download_failed e0)
  /\ download_progress (final x) !! chat = None.
Proof.
  intros Hs Hf Hp He Hw. cbv zeta. split; [|apply (settle_clears chat env)].
  set (st1 := set_download_progress
                (insert chat (Progress starting "0%" "N/A" "N/A"
                                       (clock_start env))) st).
  destruct (fetch_worker_fails (Job chat (url s) f pm) env st1 s
              (Progress starting "0%" "N/A" "N/A" (clock_start env)) e0)
    as (st' & Hfetch); try assumption.
  { subst st1. simpl_state. apply lookup_insert_eq. }
  erewrite (download_media_raises chat env st st' s pm); [reflexivity|exact Hs|exact Hp|].
  rewrite (body_run chat env st s f pm Hs Hf Hp). fold st1.
  unfold bind. now rewrite Hfetch.
Qed.

Lemma fetch_failure_ends_the_job_witness :
  let st := State {[7%Z := Session "https://youtu.be/x" 1 7 (Some 10%Z)
                              (Some "mp4") (Some 11%Z) None]} ∅ in
  let env := MediaEnv (PyFloat.of_Z 1000) "/tmp/x" None
               (WorkerEnv (Ok (Info (Some "Film") None None None)) []
                          (Some (Exn OtherError "ERROR: HTTP Error 403")))
               [] None None None None None None in
  download_progress (final (download_media 7 env st)) !! 7%Z = None.
Proof.
  cbv zeta.
  refine (proj2 (fetch_failure_ends_the_job 7
    (MediaEnv (PyFloat.of_Z 1000) "/tmp/x" None
       (WorkerEnv (Ok (Info (Some "Film") None None None)) []
                  (Some (Exn OtherError "ERROR: HTTP Error 403")))
       [] None None None None None None)
    (State {[7%Z := Session "https://youtu.be/x" 1 7 (Some 10%Z)
                      (Some "mp4") (Some 11%Z) None]} ∅)
    (Session "https://youtu.be/x" 1 7 (Some 10%Z) (Some "mp4") (Some 11%Z) None)
    "mp4" 11 (Exn OtherError "ERROR: HTTP Error 403")
    _ _ _ _ _)); try (vm_compute; reflexivity).
  right. exists (Info (Some "Film") None None None).
  split; vm_compute; reflexivity.
Defined.

(** X6.  When the status message cannot be set to the starting text, the
    download is not started: [blocking_download] is never handed to a thread,
    and the failure is reported like a failed download. *)
Theorem failed_status_edit_starts_nothing (chat : Z) (env : media_env)
    (st : state) (s : session) (f : string) (pm : Z) (e0 : exn) :
  user_data st !! chat = Some s -> format s = Some f ->
  progress_message_id s = Some pm ->
  edit_starting env = Some e0 ->
  let x := download_media chat env st in
  log_of x
  = edit_message_text chat pm starting_text
    :: failure_report chat pm env (download_failed e0)
  /\ Forall (fun a => is_job_start a = false) (log_of x)
  /\ download_progress (final x) !! chat = None.
Proof.
  intros Hs Hf Hp He. cbv zeta.
  assert (Hlog : log_of (download_media chat env st)
                 = edit_message_text chat pm starting_text
                   :: failure_report chat pm env (download_failed e0)).
  { rewrite (download_media_raises chat env st
               (set_download_progress
                  (insert chat (Progress starting "0%" "N/A" "N/A"
                                         (clock_start env))) st)
               s pm (download_failed e0)
               [edit_message_text chat pm starting_text] Hs Hp);
      [reflexivity|].
    rewrite (body_run chat env st s f pm Hs Hf Hp).
    unfold bind. now rewrite (fetch_edit_fails _ env _ e0 He). }
  split; [exact Hlog|]. split; [|apply (settle_clears chat env)].
  rewrite Hlog. unfold failure_report.
  destruct (edit_error env); repeat constructor.
Qed.

Lemma failed_status_edit_starts_nothing_witness :
  let st := State {[7%Z := Session "https://youtu.be/x" 1 7 (Some 10%Z)
                              (Some "mp4") (Some 11%Z) None]} ∅ in
  let env := MediaEnv (PyFloat.of_Z 1000) "/tmp/x"
               (Some (Exn OtherError "Message to edit not found"))
               (WorkerEnv (Ok (Info (Some "Film") None None None)) [] None)
               [("Film.mp4", 5000000%N)] None None None None None None in
  Forall (fun a => is_job_start a = false) (log_of (download_media 7 env st)).
Proof.
  cbv zeta.
  refine (proj1 (proj2 (failed_status_edit_starts_nothing 7
    (MediaEnv (PyFloat.of_Z 1000) "/tmp/x"
       (Some (Exn OtherError "Message to edit not found"))
       (WorkerEnv (Ok (Info (Some "Film") None None None)) [] None)
       [("Film.mp4", 5000000%N)] None None None None None None)
    (State {[7%Z := Session "https://youtu.be/x" 1 7 (Some 10%Z)
                      (Some "mp4") (Some 11%Z) None]} ∅)
    (Session "https://youtu.be/x" 1 7 (Some 10%Z) (Some "mp4") (Some 11%Z) None)
    "mp4" 11 (Exn OtherError "Message to edit not found")
    _ _ _ _))); vm_compute; reflexivity.
Defined.

Lemma deliver_missing (j : job) (i : info) (t : string) (env : media_env)
    (st : state) :
  (find is_media_file (listdir env) = None
   \/ exists name, find is_media_file (listdir env) = Some (name, 0%N)) ->
  deliver j i t env st = (Raise artifact_missing, st, []).
Proof.
  intros [H|(name & H)]; unfold deliver; now rewrite H.
Qed.

Lemma deliver_sends (j : job) (i : info) (t : string) (env : media_env)
    (st : state) (name : string) (file_size : N) :
  find is_media_file (listdir env) = Some (name, file_size) ->
  file_size <> 0%N ->
  ((j_format j =? "mp3")%string = true \/ (file_size <= size_limit)%N) ->
  edit_uploading env = None ->
  deliver j i t env st
  = (match send_media env with
     | Some e => Raise (upload_failed e)
     | None =>
         match delete_status env with
         | Some e => Raise e
         | None => match send_summary env with Some e => Raise e | None => Ok tt end
         end
     end, st,
     edit_message_text (j_chat j) (j_progress_message_id j) uploading_text
     :: send_action j i t env name
     :: match send_media env with
        | Some _ => []
        | None =>
            delete_message (j_chat j) (j_progress_message_id j)
            :: match delete_status env with
               | Some _ => []
               | None =>
                   [send_message (j_chat j)
                      (complete_text t (j_format j) file_size) another_keyboard]
               end
        end).
Proof.
  intros Hfind Hsize Hok He. unfold deliver, send_action. rewrite Hfind.
  destruct file_size as [|p]; [congruence|]. rewrite He.
  destruct (j_format j =? "mp3")%string eqn:Hf.
  - unfold_monad. unfold reraise, raise.
    destruct (send_media env), (delete_status env), (send_summary env);
      reflexivity.
  - destruct Hok as [Hok|Hok]; [discriminate|].
    apply N.ltb_ge in Hok. rewrite Hok.
    unfold_monad. unfold reraise, raise.
    destruct (send_media env), (delete_status env), (send_summary env);
      reflexivity.
Qed.

(** X7.  When the directory holds no file ending in [.mp4] or [.mp3] after
    the download, or the first such file is empty, the job fails before the
    upload: the status never changes to the uploading text, nothing is sent,
    and the cause shown is the missing file. *)
Theorem missing_artifact_is_reported (chat : Z) (env : media_env) (st : state)
    (s : session) (f : string) (pm : Z) (i : info) :
  user_data st !! chat = Some s -> format s = Some f ->
  progress_message_id s = Some pm ->
  edit_starting env = None ->
  extract_info (worker env) = Ok i -> download (worker env) = None ->
  (find is_media_file (listdir env) = None
   \/ exists name, find is_media_file (listdir env) = Some (name, 0%N)) ->
  let x := download_media chat env st in
  log_of x
  = [edit_message_text chat pm starting_text;
     to_thread_blocking_download chat (url s) f]
    ++ failure_report chat pm env artifact_missing
  /\ download_progress (final x) !! chat = None.
Proof.
  intros Hs Hf Hp He Hi Hd Hfind. cbv zeta.
  split; [|apply (settle_clears chat env)].
  destruct (download_media_reaches_delivery chat env st s f pm i
              Hs Hf Hp He Hi Hd) as (st' & Hst' & ->).
  cbv zeta.
  erewrite (settle_raise chat env _ st' st' [] artifact_missing
              (with_title (default "download" (i_title i)) s) pm).
  - reflexivity.
  - now apply deliver_missing.
  - rewrite Hst'. apply lookup_insert_eq.
  - exact Hp.
Qed.

Lemma missing_artifact_is_reported_witness :
  let st := State {[7%Z := Session "https://youtu.be/x" 1 7 (Some 10%Z)
                              (Some "mp4") (Some 11%Z) None]} ∅ in
  let env := MediaEnv (PyFloat.of_Z 1000) "/tmp/x" None
               (WorkerEnv (Ok (Info (Some "Film") None None None)) [] None)
               [("Film.webm", 5000000%N); ("Film.mp4.part", 100%N)]
               None None None None None None in
  log_of (download_media 7 env st)
  = [edit_message_text 7 11 starting_text;
     to_thread_blocking_download 7 "https://youtu.be/x" "mp4"]
    ++ failure_report 7 11 env artifact_missing.
Proof.
  cbv zeta.
  refine (proj1 (missing_artifact_is_reported 7
    (MediaEnv (PyFloat.of_Z 1000) "/tmp/x" None
       (WorkerEnv (Ok (Info (Some "Film") None None None)) [] None)
       [("Film.webm", 5000000%N); ("Film.mp4.part", 100%N)]
       None None None None None None)
    (State {[7%Z := Session "https://youtu.be/x" 1 7 (Some 10%Z)
                      (Some "mp4") (Some 11%Z) None]} ∅)
    (Session "https://youtu.be/x" 1 7 (Some 10%Z) (Some "mp4") (Some 11%Z) None)
    "mp4" 11 (Info (Some "Film") None None None)
    _ _ _ _ _ _ _)); try (vm_compute; reflexivity).
  left. vm_compute. reflexivity.
Defined.

(** X8.  A file that is not empty and, unless the format is mp3, not above
    the limit is delivered when the Telegram calls succeed (for a format
    whose capitals are characters of the embedding): after the
    uploading text the file is sent (as audio for mp3, else as video with the
    width, height and duration of the metadata, or 1280, 720 and 0), the
    status message is deleted and the summary sent.  Afterwards the progress
    entry is gone and the session holds the title. *)
Theorem delivery_succeeds (chat : Z) (env : media_env) (st : state)
    (s : session) (f : string) (pm : Z) (i : info) (name : string)
    (file_size : N) :
  user_data st !! chat = Some s -> format s = Some f ->
  capitals_below_256 f = true ->
  progress_message_id s = Some pm ->
  edit_starting env = None ->
  extract_info (worker env) = Ok i -> download (worker env) = None ->
  find is_media_file (listdir env) = Some (name, file_size) ->
  file_size <> 0%N ->
  ((f =? "mp3")%string = true \/ (file_size <= size_limit)%N) ->
  edit_uploading env = None -> send_media env = None ->
  delete_status env = None -> send_summary env = None ->
  let x := download_media chat env st in
  let t := default "download" (i_title i) in
  outcome_of x = Ok tt
  /\ log_of x
     = [edit_message_text chat pm starting_text;
        to_thread_blocking_download chat (url s) f;
        edit_message_text chat pm uploading_text;
        send_action (Job chat (url s) f pm) i t env name;
        delete_message chat pm;
        send_message chat (complete_text t f file_size) another_keyboard]
  /\ download_progress (final x) !! chat = None
  /\ user_data (final x) !! chat = Some (with_title t s).
Proof.
  intros Hs Hf _ Hp He Hi Hd Hfind Hsize Hok Hu Hsend Hdel Hsum. cbv zeta.
  destruct (download_media_reaches_delivery chat env st s f pm i
              Hs Hf Hp He Hi Hd) as (st' & Hst' & Hrun).
  cbv zeta in Hrun.
  pose proof (deliver_sends (Job chat (url s) f pm) i
                (default "download" (i_title i)) env st' name file_size
                Hfind Hsize Hok Hu) as Hdeliver.
  rewrite Hsend, Hdel, Hsum in Hdeliver.
  rewrite (settle_ok chat env _ st' st' _ Hdeliver) in Hrun.
  split; [now rewrite Hrun|]. split; [now rewrite Hrun|].
  split; [apply (settle_clears chat env)|].
  rewrite Hrun. unfold after, final. cbn [fst snd].
  destruct (release_run chat st') as (st2 & E & _ & U). rewrite E. cbn [fst snd].
  rewrite U, Hst'. apply lookup_insert_eq.
Qed.

Lemma delivery_succeeds_witness :
  let st := State {[7%Z := Session "https://youtu.be/x" 1 7 (Some 10%Z)
                              (Some "mp4") (Some 11%Z) None]} ∅ in
  let env := MediaEnv (PyFloat.of_Z 1000) "/tmp/x" None
               (WorkerEnv (Ok (Info (Some "Film") (Some 640%Z) None None)) []
                          None)
               [("Film.mp4", 5000000%N)] None None None None None None in
  log_of (download_media 7 env st)
  = [edit_message_text 7 11 starting_text;
     to_thread_blocking_download 7 "https://youtu.be/x" "mp4";
     edit_message_text 7 11 uploading_text;
     send_video 7 "/tmp/x/Film.mp4" "🎥 Film" 640 720 0;
     delete_message 7 11;
     send_message 7 (complete_text "Film" "mp4" 5000000) another_keyboard].
Proof.
  cbv zeta.
  refine (proj1 (proj2 (delivery_succeeds 7
    (MediaEnv (PyFloat.of_Z 1000) "/tmp/x" None
       (WorkerEnv (Ok (Info (Some "Film") (Some 640%Z) None None)) [] None)
       [("Film.mp4", 5000000%N)] None None None None None None)
    (State {[7%Z := Session "https://youtu.be/x" 1 7 (Some 10%Z)
                      (Some "mp4") (Some 11%Z) None]} ∅)
    (Session "https://youtu.be/x" 1 7 (Some 10%Z) (Some "mp4") (Some 11%Z) None)
    "mp4" 11 (Info (Some "Film") (Some 640%Z) None None) "Film.mp4" 5000000%N
    _ _ _ _ _ _ _ _ _ _ _ _ _ _))); try (vm_compute; reflexivity).
  - discriminate.
  - right. vm_compute. discriminate.
Defined.

(** X9.  When sending the file fails, the cause shown is the text of the
    error after [Upload to Telegram failed: ]; the status message is not
    deleted and no summary is sent. *)
Theorem upload_failure_is_reported (chat : Z) (env : media_env) (st : state)
    (s : session) (f : string) (pm : Z) (i : info) (name : string)
    (file_size : N) (e0 : exn) :
  user_data st !! chat = Some s -> format s = Some f ->
  progress_message_id s = Some pm ->
  edit_starting env = None ->
  extract_info (worker env) = Ok i -> download (worker env) = None ->
  find is_media_file (listdir env) = Some (name, file_size) ->
  file_size <> 0%N ->
  ((f =? "mp3")%string = true \/ (file_size <= size_limit)%N) ->
  edit_uploading env = None -> send_media env = Some e0 ->
  let x := download_media chat env st in
  let t := default "download" (i_title i) in
  log_of x
  = [edit_message_text chat pm starting_text;
     to_thread_blocking_download chat (url s) f;
     edit_message_text chat pm uploading_text;
     send_action (Job chat (url s) f pm) i t env name]
    ++ failure_report chat pm env (upload_failed e0)
  /\ download_progress (final x) !! chat = None.
Proof.
  intros Hs Hf Hp He Hi Hd Hfind Hsize Hok Hu Hsend. cbv zeta.
  split; [|apply (settle_clears chat env)].
  destruct (download_media_reaches_delivery chat env st s f pm i
              Hs Hf Hp He Hi Hd) as (st' & Hst' & ->).
  cbv zeta.
  pose proof (deliver_sends (Job chat (url s) f pm) i
                (default "download" (i_title i)) env st' name file_size
                Hfind Hsize Hok Hu) as Hdeliver.
  rewrite Hsend in Hdeliver.
  assert (Hs' : user_data st' !! chat
                = Some (with_title (default "download" (i_title i)) s))
    by (rewrite Hst'; apply lookup_insert_eq).
  rewrite (settle_raise chat env _ st' st' _ (upload_failed e0) _ pm
             Hdeliver Hs' Hp).
  reflexivity.
Qed.

Lemma upload_failure_is_reported_witness :
  let st := State {[7%Z := Session "https://youtu.be/x" 1 7 (Some 10%Z)
                              (Some "mp3") (Some 11%Z) None]} ∅ in
  let env := MediaEnv (PyFloat.of_Z 1000) "/tmp/x" None
               (WorkerEnv (Ok (Info (Some "Song") None None None)) [] None)
               [("Song.mp3", 5000000%N)] None
               (Some (Exn OtherError "Timed out")) None None None None in
  log_of (download_media 7 env st)
  = [edit_message_text 7 11 starting_text;
     to_thread_blocking_download 7 "https://youtu.be/x" "mp3";
     edit_message_text 7 11 uploading_text;
     send_audio 7 "/tmp/x/Song.mp3" "🎵 Song" "Song" "YouTube"]
    ++ failure_report 7 11 env
         (Exn OtherError "Upload to Telegram failed: Timed out").
Proof.
  cbv zeta.
  refine (proj1 (upload_failure_is_reported 7
    (MediaEnv (PyFloat.of_Z 1000) "/tmp/x" None
       (WorkerEnv (Ok (Info (Some "Song") None None None)) [] None)
       [("Song.mp3", 5000000%N)] None
       (Some (Exn OtherError "Timed out")) None None None None)
    (State {[7%Z := Session "https://youtu.be/x" 1 7 (Some 10%Z)
                      (Some "mp3") (Some 11%Z) None]} ∅)
    (Session "https://youtu.be/x" 1 7 (Some 10%Z) (Some "mp3") (Some 11%Z) None)
    "mp3" 11 (Info (Some "Song") None None None) "Song.mp3" 5000000%N
    (Exn OtherError "Timed out")
    _ _ _ _ _ _ _ _ _ _ _)); try (vm_compute; reflexivity).
  - discriminate.
  - left. vm_compute. reflexivity.
Defined.

(** X10.  Called for a chat that has no session, [download_media] does
    nothing but remove the progress entry of the chat, if there is one. *)
Theorem download_media_without_session (chat : Z) (env : media_env) (st : state) :
  user_data st !! chat = None ->
  let x := download_media chat env st in
  outcome_of x = Ok tt /\ log_of x = []
  /\ user_data (final x) = user_data st
  /\ download_progress (final x) = delete chat (download_progress st).
Proof.
  intros Hs. cbv zeta.
  assert (download_media chat env st = (Ok tt, final (release chat st), [])) as ->.
  { apply (settle_ok chat env _ st st []).
    unfold bind, get_state, ret. now rewrite Hs. }
  unfold outcome_of, log_of, final. cbn [fst snd].
  split; [reflexivity|]. split; [reflexivity|].
  unfold release. unfold_monad.
  destruct (download_progress st !! chat) eqn:E; cbn.
  - simpl_state. auto.
  - rewrite (delete_id _ _ E). auto.
Qed.

Lemma download_media_without_session_witness :
  let st := State ∅ {[8%Z := Progress downloading "10%" "N/A" "N/A"
                                      (PyFloat.of_Z 990)]} in
  let env := MediaEnv (PyFloat.of_Z 1000) "/tmp/x" None
               (WorkerEnv (Ok (Info (Some "Song") None None None)) [] None)
               [("Song.mp3", 5000000%N)] None None None None None None in
  log_of (download_media 8 env st) = []
  /\ download_progress (final (download_media 8 env st))
     = delete 8%Z (download_progress st).
Proof.
  cbv zeta.
  pose proof (download_media_without_session 8
    (MediaEnv (PyFloat.of_Z 1000) "/tmp/x" None
       (WorkerEnv (Ok (Info (Some "Song") None None None)) [] None)
       [("Song.mp3", 5000000%N)] None None None None None None)
    (State ∅ {[8%Z := Progress downloading "10%" "N/A" "N/A"
                               (PyFloat.of_Z 990)]})) as H.
  specialize (H ltac:(vm_compute; reflexivity)).
  cbv zeta in H. destruct H as (_ & Hlog & _ & Hdp). split; assumption.
Defined.

(** ** [button_handler] with a session *)

Lemma accept_format_run (query : callback_query) (env : button_env) (st : state)
    (s : session) (rest : string) :
  user_data st !! q_chat_id query = Some s ->
  data query = "format_" +:+ rest ->
  answer env = None ->
  let chat := q_chat_id query in
  let chosen := with_format (PyStr.before_first "_" rest) s in
  let st1 := set_user_data (insert chat chosen) st in
  accept_format query env st
  = match reply_progress env with
    | Ok m =>
        (Ok true,
         set_user_data (insert chat (with_progress_message_id m chosen)) st1,
         [query_answer chat; reply_text chat initializing_text []])
    | Raise e =>
        (Raise e, st1, [query_answer chat; reply_text chat initializing_text []])
    end.
Proof.
  intros Hs Hd Ha. cbv zeta. unfold accept_format. rewrite Hd, Ha.
  change (PyStr.startswith ("format_" +:+ rest) "format_") with true.
  change (PyStr.split_second "_" ("format_" +:+ rest))
    with (Some (PyStr.before_first "_" rest)).
  cbv iota. unfold bind at 1. unfold call at 1. unfold bind at 1.
  unfold get_state at 1. rewrite Hs.
  unfold bind at 1. unfold ret at 1. unfold bind at 1.
  rewrite (update_session_found _ _ _ _ Hs).
  unfold bind at 1. unfold call_message at 1.
  destruct (reply_progress env) as [m|e]; [|reflexivity].
  unfold bind at 1.
  erewrite update_session_found by (simpl_state; apply lookup_insert_eq).
  reflexivity.
Qed.

(** X11.  A format choice for a chat with a session records as format the
    text of the callback data between its first and its second underscore,
    creates the status message and records its identifier, and goes on to
    [download_media] in that state.  When the status message cannot be
    created only the format is recorded, and no download follows. *)
Theorem format_choice_starts_the_download (query : callback_query)
    (env : button_env) (st : state) (s : session) (rest : string) :
  user_data st !! q_chat_id query = Some s ->
  data query = "format_" +:+ rest ->
  answer env = None ->
  let chat := q_chat_id query in
  let chosen := with_format (PyStr.before_first "_" rest) s in
  let asked := [query_answer chat; reply_text chat initializing_text []] in
  match reply_progress env with
  | Ok m =>
      exists st2,
        user_data st2
        = <[chat := with_progress_message_id m chosen]> (user_data st)
        /\ download_progress st2 = download_progress st
        /\ button_handler query env st
           = after asked (download_media chat (media env) st2)
  | Raise e =>
      exists st1,
        user_data st1 = <[chat := chosen]> (user_data st)
        /\ download_progress st1 = download_progress st
        /\ button_handler query env st = (Raise e, st1, asked)
  end.
Proof.
  intros Hs Hd Ha. cbv zeta.
  pose proof (accept_format_run query env st s rest Hs Hd Ha) as Hacc.
  cbv zeta in Hacc. unfold button_handler, bind. rewrite Hacc.
  destruct (reply_progress env) as [m|e].
  - exists (set_user_data
              (insert (q_chat_id query)
                 (with_progress_message_id m
                    (with_format (PyStr.before_first "_" rest) s)))
              (set_user_data
                 (insert (q_chat_id query)
                    (with_format (PyStr.before_first "_" rest) s)) st)).
    split; [|split].
    + simpl_state. apply insert_insert_eq.
    + reflexivity.
    + unfold after, outcome_of, final, log_of.
      destruct (download_media _ _ _) as [[r st3] l3]. reflexivity.
  - exists (set_user_data
              (insert (q_chat_id query)
                 (with_format (PyStr.before_first "_" rest) s)) st).
    split; [|split]; reflexivity.
Qed.

Lemma format_choice_starts_the_download_witness :
  let st := State {[7%Z := Session "https://youtu.be/x" 1 7 (Some 10%Z)
                              None None None]} ∅ in
  let env := ButtonEnv None None (Ok 11%Z)
               (MediaEnv (PyFloat.of_Z 1000) "/tmp/x" None
                  (WorkerEnv (Ok (Info (Some "Song") None None None)) [] None)
                  [("Song.mp3", 5000000%N)] None None None None None None) in
  exists st2,
    user_data st2 !! 7%Z
    = Some (Session "https://youtu.be/x" 1 7 (Some 10%Z) (Some "mp3")
                    (Some 11%Z) None)
    /\ button_handler (CallbackQuery 7 "format_mp3_hq") env st
       = after [query_answer 7; reply_text 7 initializing_text []]
               (download_media 7 (media env) st2).
Proof.
  cbv zeta.
  pose proof (format_choice_starts_the_download
    (CallbackQuery 7 "format_mp3_hq")
    (ButtonEnv None None (Ok 11%Z)
       (MediaEnv (PyFloat.of_Z 1000) "/tmp/x" None
          (WorkerEnv (Ok (Info (Some "Song") None None None)) [] None)
          [("Song.mp3", 5000000%N)] None None None None None None))
    (State {[7%Z := Session "https://youtu.be/x" 1 7 (Some 10%Z)
                      None None None]} ∅)
    (Session "https://youtu.be/x" 1 7 (Some 10%Z) None None None)
    "mp3_hq") as H.
  specialize (H ltac:(vm_compute; reflexivity) ltac:(vm_compute; reflexivity)
                ltac:(vm_compute; reflexivity)).
  cbv zeta in H. cbn [reply_progress q_chat_id] in H.
  destruct H as (st2 & Hu & _ & Hb). exists st2. split; [|exact Hb].
  rewrite Hu. cbn [user_data]. now rewrite lookup_insert_eq.
Defined.

(** ** After the job *)

(** X12.  Once [download_media] has ended for a chat, a tick of the reporter
    addresses nothing to that chat: no status edit follows the delivery or the
    failure report. *)
Theorem no_push_after_the_job (chat : Z) (env : media_env) (tick : tick_env)
    (st : state) :
  chat_actions chat
    (log_of (progress_updater tick (final (download_media chat env st)))) = [].
Proof.
  destruct (progress_updater_full tick (final (download_media chat env st)))
    as (st' & l & -> & _ & _ & A).
  unfold log_of. cbn [snd]. rewrite A. unfold expected_push.
  pose proof (settle_clears chat env) as H.
  specialize (H (st0 <- get_state ;;
                 match user_data st0 !! chat with
                 | None => ret tt
                 | Some _ =>
                     j <- prepare chat env ;;
                     r <- fetch j env ;;
                     deliver j (fst r) (snd r) env
                 end) st).
  change (download_progress (final (download_media chat env st)) !! chat = None)
    in H.
  now rewrite H.
Qed.

(** ** The percentage text *)

Lemma digits_snoc (a : string) :
  all_digits a = true -> a <> EmptyString ->
  exists b c, a = b +:+ String c EmptyString /\ PyStr.is_digit c = true.
Proof.
  induction a as [|d a IH]; [congruence|]. intros Hd _.
  cbn [all_digits] in Hd. apply andb_prop in Hd as [Hc Hd].
  destruct a as [|d' a'].
  - exists EmptyString, d. auto.
  - destruct (IH Hd) as (b & c & -> & Hc'); [discriminate|].
    exists (String d b), c. now rewrite append_cons.
Qed.

Lemma digits_alone (a : string) :
  all_digits a = true -> a <> EmptyString ->
  PyStr.before_first "." (PyStr.strip_set is_percent_sign a) = a.
Proof.
  intros Hd Hne. unfold PyStr.strip_set.
  assert (Hl : PyStr.lstrip is_percent_sign a = a).
  { destruct a as [|c a]; [congruence|].
    cbn [all_digits] in Hd. apply andb_prop in Hd as [Hc _].
    cbn [PyStr.lstrip]. now rewrite (proj1 (digit_is_no_sign c Hc)). }
  rewrite Hl. destruct (digits_snoc a Hd Hne) as (b & c & E & Hc).
  assert (Hr : PyStr.rstrip is_percent_sign a = a).
  { rewrite E. rewrite rstrip_stops by apply (digit_is_no_sign c Hc).
    reflexivity. }
  rewrite Hr. clear Hl Hr E Hne Hc b c.
  induction a as [|c a IH]; [reflexivity|].
  cbn [all_digits] in Hd. apply andb_prop in Hd as [Hc Hd].
  cbn [PyStr.before_first].
  now rewrite (proj2 (digit_is_no_sign c Hc)), (IH Hd).
Qed.

(** X13.  [create_progress_bar] reads the digits before the first point and
    nothing after it: a percentage with a fraction is drawn like its whole
    part, whatever is written after the point. *)
Theorem fraction_is_ignored (a x : string) :
  all_digits a = true -> a <> EmptyString ->
  percent_value (a +:+ "." +:+ x) = percent_value a
  /\ filled_bars (a +:+ "." +:+ x) = filled_bars a.
Proof.
  intros Hd Hne.
  assert (H : percent_value (a +:+ "." +:+ x) = percent_value a).
  { unfold percent_value.
    change ("." +:+ x) with (String "." x).
    now rewrite digits_before_point, digits_alone. }
  split; [exact H|]. unfold filled_bars. now rewrite H.
Qed.

Lemma fraction_is_ignored_witness :
  percent_value ("45" +:+ "." +:+ "9%") = percent_value "45"
  /\ filled_bars ("45" +:+ "." +:+ "9%") = filled_bars "45".
Proof.
  apply (fraction_is_ignored "45" "9%"); [reflexivity | discriminate].
Defined.

(** ** What happens in between *)

(** X15.  When the progress entry of a job has been evicted as stale before
    yt-dlp returns the metadata, [blocking_download] stores the title and then
    raises [KeyError] on the chat identifier: the download itself is never
    run. *)
Theorem eviction_fails_the_extraction (tick : tick_env) (st : state) (j : job)
    (w : worker_env) (pd : progress) (s : session) (i : info) :
  download_progress st !! j_chat j = Some pd ->
  is_stale (clock tick (j_chat j)) pd = true ->
  user_data st !! j_chat j = Some s ->
  extract_info w = Ok i ->
  let x := blocking_download j w (final (progress_updater tick st)) in
  outcome_of x = Raise (Exn KeyError (PyStr.str_of_Z (j_chat j)))
  /\ log_of x = []
  /\ user_data (final x) !! j_chat j
     = Some (with_title (default "download" (i_title i)) s)
  /\ download_progress (final x) !! j_chat j = None.
Proof.
  intros Hpd Hstale Hs Hi. cbv zeta.
  destruct (progress_updater_full tick st) as (st' & l & -> & U & D & _).
  change (final (Ok tt, st', l)) with st'.
  assert (Hs' : user_data st' !! j_chat j = Some s) by now rewrite U.
  assert (Hnone : download_progress st' !! j_chat j = None).
  { rewrite D, Hpd. cbn. now rewrite Hstale. }
  assert (blocking_download j w st'
          = (Raise (Exn KeyError (PyStr.str_of_Z (j_chat j))),
             set_user_data
               (insert (j_chat j)
                  (with_title (default "download" (i_title i)) s)) st',
             [])) as ->.
  { unfold blocking_download, store_metadata. rewrite Hi.
    unfold bind at 1. unfold bind at 1. unfold lift at 1.
    unfold bind at 1. rewrite (update_session_found _ _ _ _ Hs').
    unfold bind at 1. unfold update_progress. unfold bind at 1.
    unfold get_state at 1. simpl_state. rewrite Hnone. reflexivity. }
  unfold outcome_of, log_of, final. cbn [fst snd].
  simpl_state. rewrite lookup_insert_eq. auto.
Qed.

Lemma eviction_fails_the_extraction_witness :
  outcome_of
    (blocking_download (Job 7 "https://youtu.be/x" "mp3" 11)
       (WorkerEnv (Ok (Info (Some "Song") None None None)) [] None)
       (final (progress_updater
                 (TickEnv (fun _ => PyFloat.of_Z 1301) (fun _ => None))
                 (State {[7%Z := Session "https://youtu.be/x" 1 7 (Some 10%Z)
                                   (Some "mp3") (Some 11%Z) None]}
                        {[7%Z := Progress starting "0%" "N/A" "N/A"
                                          (PyFloat.of_Z 1000)]}))))
  = Raise (Exn KeyError "7").
Proof.
  apply (eviction_fails_the_extraction
           (TickEnv (fun _ => PyFloat.of_Z 1301) (fun _ => None))
           (State {[7%Z := Session "https://youtu.be/x" 1 7 (Some 10%Z)
                             (Some "mp3") (Some 11%Z) None]}
                  {[7%Z := Progress starting "0%" "N/A" "N/A"
                                    (PyFloat.of_Z 1000)]})
           (Job 7 "https://youtu.be/x" "mp3" 11)
           (WorkerEnv (Ok (Info (Some "Song") None None None)) [] None)
           (Progress starting "0%" "N/A" "N/A" (PyFloat.of_Z 1000))
           (Session "https://youtu.be/x" 1 7 (Some 10%Z) (Some "mp3")
                    (Some 11%Z) None)
           (Info (Some "Song") None None None)); vm_compute; reflexivity.
Defined.

(** ** What every run keeps *)

Section Respect.

Variable R : state -> state -> Prop.
Hypothesis R_refl : forall st, R st st.
Hypothesis R_trans : forall st1 st2 st3, R st1 st2 -> R st2 st3 -> R st1 st3.

Lemma rs_same {A} (m : M A) : (forall st, final (m st) = st) -> respects R m.
Proof. intros H st. rewrite H. apply R_refl. Qed.

Lemma rs_bind {A B} (m : M A) (k : A -> M B) :
  respects R m -> (forall a, respects R (k a)) -> respects R (bind m k).
Proof.
  intros Hm Hk st. specialize (Hm st). unfold bind, final in *.
  destruct (m st) as [[[a|e] st1] l1]; cbn [fst snd] in *; [|assumption].
  specialize (Hk a st1). unfold final in Hk.
  destruct (k a st1) as [[r st2] l2]. cbn [fst snd] in *.
  eapply R_trans; eassumption.
Qed.

Lemma rs_try_except {A} (m : M A) (h : exn -> M A) :
  respects R m -> (forall e, respects R (h e)) -> respects R (try_except m h).
Proof.
  intros Hm Hh st. specialize (Hm st). unfold try_except, final in *.
  destruct (m st) as [[[a|e] st1] l1]; cbn [fst snd] in *; [assumption|].
  specialize (Hh e st1). unfold final in Hh.
  destruct (h e st1) as [[r st2] l2]. cbn [fst snd] in *.
  eapply R_trans; eassumption.
Qed.

Lemma rs_try_finally {A} (m : M A) (f : M unit) :
  respects R m -> respects R f -> respects R (try_finally m f).
Proof.
  intros Hm Hf st. specialize (Hm st). unfold try_finally, final in *.
  destruct (m st) as [[r st1] l1]. cbn [fst snd] in *.
  specialize (Hf st1). unfold final in Hf.
  destruct (f st1) as [[[u|e] st2] l2]; cbn [fst snd] in *;
    eapply R_trans; eassumption.
Qed.

Lemma rs_attempt {A} (m : M A) : respects R m -> respects R (attempt m).
Proof.
  intros Hm st. specialize (Hm st). unfold attempt, final in *.
  now destruct (m st) as [[r st1] l1].
Qed.

Lemma rs_for_each {A} (l : list A) (body : A -> M unit) :
  (forall x, respects R (body x)) -> respects R (for_each l body).
Proof.
  intros Hb. induction l as [|x r IH]; cbn [for_each].
  - now apply rs_same.
  - apply rs_bind; auto.
Qed.

Lemma rs_ret {A} (a : A) : respects R (ret a).
Proof. now apply rs_same. Qed.

Lemma rs_raise {A} (e : exn) : respects R (@raise A e).
Proof. now apply rs_same. Qed.

Lemma rs_lift {A} (r : result A) : respects R (lift r).
Proof. now apply rs_same. Qed.

Lemma rs_call (a : action) (o : option exn) : respects R (call a o).
Proof. now apply rs_same. Qed.

Lemma rs_call_message (a : action) (o : result Z) : respects R (call_message a o).
Proof. now apply rs_same. Qed.

Lemma rs_get_state : respects R get_state.
Proof. now apply rs_same. Qed.

Lemma rs_subscript {A} (key : string) (v : option A) : respects R (subscript key v).
Proof. destruct v; now apply rs_same. Qed.

Lemma rs_user_data_at (chat : Z) : respects R (user_data_at chat).
Proof.
  unfold user_data_at. apply rs_bind; [apply rs_get_state|].
  intros st. destruct (user_data st !! chat); [apply rs_ret | apply rs_raise].
Qed.

(** The computations built from the pieces above and from the changes of the
    two tables: it is enough to look at those changes. *)
Hypothesis R_session :
  forall chat f st s, user_data st !! chat = Some s ->
    R st (set_user_data (insert chat (f s)) st).
Hypothesis R_new_session :
  forall chat s st, R st (set_user_data (insert chat s) st).
Hypothesis R_alter :
  forall chat f st p, download_progress st !! chat = Some p ->
    R st (set_download_progress (insert chat (f p)) st).
Hypothesis R_delete :
  forall chat st, R st (set_download_progress (delete chat) st).

Lemma rs_update_session (chat : Z) (f : session -> session) :
  respects R (update_session chat f).
Proof.
  intros st. destruct (user_data st !! chat) as [s|] eqn:E.
  - rewrite (update_session_found _ _ _ _ E). now apply R_session.
  - unfold update_session, bind. rewrite (user_data_at_missing _ _ E).
    apply R_refl.
Qed.

Lemma rs_update_progress (chat : Z) (f : progress -> progress) :
  respects R (update_progress chat f).
Proof.
  intros st. unfold update_progress. unfold_monad.
  destruct (download_progress st !! chat) eqn:E; cbn [fst snd];
    [now apply R_alter | apply R_refl].
Qed.

Lemma rs_del_progress (chat : Z) : respects R (del_progress chat).
Proof.
  intros st. unfold del_progress. unfold_monad.
  destruct (download_progress st !! chat); cbn [fst snd];
    [apply R_delete | apply R_refl].
Qed.

Lemma rs_release (chat : Z) : respects R (release chat).
Proof.
  intros st. unfold release. unfold_monad.
  destruct (download_progress st !! chat); cbn [fst snd];
    [apply R_delete | apply R_refl].
Qed.

Lemma rs_deliver (j : job) (i : info) (t : string) (env : media_env) :
  respects R (deliver j i t env).
Proof.
  unfold deliver, reraise.
  destruct (find is_media_file (listdir env)) as [[name [|p]]|];
    try apply rs_raise.
  apply rs_bind; [apply rs_call|]. intros _.
  apply rs_bind.
  - apply rs_try_except; [|intros e; apply rs_raise].
    destruct (j_format j =? "mp3")%string; [apply rs_call|].
    destruct (size_limit <? N.pos p)%N; [apply rs_raise | apply rs_call].
  - intros _. apply rs_bind; [apply rs_call|]. intros _. apply rs_call.
Qed.

Lemma rs_report_failure (chat : Z) (env : media_env) (e : exn) :
  respects R (report_failure chat env e).
Proof.
  unfold report_failure. apply rs_bind; [apply rs_call|]. intros _.
  apply rs_try_except; [|intros _; apply rs_call].
  apply rs_bind; [apply rs_user_data_at|]. intros s.
  apply rs_bind; [apply rs_subscript|]. intros m. apply rs_call.
Qed.

Lemma rs_settle (chat : Z) (env : media_env) (m : M unit) :
  respects R m -> respects R (settle chat env m).
Proof.
  intros Hm. unfold settle. apply rs_try_finally; [|apply rs_release].
  apply rs_try_except; [exact Hm|]. intros e. apply rs_report_failure.
Qed.

Lemma rs_store_metadata (j : job) (r : result info) :
  respects R (store_metadata j r).
Proof.
  unfold store_metadata. apply rs_bind; [apply rs_lift|]. intros i.
  apply rs_bind; [apply rs_update_session|]. intros _.
  apply rs_bind; [apply rs_update_progress|]. intros _. apply rs_ret.
Qed.

Lemma rs_download_media_resume (j : job) (r : result info) (env : media_env) :
  respects R (download_media_resume j r env).
Proof.
  unfold download_media_resume, reraise. apply rs_settle.
  apply rs_bind; [|intros x; apply rs_deliver].
  apply rs_try_except; [|intros e; apply rs_raise].
  apply rs_bind; [apply rs_lift|]. intros i.
  apply rs_bind; [apply rs_user_data_at|]. intros s.
  apply rs_bind; [apply rs_subscript|]. intros t. apply rs_ret.
Qed.

Lemma rs_accept_format (query : callback_query) (env : button_env) :
  respects R (accept_format query env).
Proof.
  unfold accept_format. apply rs_bind; [apply rs_call|]. intros _.
  destruct (PyStr.startswith (data query) "format_"); [|apply rs_ret].
  apply rs_bind; [apply rs_get_state|]. intros st.
  destruct (user_data st !! q_chat_id query).
  - apply rs_bind.
    { destruct (PyStr.split_second "_" (data query));
        [apply rs_ret | apply rs_raise]. }
    intros f. apply rs_bind; [apply rs_update_session|]. intros _.
    apply rs_bind; [apply rs_call_message|]. intros m.
    apply rs_bind; [apply rs_update_session|]. intros _. apply rs_ret.
  - apply rs_bind; [apply rs_call|]. intros _. apply rs_ret.
Qed.

Lemma rs_handle_url (update : message) (reply : result Z) :
  respects R (handle_url update reply).
Proof.
  unfold handle_url.
  destruct (negb (re_match youtube_regex (PyStr.strip (text update)))).
  - apply rs_bind; [apply rs_call_message|]. intros _. apply rs_ret.
  - apply rs_bind.
    { intros st. apply R_new_session. }
    intros _. apply rs_bind; [apply rs_call_message|]. intros m.
    apply rs_update_session.
Qed.

Lemma rs_update_one (env : tick_env) (item : Z * progress) :
  respects R (update_one env item).
Proof.
  destruct item as [c pd]. unfold update_one.
  apply rs_try_except; [|intros e; apply rs_call].
  destruct (is_stale (clock env c) pd); [apply rs_del_progress|].
  destruct (p_status pd); try apply rs_ret.
  apply rs_bind; [apply rs_lift|]. intros bar.
  apply rs_bind; [apply rs_get_state|]. intros st.
  destruct (user_data st !! c) as [s|]; [|apply rs_ret].
  destruct (progress_message_id s); [apply rs_call | apply rs_ret].
Qed.

Lemma rs_progress_updater (env : tick_env) : respects R (progress_updater env).
Proof.
  unfold progress_updater. apply rs_bind; [apply rs_get_state|]. intros st.
  apply rs_for_each. intros item. apply rs_update_one.
Qed.

End Respect.

Lemma sessions_stay_refl (st : state) : sessions_stay st st.
Proof. now intros c. Qed.

Lemma sessions_stay_trans (st1 st2 st3 : state) :
  sessions_stay st1 st2 -> sessions_stay st2 st3 -> sessions_stay st1 st3.
Proof. intros H12 H23 c H. apply H23, H12, H. Qed.

Lemma sessions_kept_stay (st st' : state) :
  sessions_kept st st' -> sessions_stay st st'.
Proof.
  intros H c [s Hs]. specialize (H c). rewrite Hs in H.
  destruct H as (s' & -> & _). eauto.
Qed.

Lemma sessions_stay_insert (chat : Z) (s : session) (st : state) :
  sessions_stay st (set_user_data (insert chat s) st).
Proof.
  intros c H. simpl_state. destruct (decide (c = chat)) as [->|Hne].
  - rewrite lookup_insert_eq. eauto.
  - now rewrite lookup_insert_ne by congruence.
Qed.

Lemma sessions_stay_progress (f : gmap Z progress -> gmap Z progress) (st : state) :
  sessions_stay st (set_download_progress f st).
Proof. now intros c. Qed.

Lemma progress_shrinks_refl (st : state) : progress_shrinks st st.
Proof. now intros c. Qed.

Lemma progress_shrinks_trans (st1 st2 st3 : state) :
  progress_shrinks st1 st2 -> progress_shrinks st2 st3 -> progress_shrinks st1 st3.
Proof. intros H12 H23 c H. apply H12, H23, H. Qed.

Lemma progress_shrinks_alter (chat : Z) (f : progress -> progress) (st : state)
    (p : progress) :
  download_progress st !! chat = Some p ->
  progress_shrinks st (set_download_progress (insert chat (f p)) st).
Proof.
  intros Hp c H. simpl_state. destruct (decide (c = chat)) as [->|Hne].
  - rewrite Hp. eauto.
  - now rewrite lookup_insert_ne in H by congruence.
Qed.

Lemma progress_shrinks_delete (chat : Z) (st : state) :
  progress_shrinks st (set_download_progress (delete chat) st).
Proof.
  intros c H. simpl_state. destruct (decide (c = chat)) as [->|Hne].
  - rewrite lookup_delete_eq in H. now destruct H.
  - now rewrite lookup_delete_ne in H by congruence.
Qed.

Lemma progress_shrinks_sessions (f : gmap Z session -> gmap Z session) (st : state) :
  progress_shrinks st (set_user_data f st).
Proof. now intros c. Qed.

Lemma ks_launch (chat : Z) (env : media_env) : keeps_sessions (launch chat env).
Proof.
  unfold launch, reraise. pose proof (ks_prepare chat env). keeps.
Qed.

Lemma ks_settle (chat : Z) (env : media_env) (m : M unit) :
  keeps_sessions m -> keeps_sessions (settle chat env m).
Proof.
  intros Hm. unfold settle. pose proof (ks_report_failure chat env). keeps.
Qed.

Lemma ks_download_media_start (chat : Z) (env : media_env) :
  keeps_sessions (download_media_start chat env).
Proof.
  unfold download_media_start.
  pose proof (ks_launch chat env).
  pose proof (fun m H => ks_settle chat env m H).
  keeps.
Qed.

(** What a format choice leaves in the two tables, and the job it starts. *)
Lemma button_handler_start_tables (query : callback_query) (env : button_env)
    (st st1 : state) (r : result (option job)) (l : list action) :
  button_handler_start query env st = (r, st1, l) ->
  sessions_stay st st1
  /\ match r with
     | Ok (Some j) =>
         j_chat j = q_chat_id query
         /\ is_Some (user_data st1 !! q_chat_id query)
         /\ progress_within (q_chat_id query) st st1
     | _ => progress_shrinks st st1
     end.
Proof.
  unfold button_handler_start, bind. intros H.
  pose proof (rs_accept_format sessions_stay sessions_stay_refl
                sessions_stay_trans
                (fun c f st0 s _ => sessions_stay_insert c (f s) st0)
                query env st) as Hacc1.
  pose proof (rs_accept_format progress_shrinks progress_shrinks_refl
                progress_shrinks_trans
                (fun c f st0 s _ => progress_shrinks_sessions _ st0)
                query env st) as Hacc2.
  unfold final in Hacc1, Hacc2.
  destruct (accept_format query env st) as [[[[|]|e] st0] l0];
    cbn [fst snd] in *.
  2,3: (inversion H; subst; split; assumption).
  set (chat := q_chat_id query) in *.
  pose proof (ks_download_media_start chat (media env) st0) as Hk.
  unfold final in Hk.
  destruct (download_media_start chat (media env) st0) as [[r2 st2] l2] eqn:Hd.
  cbn [fst snd] in Hk. inversion H; subst. clear H. split.
  { eapply sessions_stay_trans; [exact Hacc1 | now apply sessions_kept_stay]. }
  unfold download_media_start, bind, get_state, attempt, ret in Hd.
  destruct (user_data st0 !! chat) as [s0|] eqn:Hs0.
  - destruct (launch chat (media env) st0) as [[[j|e] st3] l3] eqn:Hl.
    + inversion Hd; subst. clear Hd.
      split; [now apply launch_chat in Hl|]. split.
      { specialize (Hk chat). rewrite Hs0 in Hk.
        destruct Hk as (s' & -> & _). eauto. }
      intros c Hc. destruct (decide (c = chat)) as [->|Hne]; [now left|].
      right. apply Hacc2.
      unfold launch, bind in Hl.
      destruct (prepare chat (media env) st0) as [[[j0|e0] st4] l4] eqn:Hp;
        [|discriminate].
      assert (Hst4 : forall k, k <> chat ->
                download_progress st4 !! k = download_progress st0 !! k).
      { unfold prepare, user_data_at in Hp. unfold_monad. rewrite Hs0 in Hp.
        cbn in Hp. destruct (format s0); cbn in Hp; [|discriminate].
        destruct (progress_message_id s0); cbn in Hp; [|discriminate].
        inversion Hp; subst. intros k Hk'. simpl_state.
        now apply lookup_insert_ne. }
      unfold try_except, bind, call, ret, reraise, raise in Hl.
      destruct (edit_starting (media env)); cbn in Hl; inversion Hl; subst.
      now rewrite <- Hst4.
    + assert (Hwithin : forall k, k <> chat ->
                is_Some (download_progress st3 !! k) ->
                is_Some (download_progress st0 !! k)).
      { unfold launch, bind in Hl.
        destruct (prepare chat (media env) st0) as [[[j0|e0] st4] l4] eqn:Hp.
        - assert (Hst4 : forall k, k <> chat ->
                    download_progress st4 !! k = download_progress st0 !! k).
          { unfold prepare, user_data_at in Hp. unfold_monad. rewrite Hs0 in Hp.
            cbn in Hp. destruct (format s0); cbn in Hp; [|discriminate].
            destruct (progress_message_id s0); cbn in Hp; [|discriminate].
            inversion Hp; subst. intros k Hk'. simpl_state.
            now apply lookup_insert_ne. }
          unfold try_except, bind, call, ret, reraise, raise in Hl.
          destruct (edit_starting (media env)); cbn in Hl; inversion Hl; subst.
          intros k Hk' Hsome. now rewrite <- Hst4.
        - inversion Hl; subst.
          unfold prepare, user_data_at in Hp. unfold_monad. rewrite Hs0 in Hp.
          cbn in Hp. destruct (format s0); cbn in Hp.
          + destruct (progress_message_id s0); cbn in Hp; inversion Hp; subst.
            auto.
          + inversion Hp; subst. auto. }
      pose proof (settle_clears chat (media env) (raise e) st3) as Hclear.
      pose proof (rs_settle progress_shrinks progress_shrinks_refl
                    progress_shrinks_trans progress_shrinks_delete
                    chat (media env) (raise e)
                    (rs_raise progress_shrinks progress_shrinks_refl e) st3)
        as Hshr.
      unfold final in Hclear, Hshr.
      destruct (settle chat (media env) (raise e) st3) as [[[u|e'] st5] l5];
        cbn [fst snd] in *; inversion Hd; subst;
        (intros c Hc; apply Hacc2;
         destruct (decide (c = chat)) as [->|Hne];
         [rewrite Hclear in Hc; now destruct Hc
         |apply Hwithin; [exact Hne | now apply Hshr]]).
  - pose proof (rs_settle progress_shrinks progress_shrinks_refl
                  progress_shrinks_trans progress_shrinks_delete
                  chat (media env) (fun st6 => (Ok tt, st6, []))
                  (rs_ret progress_shrinks progress_shrinks_refl tt) st0)
      as Hshr.
    unfold final in Hshr.
    destruct (settle chat (media env) (fun st6 => (Ok tt, st6, [])) st0)
      as [[[u|e'] st5] l5]; cbn [fst snd] in *; inversion Hd; subst;
      (eapply progress_shrinks_trans; eassumption).
Qed.

(** ** The two tables over a run *)

Lemma tasks_insert_back (ts : list task) (n : nat) (j : job)
    (w0 w : worker_state) (t : task) :
  ts !! n = Some (Task j w0) -> t ∈ <[n := Task j w]> ts ->
  exists t0, t0 ∈ ts /\ t_job t0 = t_job t.
Proof.
  intros Hn Ht. apply list_elem_of_lookup in Ht as [i Hi].
  apply list_lookup_insert_Some in Hi as [(-> & <- & _) | (_ & Hi)].
  - exists (Task j w0). split; [|reflexivity].
    apply list_elem_of_lookup. eauto.
  - exists t. split; [|reflexivity]. apply list_elem_of_lookup. eauto.
Qed.

Lemma tasks_delete_back (ts : list task) (n : nat) (t : task) :
  t ∈ delete n ts -> t ∈ ts.
Proof.
  intros Ht. apply list_elem_of_lookup in Ht as [i Hi].
  apply list_elem_of_lookup.
  destruct (decide (i < n)) as [Hlt|Hge].
  - rewrite list_lookup_delete_lt in Hi by exact Hlt. eauto.
  - rewrite list_lookup_delete_ge in Hi by lia. eauto.
Qed.

(** What one event does to the two tables and to the jobs in flight. *)
Lemma step_tables (sys sys' : system) (ev : event) (l : list action) :
  step sys ev = Some (sys', l) ->
  sessions_stay (sys_state sys) (sys_state sys')
  /\ (jobs_have_sessions sys -> jobs_have_sessions sys').
Proof.
  destruct sys as [st ts]. destruct ev; cbn [step sys_state tasks].
  - pose proof (rs_handle_url sessions_stay sessions_stay_refl
                  sessions_stay_trans
                  (fun c f st0 s _ => sessions_stay_insert c (f s) st0)
                  sessions_stay_insert update reply st) as H1.
    pose proof (rs_handle_url progress_shrinks progress_shrinks_refl
                  progress_shrinks_trans
                  (fun c f st0 s _ => progress_shrinks_sessions _ st0)
                  (fun c s st0 => progress_shrinks_sessions _ st0)
                  update reply st) as H2.
    unfold final in H1, H2.
    destruct (handle_url update reply st) as [[r st1] l1]; cbn [fst snd] in *.
    intros H; inversion H; subst; clear H. cbn [sys_state tasks].
    split; [exact H1|].
    + intros Hj t Ht. apply H1, (Hj t Ht).
  - destruct (button_handler_start query env st) as [[r st1] l1] eqn:Hb.
    apply button_handler_start_tables in Hb as [H1 H2].
    destruct r as [[j|]|e]; intros H; inversion H; subst; clear H;
      cbn [sys_state tasks]; (split; [exact H1|]).
    + destruct H2 as (Hchat & Hs & _).
      intros Hj t Ht. apply elem_of_app in Ht as [Ht|Ht].
      * apply H1, (Hj t Ht).
      * apply list_elem_of_singleton in Ht. subst t. cbn. now rewrite Hchat.
    + intros Hj t Ht. apply H1, (Hj t Ht).
    + intros Hj t Ht. apply H1, (Hj t Ht).
  - destruct (ts !! n) as [[j [| |]]|] eqn:Hn; try discriminate.
    pose proof (rs_store_metadata sessions_stay sessions_stay_refl
                  sessions_stay_trans
                  (fun c f st0 s _ => sessions_stay_insert c (f s) st0)
                  (fun c f st0 p _ => sessions_stay_progress _ st0)
                  j r st) as H1.
    pose proof (rs_store_metadata progress_shrinks progress_shrinks_refl
                  progress_shrinks_trans
                  (fun c f st0 s _ => progress_shrinks_sessions _ st0)
                  progress_shrinks_alter j r st) as H2.
    unfold final in H1, H2.
    destruct (store_metadata j r st) as [[r1 st1] l1]; cbn [fst snd] in *.
    intros H; inversion H; subst; clear H. cbn [sys_state tasks].
    split; [exact H1|].
    + intros Hj t Ht.
      destruct (tasks_insert_back _ _ _ _ _ _ Hn Ht) as (t0 & Ht0 & <-).
      apply H1, (Hj t0 Ht0).
  - destruct (ts !! n) as [[j [| |]]|] eqn:Hn; try discriminate.
    rewrite progress_hook_entry.
    intros H; inversion H; subst; clear H. cbn [sys_state tasks].
    split; [destruct (hook_entry d); now intros c|].
    + intros Hj t Ht. specialize (Hj t Ht).
      destruct (hook_entry d); exact Hj.
  - destruct (ts !! n) as [[j [| |]]|] eqn:Hn; try discriminate.
    intros H; inversion H; subst; clear H. cbn [sys_state tasks].
    split; [apply sessions_stay_refl|].
    + intros Hj t Ht.
      destruct (tasks_insert_back _ _ _ _ _ _ Hn Ht) as (t0 & Ht0 & <-).
      apply (Hj t0 Ht0).
  - destruct (ts !! n) as [[j [| |]]|] eqn:Hn; try discriminate.
    pose proof (rs_download_media_resume sessions_stay sessions_stay_refl
                  sessions_stay_trans
                  (fun c st0 => sessions_stay_progress _ st0) j r env st) as H1.
    pose proof (rs_download_media_resume progress_shrinks progress_shrinks_refl
                  progress_shrinks_trans progress_shrinks_delete j r env st)
      as H2.
    unfold download_media_resume in *.
    match type of H1 with
    | sessions_stay _ (final (settle _ _ ?m _)) =>
        pose proof (settle_clears (j_chat j) env m st) as H3
    end.
    unfold final in H1, H2, H3.
    destruct (settle _ _ _ st) as [[r1 st1] l1]; cbn [fst snd] in *.
    intros H; inversion H; subst; clear H. cbn [sys_state tasks].
    split; [exact H1|].
    + intros Hj t Ht. apply H1, (Hj t), (tasks_delete_back _ _ _ Ht).
  - pose proof (rs_progress_updater sessions_stay sessions_stay_refl
                  sessions_stay_trans
                  (fun c st0 => sessions_stay_progress _ st0) env st) as H1.
    pose proof (rs_progress_updater progress_shrinks progress_shrinks_refl
                  progress_shrinks_trans progress_shrinks_delete env st) as H2.
    unfold final in H1, H2.
    destruct (progress_updater env st) as [[r st1] l1]; cbn [fst snd] in *.
    intros H; inversion H; subst; clear H. cbn [sys_state tasks].
    split; [exact H1|].
    + intros Hj t Ht. apply H1, (Hj t Ht).
Qed.

Lemma run_tables (evs : list event) (sys sys' : system) :
  run sys evs = Some sys' ->
  sessions_stay (sys_state sys) (sys_state sys')
  /\ (jobs_have_sessions sys -> jobs_have_sessions sys').
Proof.
  revert sys. induction evs as [|ev evs IH]; intros sys; cbn [run].
  - intros H; inversion H; subst. split; [apply sessions_stay_refl|tauto].
  - destruct (step sys ev) as [[sys1 l]|] eqn:Hstep; [|discriminate].
    intros Hrun. apply step_tables in Hstep as (H1 & H2).
    apply IH in Hrun as (H4 & H5).
    split; [eapply sessions_stay_trans; eassumption|tauto].
Qed.

(** X16.  Nothing the bot does removes a session: a chat that has one keeps
    one through every run of handlers, worker threads and ticks, whatever the
    outcome of the jobs. *)
Theorem sessions_are_never_removed (evs : list event) (sys sys' : system)
    (chat : Z) :
  run sys evs = Some sys' ->
  is_Some (user_data (sys_state sys) !! chat) ->
  is_Some (user_data (sys_state sys') !! chat).
Proof.
  intros Hrun. apply (proj1 (run_tables evs sys sys' Hrun)).
Qed.

Lemma sessions_are_never_removed_witness :
  let env := ButtonEnv None None (Ok 11%Z)
               (MediaEnv (PyFloat.of_Z 1000) "/tmp/x" None
                  (WorkerEnv (Ok (Info (Some "Song") None None None)) [] None)
                  [("Song.mp3", 5000000%N)] None None None None None None) in
  let sys := System (State {[7%Z := Session "https://youtu.be/x" 1 7
                                      (Some 10%Z) None None None]} ∅) [] in
  let evs := [ev_callback (CallbackQuery 7 "format_mp3") env;
              ev_extracted 0 (Raise (Exn OtherError "Video unavailable"));
              ev_resume 0 (media env);
              ev_tick (TickEnv (fun _ => PyFloat.of_Z 2000) (fun _ => None))] in
  match run sys evs with
  | Some sys' => is_Some (user_data (sys_state sys') !! 7%Z)
  | None => False
  end.
Proof.
  cbv zeta.
  match goal with
  | |- match run ?sys ?evs with _ => _ end =>
      destruct (run sys evs) as [sys'|] eqn:E;
      [ apply (sessions_are_never_removed evs sys sys' 7 E);
        vm_compute; eauto
      | vm_compute in E; discriminate E ]
  end.
Defined.

(** X17.  In every run from the empty tables, each job in flight has the
    session of its chat: the lookups of [user_data[chat_id]] after the wait
    for the worker thread never miss. *)
Theorem every_job_has_its_session (evs : list event) (sys : system) (t : task) :
  run initial evs = Some sys -> t ∈ tasks sys ->
  is_Some (user_data (sys_state sys) !! j_chat (t_job t)).
Proof.
  intros Hrun Ht.
  apply (proj2 (run_tables evs initial sys Hrun)); [|exact Ht].
  intros t0 Ht0. cbn in Ht0. now apply elem_of_nil in Ht0.
Qed.

Lemma every_job_has_its_session_witness :
  let env := ButtonEnv None None (Ok 11%Z)
               (MediaEnv (PyFloat.of_Z 1000) "/tmp/x" None
                  (WorkerEnv (Ok (Info (Some "Song") None None None)) [] None)
                  [("Song.mp3", 5000000%N)] None None None None None None) in
  let evs := [ev_message (Message "https://youtu.be/x" 7 1) (Ok 10%Z);
              ev_callback (CallbackQuery 7 "format_mp3") env;
              ev_message (Message "https://youtu.be/y" 7 1) (Ok 12%Z);
              ev_extracted 0 (Ok (Info (Some "Song") None None None))] in
  match run initial evs with
  | Some sys =>
      exists t, t ∈ tasks sys
        /\ is_Some (user_data (sys_state sys) !! j_chat (t_job t))
  | None => False
  end.
Proof.
  cbv zeta.
  match goal with
  | |- match run initial ?evs with _ => _ end =>
      destruct (run initial evs) as [sys|] eqn:E;
      [ destruct (tasks sys) as [|t ts] eqn:Et;
        [ vm_compute in E; injection E as <-; discriminate Et
        | exists t; split;
          [ apply list_elem_of_here
          | apply (every_job_has_its_session evs sys t E);
            rewrite Et; apply list_elem_of_here ] ]
      | vm_compute in E; discriminate E ]
  end.
Defined.

(** ** The progress store under the dispatcher *)

Section Pieces.

Variable G : state -> state -> Prop.
Variable T : job -> Prop.
Hypothesis G_refl : forall st, G st st.
Hypothesis G_trans : forall st1 st2 st3, G st1 st2 -> G st2 st3 -> G st1 st3.















End Pieces.

Section Plain.

Variable G : state -> state -> Prop.
Variable T : job -> Prop.
Hypothesis G_refl : forall st, G st st.
Hypothesis G_trans : forall st1 st2 st3, G st1 st2 -> G st2 st3 -> G st1 st3.









End Plain.
















Section Busy.

Variable chat : Z.







End Busy.







(** *** The store and the handler in progress *)
















